(** * Verification of the OCC symbol codec, strike selection and order
    monitor of [atrade1.py].

    Python values are modelled as follows: [str] as [string] over ASCII,
    [float] as the primitive binary64 [float] of the Standard Library (the
    same IEEE double Python uses), [int] as [Z], JSON payloads as [json],
    raised exceptions as [Exc] of the [res] type. *)

From Stdlib Require Import ZArith List String Ascii Bool Lia.
From Stdlib Require Import Floats.
Import ListNotations.

Local Open Scope Z_scope.

(** ** Python runtime *)
Module Py.

Inductive exn : Type :=
| ValueError | IndexError | TypeError | AttributeError | OverflowError.

(** Result of a Python computation that may raise. *)
Inductive res (A : Type) : Type :=
| Ok (a : A)
| Exc (e : exn).
Arguments Ok {A} a.
Arguments Exc {A} e.

Definition bind {A B} (m : res A) (k : A -> res B) : res B :=
  match m with Ok a => k a | Exc e => Exc e end.

Notation "'let*' x ':=' m 'in' k" := (bind m (fun x => k))
  (at level 200, x name, m at level 100, right associativity).

(** *** Characters and strings (ASCII) *)

Definition is_digit (c : ascii) : bool :=
  let n := nat_of_ascii c in Nat.leb 48 n && Nat.leb n 57.

Definition digit_value (c : ascii) : Z := Z.of_nat (nat_of_ascii c - 48).

Definition digit_char (d : Z) : ascii := ascii_of_nat (Z.to_nat d + 48).

Definition upper_char (c : ascii) : ascii :=
  let n := nat_of_ascii c in
  if Nat.leb 97 n && Nat.leb n 122 then ascii_of_nat (n - 32) else c.

Definition lower_char (c : ascii) : ascii :=
  let n := nat_of_ascii c in
  if Nat.leb 65 n && Nat.leb n 90 then ascii_of_nat (n + 32) else c.

Fixpoint str_map (f : ascii -> ascii) (s : string) : string :=
  match s with
  | EmptyString => EmptyString
  | String c s' => String (f c) (str_map f s')
  end.

(** [s.upper()] and [s.lower()]. *)
Definition upper (s : string) : string := str_map upper_char s.
Definition lower (s : string) : string := str_map lower_char s.

(** [s[:n]] and [s[n:]]. *)
Fixpoint take (n : nat) (s : string) : string :=
  match n, s with
  | O, _ => EmptyString
  | _, EmptyString => EmptyString
  | S n', String c s' => String c (take n' s')
  end.

Fixpoint drop (n : nat) (s : string) : string :=
  match n, s with
  | O, _ => s
  | _, EmptyString => EmptyString
  | S n', String _ s' => drop n' s'
  end.

(** [s[n]], raising [IndexError] out of range. *)
Definition index (s : string) (n : nat) : res ascii :=
  match get n s with Some c => Ok c | None => Exc IndexError end.

(** Whitespace stripped by [float()]: ASCII spaces and the separators
    0x1c-0x1f that Python also counts as white space. *)
Definition is_space (c : ascii) : bool :=
  let n := nat_of_ascii c in
  Nat.eqb n 32 || (Nat.leb 9 n && Nat.leb n 13) || (Nat.leb 28 n && Nat.leb n 31).

Fixpoint strip_left (l : list ascii) : list ascii :=
  match l with
  | c :: r => if is_space c then strip_left r else l
  | [] => []
  end.

Definition strip (l : list ascii) : list ascii := rev (strip_left (rev (strip_left l))).

(** *** Decimal digits *)

Fixpoint digits_value_acc (acc : Z) (l : list ascii) : Z :=
  match l with
  | [] => acc
  | c :: r => digits_value_acc (acc * 10 + digit_value c) r
  end.

Definition digits_value (l : list ascii) : Z := digits_value_acc 0 l.

Fixpoint dec_digits_fuel (fuel : nat) (n : Z) (acc : list ascii) : list ascii :=
  match fuel with
  | O => acc
  | S f =>
      let acc' := digit_char (n mod 10) :: acc in
      if n <? 10 then acc' else dec_digits_fuel f (n / 10) acc'
  end.

(** [str(n)] for [n >= 0]. *)
Definition dec_digits (n : Z) : list ascii :=
  dec_digits_fuel (S (Z.to_nat (Z.log2 n))) n [].

(** [f"{z:0<w>d}"]: zero padding after the sign up to width [w]. *)
Definition format_0nd (w : nat) (z : Z) : string :=
  let ds := dec_digits (Z.abs z) in
  if z <? 0
  then string_of_list_ascii ("-"%char :: List.app (List.repeat "0"%char (w - 1 - List.length ds)) ds)
  else string_of_list_ascii (List.app (List.repeat "0"%char (w - List.length ds)) ds).

(** *** Floats *)

Local Open Scope float_scope.

(** The double nearest to [(-1)^neg * n / d], ties to even: the correctly
    rounded conversion CPython performs for [float(str)] and [float(int)]. *)
Definition float_of_ratio (neg : bool) (n : Z) (d : positive) : float :=
  match n with
  | Zpos p => SF2Prim (SFdiv prec emax (S754_finite neg p 0) (S754_finite false d 0))
  | _ => if neg then neg_zero else zero
  end.

(** [float(z)] for a Python [int]; raises when the result overflows. *)
Definition float_of_int (z : Z) : res float :=
  let f := float_of_ratio (z <? 0)%Z (Z.abs z) 1 in
  if is_infinity f then Exc OverflowError else Ok f.

(** [int(f)]: truncation toward zero. *)
Definition int_of_float (f : float) : res Z :=
  match Prim2SF f with
  | S754_zero _ => Ok 0%Z
  | S754_infinity _ => Exc OverflowError
  | S754_nan => Exc ValueError
  | S754_finite s m e =>
      let a := if (0 <=? e)%Z then Z.shiftl (Zpos m) e else Z.shiftr (Zpos m) (- e) in
      Ok (if s then (- a)%Z else a)
  end.

Local Close Scope float_scope.

(** *** [float(str)] *)

Definition is_underscore (c : ascii) : bool := Ascii.eqb c "_"%char.

(** CPython's underscore rule: an underscore must follow a digit and be
    followed by a digit. *)
Fixpoint underscores_ok (prev : ascii) (l : list ascii) : bool :=
  match l with
  | [] => negb (is_underscore prev)
  | c :: r =>
      (if is_underscore c then is_digit prev
       else negb (is_underscore prev) || is_digit c)
      && underscores_ok c r
  end.

Fixpoint span (p : ascii -> bool) (l : list ascii) : list ascii * list ascii :=
  match l with
  | c :: r => if p c then let (a, b) := span p r in (c :: a, b) else ([], l)
  | [] => ([], [])
  end.

Definition parse_sign (l : list ascii) : bool * list ascii :=
  match l with
  | c :: r =>
      if Ascii.eqb c "-"%char then (true, r)
      else if Ascii.eqb c "+"%char then (false, r) else (false, l)
  | [] => (false, l)
  end.

Definition is_e (c : ascii) : bool := Ascii.eqb c "e"%char || Ascii.eqb c "E"%char.

(** The exponent part, if one is present: [e], an optional sign, digits. *)
Definition parse_exponent (l : list ascii) : Z * list ascii :=
  match l with
  | c :: r =>
      if is_e c then
        let (neg, r1) := parse_sign r in
        let (ed, r2) := span is_digit r1 in
        match ed with
        | [] => (0%Z, l)
        | _ => ((if neg then Z.opp else id) (digits_value ed), r2)
        end
      else (0%Z, l)
  | [] => (0%Z, l)
  end.

(** [_Py_dg_strtod]: sign, digits with an optional point, optional exponent;
    the whole text must be consumed. *)
Definition parse_decimal (l : list ascii) : option float :=
  let (neg, l1) := parse_sign l in
  let (ip, l2) := span is_digit l1 in
  let '(fp, l3) :=
    match l2 with
    | c :: r => if Ascii.eqb c "."%char then span is_digit r else ([], l2)
    | [] => ([], l2)
    end in
  match List.app ip fp with
  | [] => None
  | ds =>
      let (ex, l4) := parse_exponent l3 in
      match l4 with
      | [] =>
          let n := digits_value ds in
          let e10 := (ex - Z.of_nat (List.length fp))%Z in
          Some (if (0 <=? e10)%Z then float_of_ratio neg (n * 10 ^ e10) 1
                else float_of_ratio neg n (Z.to_pos (10 ^ (- e10))))
      | _ => None
      end
  end.

Definition lower_list (l : list ascii) : list ascii := map lower_char l.

(** [_Py_parse_inf_or_nan]. *)
Definition parse_inf_nan (l : list ascii) : option float :=
  let (neg, r) := parse_sign l in
  let w := string_of_list_ascii (lower_list r) in
  if String.eqb w "inf" || String.eqb w "infinity"
  then Some (if neg then neg_infinity else infinity)
  else if String.eqb w "nan" then Some nan else None.

Definition remove_underscores (l : list ascii) : list ascii :=
  filter (fun c => negb (is_underscore c)) l.

(** [float(s)] for a string [s]. *)
Definition float_of_string (s : string) : res float :=
  let l := list_ascii_of_string s in
  if negb (underscores_ok "000"%char l) then Exc ValueError
  else
    let t := strip (remove_underscores l) in
    match parse_decimal t with
    | Some f => Ok f
    | None => match parse_inf_nan t with Some f => Ok f | None => Exc ValueError end
    end.

(** Values handed to [float()]. *)
Inductive pyval : Type :=
| PStr (s : string)
| PFloat (f : float)
| PInt (z : Z).

Definition to_float (v : pyval) : res float :=
  match v with
  | PStr s => float_of_string s
  | PFloat f => Ok f
  | PInt z => float_of_int z
  end.

End Py.

(** ** [datetime.strptime] / [strftime] for the formats the codec uses *)
Module DateFmt.
Import Py.

(** CPython's [_strptime] turns a format into a regular expression whose
    directives are alternations of fixed-length character classes:
    [%Y] is [\d\d\d\d], [%y] is [\d\d], [%m] is [1[0-2]|0[1-9]|[1-9]] and
    [%d] is [3[01]|[12]\d|0[1-9]|[1-9]| [1-9]].  The regex is matched at the
    start of the text (first successful alternative, with backtracking), and
    a match that leaves text unconsumed raises "unconverted data remains". *)
Inductive cclass : Type :=
| CDigit
| CChar (c : ascii)
| CRange (lo hi : ascii).

Definition cclass_ok (k : cclass) (c : ascii) : bool :=
  match k with
  | CDigit => is_digit c
  | CChar c' => Ascii.eqb c c'
  | CRange lo hi => Nat.leb (nat_of_ascii lo) (nat_of_ascii c) && Nat.leb (nat_of_ascii c) (nat_of_ascii hi)
  end.

Inductive directive : Type :=
| DField (alts : list (list cclass))
| DLit (c : ascii).

Fixpoint match_alt (a : list cclass) (l : list ascii) : option (list ascii * list ascii) :=
  match a, l with
  | [], _ => Some ([], l)
  | k :: a', c :: l' =>
      if cclass_ok k c then
        match match_alt a' l' with Some (m, r) => Some (c :: m, r) | None => None end
      else None
  | _ :: _, [] => None
  end.

Fixpoint first_some {A} (l : list (option A)) : option A :=
  match l with
  | [] => None
  | Some x :: _ => Some x
  | None :: r => first_some r
  end.

Fixpoint match_pat (p : list directive) (l : list ascii)
  : option (list (list ascii) * list ascii) :=
  match p with
  | [] => Some ([], l)
  | DLit c :: p' =>
      match l with
      | c' :: l' => if Ascii.eqb c c' then match_pat p' l' else None
      | [] => None
      end
  | DField alts :: p' =>
      first_some
        (map (fun a =>
                match match_alt a l with
                | Some (m, r) =>
                    match match_pat p' r with
                    | Some (fs, r') => Some (m :: fs, r')
                    | None => None
                    end
                | None => None
                end) alts)
  end.

Definition dir_Y : directive := DField [[CDigit; CDigit; CDigit; CDigit]].
Definition dir_y : directive := DField [[CDigit; CDigit]].
Definition dir_m : directive :=
  DField [[CChar "1"; CRange "0" "2"]; [CChar "0"; CRange "1" "9"]; [CRange "1" "9"]].
Definition dir_d : directive :=
  DField [[CChar "3"; CRange "0" "1"]; [CRange "1" "2"; CDigit];
          [CChar "0"; CRange "1" "9"]; [CRange "1" "9"]; [CChar " "; CRange "1" "9"]].

(** ["%Y-%m-%d"] and ["%y%m%d"]. *)
Definition pat_Ymd : list directive := [dir_Y; DLit "-"; dir_m; DLit "-"; dir_d].
Definition pat_ymd : list directive := [dir_y; dir_m; dir_d].

Record date : Type := mkdate { year : Z; month : Z; day : Z }.

Definition is_leap (y : Z) : bool :=
  ((y mod 4 =? 0) && negb (y mod 100 =? 0)) || (y mod 400 =? 0).

Definition days_in_month (y m : Z) : Z :=
  if m =? 2 then (if is_leap y then 29 else 28)
  else if (m =? 4) || (m =? 6) || (m =? 9) || (m =? 11) then 30 else 31.

(** The range check [datetime.date] performs. *)
Definition valid_date (d : date) : bool :=
  (1 <=? year d) && (year d <=? 9999) && (1 <=? month d) && (month d <=? 12)
  && (1 <=? day d) && (day d <=? days_in_month (year d) (month d)).

(** [int()] of a matched field (a space before a day digit is skipped). *)
Definition field_int (l : list ascii) : Z := digits_value (filter is_digit l).

(** Two-digit years: 69-99 are 1969-1999, 00-68 are 2000-2068. *)
Definition pivot_year (y : Z) : Z := if y <=? 68 then 2000 + y else 1900 + y.

(** [datetime.strptime(s, "%Y-%m-%d")]; [None] stands for [ValueError]. *)
Definition strptime_Ymd (s : string) : option date :=
  match match_pat pat_Ymd (list_ascii_of_string s) with
  | Some ([fy; fm; fd], []) =>
      let d := mkdate (field_int fy) (field_int fm) (field_int fd) in
      if valid_date d then Some d else None
  | _ => None
  end.

(** [datetime.strptime(s, "%y%m%d")]. *)
Definition strptime_ymd (s : string) : option date :=
  match match_pat pat_ymd (list_ascii_of_string s) with
  | Some ([fy; fm; fd], []) =>
      let d := mkdate (pivot_year (field_int fy)) (field_int fm) (field_int fd) in
      if valid_date d then Some d else None
  | _ => None
  end.

Definition pad2 (z : Z) : string := format_0nd 2 z.

(** [strftime("%y%m%d")]. *)
Definition strftime_ymd (d : date) : string :=
  (pad2 (year d mod 100) ++ pad2 (month d) ++ pad2 (day d))%string.

(** [strftime("%Y-%m-%d")] (four-digit years, which is all the codec
    produces: the two-digit pivot yields years 1969-2068). *)
Definition strftime_Ymd (d : date) : string :=
  (format_0nd 4 (year d) ++ "-" ++ pad2 (month d) ++ "-" ++ pad2 (day d))%string.

End DateFmt.

(** ** The OCC symbol codec: [parse_occ_symbol] and [create_occ_symbol] *)
Module Codec.
Import Py DateFmt.
Local Open Scope string_scope.

Record occ : Type := mkocc {
  underlying : string;
  expiration_date : string;
  otype : string;
  strike_price : float }.

(** The [for ... else] scan: the text before the first digit and the rest. *)
Fixpoint split_first_digit (s : string) : option (string * string) :=
  match s with
  | EmptyString => None
  | String c s' =>
      if is_digit c then Some (EmptyString, s)
      else match split_first_digit s' with
           | Some (u, r) => Some (String c u, r)
           | None => None
           end
  end.

(** Body of the [try] block of [parse_occ_symbol]. *)
Definition parse_occ_body (underlying rest : string) : res occ :=
  let expiry_str := take 6 rest in
  let* option_type := index rest 6 in
  let strike_price_str := drop 7 rest in
  let* dt := match strptime_ymd expiry_str with
             | Some dt => Ok dt
             | None => Exc ValueError
             end in
  let expiry := strftime_Ymd dt in
  let option_type_full := if Ascii.eqb option_type "C" then "call" else "put" in
  let* strike := float_of_string strike_price_str in
  Ok (mkocc underlying expiry option_type_full (strike / 1000)%float).

(** [parse_occ_symbol(symbol)]: [None] on failure.  The body raises only
    [IndexError] and [ValueError], which the [except] clause catches. *)
Definition parse_occ_symbol (symbol : string) : option occ :=
  match split_first_digit symbol with
  | None => None
  | Some (underlying, rest) =>
      match parse_occ_body underlying rest with
      | Ok o => Some o
      | Exc _ => None
      end
  end.

(** [int(float(strike) * 1000)]. *)
Definition strike_thousandths (strike : pyval) : res Z :=
  let* f := to_float strike in
  int_of_float (f * 1000)%float.

(** [create_occ_symbol(underlying, expiry_date, option_type, strike)]:
    [Ok None] when it prints an error and returns [None]; [Exc] when an
    exception escapes (an [OverflowError] from [int(inf)]). *)
Definition create_occ_symbol (underlying expiry_date option_type : string)
    (strike : pyval) : res (option string) :=
  match strptime_Ymd expiry_date with
  | None => Ok None
  | Some dt =>
      let expiry := strftime_ymd dt in
      let formatted :=
        let* k := strike_thousandths strike in
        Ok (format_0nd 8 k) in
      match formatted with
      | Exc ValueError => Ok None
      | Exc e => Exc e
      | Ok strike_price_formatted =>
          let opt_type := upper option_type in
          if negb (String.eqb opt_type "C" || String.eqb opt_type "P") then Ok None
          else Ok (Some (upper underlying ++ expiry ++ opt_type ++ strike_price_formatted))
      end
  end.

(** Whether a string holds no decimal digit. *)
Definition has_no_digit (s : string) : bool :=
  forallb (fun c => negb (is_digit c)) (list_ascii_of_string s).

(** The one-letter code of a decoded type, as the spec pairs them
    ([call] with [C], [put] with [P]). *)
Definition type_code (option_type_full : string) : string :=
  if String.eqb option_type_full "call" then "C" else "P".

(** Bounded enumeration of dates, for checks by evaluation. *)
Definition zrange (lo : Z) (n : nat) : list Z := map (fun i => (lo + Z.of_nat i)%Z) (seq 0 n).

Definition date_eqb (a b : date) : bool :=
  (year a =? year b)%Z && (month a =? month b)%Z && (day a =? day b)%Z.

Definition opt_date_eqb (o : option date) (d : date) : bool :=
  match o with Some d' => date_eqb d' d | None => false end.

(** The codec's date facts for one date: both text forms parse back, and
    the six-character form starts with a digit. *)
Definition date_codec_ok (d : date) : bool :=
  opt_date_eqb (strptime_ymd (strftime_ymd d)) d
  && opt_date_eqb (strptime_Ymd (strftime_Ymd d)) d
  && Nat.eqb (String.length (strftime_ymd d)) 6
  && match strftime_ymd d with String c _ => is_digit c | EmptyString => false end.

Definition all_dates_ok (y0 : Z) (ny : nat) : bool :=
  forallb (fun y =>
    forallb (fun m =>
      forallb (fun dd => implb (valid_date (mkdate y m dd)) (date_codec_ok (mkdate y m dd)))
        (zrange 1 31)) (zrange 1 12)) (zrange y0 ny).

End Codec.

(** ** Default strike: [min(range(len(sorted_strikes)), key=lambda i: abs(sorted_strikes[i] - last_price))]

    The strikes are the floats [parse_occ_symbol] produces and the reference
    price is a float (an integer price is converted to float by the
    subtraction). The distance is computed and compared in floating point, as
    Python does: [-], [abs] and [<] are the binary64 operations. *)
Module StrikeSelect.
Import Py.

Section MinBy.
Context {A K : Type} (key : A -> K) (ltb : K -> K -> bool).



End MinBy.




End StrikeSelect.

(** ** The order monitor: [poll_order_status], [place_and_monitor_order] and
    the position-intent step of [atrade1_main] *)
Module Monitor.
Import Py Codec.
Local Open Scope string_scope.

(** JSON payloads returned by the broker. *)
Inductive json : Type :=
| JNull
| JBool (b : bool)
| JInt (z : Z)
| JFloat (f : float)
| JStr (s : string)
| JList (l : list json)
| JObj (kvs : list (string * json)).

(** Lookup in a decoded object: the last binding wins, as with [json.loads]. *)
Definition obj_lookup (kvs : list (string * json)) (k : string) (default : json) : json :=
  fold_left (fun acc kv => if String.eqb (fst kv) k then snd kv else acc) kvs default.

(** [d.get(k, default)]; [AttributeError] when [d] is not a dict. *)
Definition dict_get (d : json) (k : string) (default : json) : res json :=
  match d with
  | JObj kvs => Ok (obj_lookup kvs k default)
  | _ => Exc AttributeError
  end.

(** [d.get(k, default)] with a key that may be [None] (never a JSON key). *)
Definition dict_get_opt (d : json) (k : option string) (default : json) : res json :=
  match k with
  | Some k' => dict_get d k' default
  | None => match d with JObj _ => Ok default | _ => Exc AttributeError end
  end.

(** [d[k]]. *)
Definition dict_index (d : json) (k : string) : res json :=
  match d with
  | JObj kvs =>
      match fold_left (fun acc kv => if String.eqb (fst kv) k then Some (snd kv) else acc) kvs None with
      | Some v => Ok v
      | None => Exc ValueError
      end
  | _ => Exc TypeError
  end.

(** [format(v, ".2f")]: numbers (and booleans) only. *)
Definition format_2f (j : json) : res unit :=
  match j with
  | JInt _ | JFloat _ | JBool _ => Ok tt
  | JStr _ => Exc ValueError
  | _ => Exc TypeError
  end.

(** [snapshots.get(symbol, {}).get("latestQuote", {})]. *)
Definition read_quote (snapshots : json) (symbol : option string) : res json :=
  let* snap := dict_get_opt snapshots symbol (JObj []) in
  dict_get snap "latestQuote" (JObj []).

(** The [{quote.get('bp', 0):.2f}] and [{quote.get('ap', 0):.2f}] fields. *)
Definition format_quote (quote : json) : res unit :=
  let* bp := dict_get quote "bp" (JInt 0) in
  let* _ := format_2f bp in
  let* ap := dict_get quote "ap" (JInt 0) in
  format_2f ap.

(** Python truthiness. *)
Definition truthy (j : json) : bool :=
  match j with
  | JNull => false
  | JBool b => b
  | JInt z => negb (z =? 0)%Z
  | JFloat f => negb (f =? 0)%float
  | JStr s => negb (String.eqb s EmptyString)
  | JList l => match l with [] => false | _ => true end
  | JObj kvs => match kvs with [] => false | _ => true end
  end.

(** A string method such as [s.capitalize()] or [s.upper()] on a JSON value. *)
Definition str_method (j : json) : res unit :=
  match j with JStr _ => Ok tt | _ => Exc AttributeError end.

Definition is_str (j : json) (s : string) : bool :=
  match j with JStr s' => String.eqb s' s | _ => false end.

Definition in_strs (j : json) (l : list string) : bool :=
  match j with JStr s' => existsb (String.eqb s') l | _ => false end.

(** [float(v)] on a JSON value. *)
Definition json_to_float (j : json) : res float :=
  match j with
  | JStr s => float_of_string s
  | JInt z => float_of_int z
  | JFloat f => Ok f
  | JBool b => Ok (if b then 1 else 0)%float
  | _ => Exc TypeError
  end.

(** Values iterated by [for pos in d]. *)
Definition iter_items (j : json) : res (list json) :=
  match j with
  | JList l => Ok l
  | JObj kvs => Ok (map (fun kv => JStr (fst kv)) kvs)
  | JStr s => Ok (map (fun c => JStr (String c EmptyString)) (list_ascii_of_string s))
  | _ => Exc TypeError
  end.

(** What [AlpacaClient._request] returns: [{"success": True, "data": d}] or
    [{"success": False, "error": msg}]. *)
Inductive api : Type :=
| ApiOk (data : json)
| ApiErr (msg : string).

Definition success (r : api) : bool := match r with ApiOk _ => true | ApiErr _ => false end.

(** [r.get("data", {})]; after a success check, also [r["data"]]. *)
Definition data_of (r : api) : json := match r with ApiOk d => d | ApiErr _ => JObj [] end.

(** Broker and market-data calls the monitor issues. *)
Inductive call : Type :=
| GetOrder (order_id : json)
| CancelOrder (order_id : json)
| PlaceOrder (symbol : string) (qty : json) (side : string) (order_type : string)
    (time_in_force : string) (limit_price : float)
| ReplaceOrder (order_id : json) (limit_price : float)
| GetOptionChain (underlying : string)
| GetPositions.

(** [order_to_monitor] (the timestamps only feed the display). *)
Record tracked : Type := mktracked {
  t_id : json;
  t_symbol : string;
  t_quantity : json;
  t_side : string;
  t_action : string;
  t_price : float }.

Definition set_id_price (t : tracked) (i : json) (p : float) : tracked :=
  mktracked i (t_symbol t) (t_quantity t) (t_side t) (t_action t) p.

(** The outside world: the broker's answer to the [n]-th call, the [n]-th
    keyboard poll ([select] then [read(1)]) and the [n]-th [input()] line. *)
Record env : Type := mkenv {
  gateway : nat -> call -> api;
  keys : nat -> option ascii;
  lines : nat -> string }.

Record st : Type := mkst {
  n_calls : nat;
  n_keys : nat;
  n_lines : nat;
  log : list (call * api) }.

Inductive outcome (A : Type) : Type :=
| Done (a : A)
| Raised (e : exn)
| Diverged.
Arguments Done {A} a.
Arguments Raised {A} e.
Arguments Diverged {A}.

Definition M (A : Type) : Type := st -> outcome A * st.

Definition ret {A} (a : A) : M A := fun s => (Done a, s).

Definition mbind {A B} (m : M A) (k : A -> M B) : M B :=
  fun s =>
    match m s with
    | (Done a, s1) => k a s1
    | (Raised e, s1) => (Raised e, s1)
    | (Diverged, s1) => (Diverged, s1)
    end.

Notation "x <- m ;; k" := (mbind m (fun x => k))
  (at level 61, m at next level, right associativity).

Definition lift {A} (r : res A) : M A :=
  fun s => match r with Ok a => (Done a, s) | Exc e => (Raised e, s) end.

(** A [while True] loop that has not exited within the fuel. *)
Definition diverge {A} : M A := fun s => (Diverged, s).

(** Loop step results: [continue], fall through to the status check, or
    [return]. *)
Inductive step : Type :=
| Continue (t : tracked)
| Fall (t : tracked)
| Return (status : string).

Definition non_replaceable_statuses : list string :=
  ["accepted"; "pending_new"; "pending_cancel"; "pending_replace"; "filled";
   "canceled"; "expired"; "rejected"].

(** [r.get("data", {}).get("status")]. *)
Definition status_field (r : api) : res json := dict_get (data_of r) "status" JNull.

Section Loop.
Variable E : env.

Definition gw (c : call) : M api :=
  fun s =>
    let r := gateway E (n_calls s) c in
    (Done r, mkst (S (n_calls s)) (n_keys s) (n_lines s) (log s ++ [(c, r)])).

Definition read_key : M (option ascii) :=
  fun s => (Done (keys E (n_keys s)), mkst (n_calls s) (S (n_keys s)) (n_lines s) (log s)).

Definition input : M string :=
  fun s => (Done (lines E (n_lines s)), mkst (n_calls s) (n_keys s) (S (n_lines s)) (log s)).

(** Fetch and print the live quote of the tracked symbol (both adjust
    workflows). *)
Definition show_live_quote (t : tracked) : M unit :=
  match parse_occ_symbol (t_symbol t) with
  | None => lift (Exc TypeError)
  | Some parsed =>
      chain_response <- gw (GetOptionChain (underlying parsed)) ;;
      snapshots <- lift (dict_get (data_of chain_response) "snapshots" (JObj [])) ;;
      live_quote <- lift (read_quote snapshots (Some (t_symbol t))) ;;
      lift (format_quote live_quote)
  end.

(** [while True: ... if status == "canceled": break; time.sleep(1)]. *)
Fixpoint wait_for_cancel (fuel : nat) (order_id : json) : M unit :=
  match fuel with
  | O => diverge
  | S f =>
      check_status_res <- gw (GetOrder order_id) ;;
      st <- lift (status_field check_status_res) ;;
      if is_str st "canceled" then ret tt else wait_for_cancel f order_id
  end.

(** The cancel-and-replace workflow once a new price has been read. *)
Definition cancel_and_replace (fuel : nat) (t : tracked) (new_price : float) : M step :=
  cancel_response <- gw (CancelOrder (t_id t)) ;;
  if negb (success cancel_response) then ret (Continue t)
  else
    _ <- wait_for_cancel fuel (t_id t) ;;
    new_order_response <- gw (PlaceOrder (t_symbol t) (t_quantity t) (t_side t) "limit" "day" new_price) ;;
    if success new_order_response then
      new_order_id <- lift (dict_get (data_of new_order_response) "id" JNull) ;;
      ret (Fall (set_id_price t new_order_id new_price))
    else ret (Fall t).

(** Prompt for the new price; ['q'] aborts, a non-numeric price is reported
    ([except ValueError]). *)
Definition read_new_price (k : float -> M step) (t : tracked) : M step :=
  line <- input ;;
  let new_price_str := lower line in
  if String.eqb new_price_str "q" then ret (Fall t)
  else
    match float_of_string new_price_str with
    | Ok new_price => k new_price
    | Exc _ => ret (Fall t)
    end.

Definition adjust_cancel_replace (fuel : nat) (t : tracked) : M step :=
  _ <- show_live_quote t ;;
  read_new_price (cancel_and_replace fuel t) t.

(** Standard replace: [replace_order] and adopt the returned id. *)
Definition replace_in_place (t : tracked) (new_price : float) : M step :=
  replace_response <- gw (ReplaceOrder (t_id t) new_price) ;;
  if success replace_response then
    new_order_data <- lift (dict_get (data_of replace_response) "id" (t_id t)) ;;
    ret (Fall (set_id_price t new_order_data new_price))
  else ret (Fall t).

Definition adjust_standard (t : tracked) : M step :=
  _ <- show_live_quote t ;;
  read_new_price (replace_in_place t) t.

(** The ['A'] command. *)
Definition handle_adjust (fuel : nat) (t : tracked) : M step :=
  current_order_response <- gw (GetOrder (t_id t)) ;;
  current_status <- lift (status_field current_order_response) ;;
  if in_strs current_status non_replaceable_statuses
  then adjust_cancel_replace fuel t
  else adjust_standard t.

(** The ['Q'] command. *)
Definition handle_quit (t : tracked) : M step :=
  line <- input ;;
  if String.eqb (lower line) "y" then
    cancel_response <- gw (CancelOrder (t_id t)) ;;
    if success cancel_response then ret (Return "CANCELED") else ret (Fall t)
  else ret (Fall t).

Definition handle_key (fuel : nat) (k : option ascii) (t : tracked) : M step :=
  match k with
  | Some c =>
      if Ascii.eqb (upper_char c) "Q" then handle_quit t
      else if Ascii.eqb (upper_char c) "A" then handle_adjust fuel t
      else ret (Fall t)
  | None => ret (Fall t)
  end.

(** The periodic status line: call and put quotes at the tracked strike. *)
Definition status_display (t : tracked) (status : json) : M unit :=
  match parse_occ_symbol (t_symbol t) with
  | Some parsed =>
      chain_response <- gw (GetOptionChain (underlying parsed)) ;;
      snapshots <- lift (dict_get (data_of chain_response) "snapshots" (JObj [])) ;;
      call_symbol <- lift (create_occ_symbol (underlying parsed) (expiration_date parsed) "C" (PFloat (strike_price parsed))) ;;
      put_symbol <- lift (create_occ_symbol (underlying parsed) (expiration_date parsed) "P" (PFloat (strike_price parsed))) ;;
      call_quote <- lift (read_quote snapshots call_symbol) ;;
      put_quote <- lift (read_quote snapshots put_symbol) ;;
      _ <- lift (str_method status) ;;
      _ <- lift (format_quote call_quote) ;;
      lift (format_quote put_quote)
  | None => lift (str_method status)
  end.

(** The status query at the end of each iteration. *)
Definition status_tick (t : tracked) : M step :=
  order_response <- gw (GetOrder (t_id t)) ;;
  if negb (success order_response) then ret (Continue t)
  else
    status <- lift (dict_get (data_of order_response) "status" JNull) ;;
    _ <- status_display t status ;;
    if is_str status "filled" then ret (Return "FILLED")
    else match status with
         | JStr s =>
             if existsb (String.eqb s) ["canceled"; "expired"; "rejected"]
             then ret (Return (upper s)) else ret (Fall t)
         | _ => ret (Fall t)
         end.

(** [poll_order_status]: one iteration per unit of fuel. *)
Fixpoint poll_loop (fuel : nat) (t : tracked) : M string :=
  match fuel with
  | O => diverge
  | S f =>
      k <- read_key ;;
      r <- handle_key f k t ;;
      match r with
      | Return s => ret s
      | Continue t' => poll_loop f t'
      | Fall t' =>
          r' <- status_tick t' ;;
          match r' with
          | Return s => ret s
          | Continue t'' | Fall t'' => poll_loop f t''
          end
      end
  end.

(** The ticker in front of the first digit (the closing workflow's own
    scan; the whole symbol when it has no digit). *)
Fixpoint prefix_before_digit (s : string) : string :=
  match s with
  | EmptyString => EmptyString
  | String c s' => if is_digit c then EmptyString else String c (prefix_before_digit s')
  end.

(** The round-trip block of [place_and_monitor_order], run after a fill of
    an opening order. *)
Definition closing_workflow (fuel : nat) (occ_symbol : string) (quantity : json) (action : string) : M unit :=
  let underlying_symbol := prefix_before_digit occ_symbol in
  chain_response <- gw (GetOptionChain underlying_symbol) ;;
  if negb (success chain_response) then ret tt
  else
    let snapshots := data_of chain_response in
    target_snapshot <- lift (dict_get snapshots occ_symbol JNull) ;;
    quote_ok <- (if truthy target_snapshot
                 then q <- lift (dict_get target_snapshot "quote" JNull) ;; ret (truthy q)
                 else ret false) ;;
    if negb quote_ok then ret tt
    else
      closing_quote <- lift (dict_index target_snapshot "quote") ;;
      bp <- lift (dict_index closing_quote "bp") ;; _ <- lift (format_2f bp) ;;
      ap <- lift (dict_index closing_quote "ap") ;; _ <- lift (format_2f ap) ;;
      closing_price_str <- input ;;
      if String.eqb (lower closing_price_str) "s" then ret tt
      else
        match float_of_string closing_price_str with
        | Exc _ => ret tt
        | Ok closing_price =>
            let closing_action := if String.eqb action "B" then "S" else "B" in
            let closing_side := if String.eqb closing_action "S" then "sell" else "buy" in
            closing_order_response <- gw (PlaceOrder occ_symbol quantity closing_side "limit" "day" closing_price) ;;
            if negb (success closing_order_response) then ret tt
            else
              closing_order_id <- lift (dict_get (data_of closing_order_response) "id" JNull) ;;
              _ <- poll_loop fuel (mktracked closing_order_id occ_symbol quantity closing_side closing_action closing_price) ;;
              ret tt
        end.

Definition side_of_action (action : string) : string := if String.eqb action "B" then "buy" else "sell".

(** Placement and monitoring, up to the round-trip decision. *)
Definition place_and_poll (fuel : nat) (occ_symbol : string) (quantity : json) (action : string) (price : float) : M (option string) :=
  let side := side_of_action action in
  order_response <- gw (PlaceOrder occ_symbol quantity side "limit" "day" price) ;;
  if negb (success order_response) then ret None
  else
    order_id <- lift (dict_get (data_of order_response) "id" JNull) ;;
    status <- poll_loop fuel (mktracked order_id occ_symbol quantity side action price) ;;
    ret (Some status).

(** [place_and_monitor_order]. *)
Definition place_and_monitor_order (fuel : nat) (occ_symbol : string) (quantity : json) (action : string)
    (price : float) (position_intent : string) : M unit :=
  status <- place_and_poll fuel occ_symbol quantity action price ;;
  match status with
  | Some s =>
      if String.eqb s "FILLED" && String.eqb position_intent "open"
      then closing_workflow fuel occ_symbol quantity action
      else ret tt
  | None => ret tt
  end.

(** Step 7 of [atrade1_main]: the quantity of the first position whose
    symbol is the target, [0] when there is none or the query failed. *)
Fixpoint first_position_qty (target_symbol : string) (ps : list json) : res float :=
  match ps with
  | [] => Ok 0%float
  | pos :: r =>
      let* sym := dict_get pos "symbol" JNull in
      if is_str sym target_symbol
      then let* q := dict_get pos "qty" (JInt 0) in json_to_float q
      else first_position_qty target_symbol r
  end.

Definition position_intent_of (action : string) (current_position_qty : float) : string :=
  if String.eqb action "B" && (current_position_qty <? 0)%float then "close"
  else if String.eqb action "S" && (0 <? current_position_qty)%float then "close"
  else "open".

Definition current_position_qty (target_symbol : string) : M float :=
  all_positions <- gw GetPositions ;;
  if success all_positions then
    ps <- lift (iter_items (data_of all_positions)) ;;
    lift (first_position_qty target_symbol ps)
  else ret 0%float.

Definition determine_position_intent (action target_symbol : string) : M string :=
  q <- current_position_qty target_symbol ;;
  ret (position_intent_of action q).

End Loop.

(** *** Predicates used by the statements *)

Definition is_obj (j : json) : bool := match j with JObj _ => true | _ => false end.

Definition is_num (j : json) : bool :=
  match j with JInt _ | JFloat _ | JBool _ => true | _ => false end.

(** [r.get("data", {}).get("status") == "canceled"]. *)
Definition reports_canceled (r : api) : bool :=
  match status_field r with Ok j => is_str j "canceled" | Exc _ => false end.

(** The broker reports one of the statuses that cannot be replaced in place. *)
Definition non_replaceable (r : api) : bool :=
  match status_field r with Ok j => in_strs j non_replaceable_statuses | Exc _ => false end.

(** [new_order_response["data"].get("id")]. *)
Definition returned_id (r : api) : json :=
  match data_of r with JObj kvs => obj_lookup kvs "id" JNull | _ => JNull end.

Definition quote_ok (q : json) : bool :=
  match q with
  | JObj kvs => is_num (obj_lookup kvs "bp" (JInt 0)) && is_num (obj_lookup kvs "ap" (JInt 0))
  | _ => false
  end.

Definition snapshot_ok (v : json) : bool :=
  match v with JObj kvs => quote_ok (obj_lookup kvs "latestQuote" (JObj [])) | _ => false end.

(** Option-chain data in the shape the display reads: a [snapshots] object
    whose entries carry numeric [latestQuote] prices. *)
Definition chain_ok (d : json) : bool :=
  match d with
  | JObj kvs =>
      match obj_lookup kvs "snapshots" (JObj []) with
      | JObj snaps => forallb (fun kv => snapshot_ok (snd kv)) snaps
      | _ => false
      end
  | _ => false
  end.

(** Well-formed broker answers: order payloads are objects and option-chain
    payloads have the shape the display reads. *)
Definition wf_response (c : call) (r : api) : bool :=
  match r with
  | ApiErr _ => true
  | ApiOk d =>
      match c with
      | GetOrder _ | PlaceOrder _ _ _ _ _ _ | ReplaceOrder _ _ => is_obj d
      | GetOptionChain _ => chain_ok d
      | _ => true
      end
  end.

Definition wf_env (E : env) : Prop := forall n c, wf_response c (gateway E n c) = true.

(** The entries logged by [m] consecutive status polls from call [n]. *)
Definition poll_log (E : env) (order_id : json) (n m : nat) : list (call * api) :=
  map (fun i => (GetOrder order_id, gateway E (n + i) (GetOrder order_id))) (seq 0 m).

(** *** Sample sessions *)

Definition sample_symbol : string := "X240119C00001000".

Definition sample_occ : occ :=
  Eval vm_compute in
    match parse_occ_symbol sample_symbol with
    | Some p => p
    | None => mkocc EmptyString EmptyString EmptyString 0%float
    end.

Definition sample_price : float :=
  Eval vm_compute in match float_of_string "1.25" with Ok f => f | Exc _ => 0%float end.

Definition sample_order : tracked := mktracked (JStr "o1") sample_symbol (JInt 1) "buy" "B" 1%float.

(** A broker whose order is [accepted] before call [first_canceled] and
    [canceled] from then on, and whose cancel and place calls succeed or
    fail as told. *)
Definition sample_gateway (cancel_ok place_ok : bool) (first_canceled : nat) (n : nat) (c : call) : api :=
  match c with
  | GetOrder _ =>
      ApiOk (JObj [("status", JStr (if (n <? first_canceled)%nat then "accepted" else "canceled"))])
  | CancelOrder _ => if cancel_ok then ApiOk (JObj []) else ApiErr "cancel rejected"
  | PlaceOrder _ _ _ _ _ _ => if place_ok then ApiOk (JObj [("id", JStr "o2")]) else ApiErr "order rejected"
  | GetOptionChain _ =>
      ApiOk (JObj [("snapshots",
                    JObj [(sample_symbol,
                           JObj [("latestQuote", JObj [("bp", JFloat 1%float); ("ap", JFloat 1.5%float)])])])])
  | GetPositions => ApiOk (JList [])
  | ReplaceOrder _ _ => ApiErr "not used"
  end.

Definition sample_env (cancel_ok place_ok : bool) (first_canceled : nat) : env :=
  mkenv (sample_gateway cancel_ok place_ok first_canceled)
        (fun n => if (n =? 0)%nat then Some "A"%char else None)
        (fun _ => "1.25").

Definition start : st := mkst 0 0 0 [].

(** A broker holding a long position of 5 contracts of [sample_symbol],
    filling every order, and quoting the symbol at the top level of the
    option-chain data. *)
Definition long_gateway (n : nat) (c : call) : api :=
  match c with
  | GetPositions => ApiOk (JList [JObj [("symbol", JStr sample_symbol); ("qty", JStr "5")]])
  | PlaceOrder _ _ _ _ _ _ => ApiOk (JObj [("id", JStr "o1")])
  | GetOrder _ => ApiOk (JObj [("status", JStr "filled")])
  | GetOptionChain _ =>
      ApiOk (JObj [("snapshots", JObj []);
                   (sample_symbol, JObj [("quote", JObj [("bp", JFloat 1%float); ("ap", JFloat 1.5%float)])])])
  | _ => ApiErr "not used"
  end.

Definition long_env : env := mkenv long_gateway (fun _ => None) (fun _ => "1.25").

(** Steps 7 and 8 of [atrade1_main] once the price has been accepted. *)
Definition intent_and_place (E : env) (fuel : nat) (action occ_symbol : string) (quantity : json)
    (price : float) : M unit :=
  position_intent <- determine_position_intent E action occ_symbol ;;
  place_and_monitor_order E fuel occ_symbol quantity action price position_intent.

End Monitor.

(** ** Python [int]: [str(z)] and [int(s)] *)
Module PyInt.
Import Py.

(** [str(z)] for a Python [int]. *)
Definition str_int (z : Z) : string :=
  if z <? 0 then String "-" (string_of_list_ascii (dec_digits (- z)))
  else string_of_list_ascii (dec_digits z).

(** [int(s)] for a string: surrounding white space, an optional sign, then
    decimal digits where single underscores may separate two digits; more
    than 4300 digits raise ([sys.int_info.default_max_str_digits]). *)
Definition int_of_string (s : string) : res Z :=
  let (neg, r) := parse_sign (strip (list_ascii_of_string s)) in
  let ds := remove_underscores r in
  match ds with
  | [] => Exc ValueError
  | _ =>
      if forallb (fun c => is_digit c || is_underscore c) r && underscores_ok "+"%char r
         && (List.length ds <=? 4300)%nat
      then Ok (if neg then - digits_value ds else digits_value ds)
      else Exc ValueError
  end.

End PyInt.

(** ** Statements about runs of the monitor *)
Module MonitorSpec.
Import Py Codec Monitor.
Local Open Scope string_scope.

(** The statuses [poll_order_status] returns. *)
Definition monitor_outcomes : list string := ["FILLED"; "CANCELED"; "EXPIRED"; "REJECTED"].

(** A log entry that, if it places an order, places [quantity] of [symbol]
    on [side]. *)
Definition places_only (symbol : string) (quantity : json) (side : string) (e : call * api) : Prop :=
  match fst e with
  | PlaceOrder s q sd _ _ _ => s = symbol /\ q = quantity /\ sd = side
  | _ => True
  end.

(** A computation whose new log entries all satisfy [P] and whose results
    satisfy [Q], from every state. *)
Definition runs {A} (P : call * api -> Prop) (Q : A -> Prop) (m : M A) : Prop :=
  forall s, exists l, log (snd (m s)) = (log s ++ l)%list /\ Forall P l /\
    (forall a, fst (m s) = Done a -> Q a).

(** The tracked order still has the symbol, quantity and side of [t0]. *)
Definition same_order (t0 t : tracked) : Prop :=
  t_symbol t = t_symbol t0 /\ t_quantity t = t_quantity t0 /\ t_side t = t_side t0.

Definition step_ok (t0 : tracked) (r : step) : Prop :=
  match r with
  | Continue t | Fall t => same_order t0 t
  | Return s => In s monitor_outcomes
  end.

(** The id the standard replace adopts: [data.get("id", order_id)]. *)
Definition replaced_id (r : api) (old : json) : json :=
  match data_of r with JObj kvs => obj_lookup kvs "id" old | _ => old end.

End MonitorSpec.


(** ** [find_and_adopt_orphaned_order] *)
Module Adopt.
Import Py PyInt Codec Monitor.
Local Open Scope string_scope.

(** [x in s] for strings. *)
Fixpoint contains (x s : string) : bool :=
  String.prefix x s ||
  match s with
  | EmptyString => false
  | String _ s' => contains x s'
  end.

(** [x in container] for a string [x]. *)
Definition py_in (x : string) (container : json) : res bool :=
  match container with
  | JStr s => Ok (contains x s)
  | JList l => Ok (existsb (fun j => is_str j x) l)
  | JObj kvs => Ok (existsb (fun kv => String.eqb (fst kv) x) kvs)
  | _ => Exc TypeError
  end.

(** [order.get("symbol", "").startswith(prefix)]. *)
Definition symbol_startswith (prefix : string) (order : json) : res bool :=
  let* sym := dict_get order "symbol" (JStr EmptyString) in
  match sym with
  | JStr s => Ok (String.prefix prefix s)
  | _ => Exc AttributeError
  end.

(** [[x for x in l if f(x)]], [f] evaluated left to right. *)
Fixpoint filter_res (f : json -> res bool) (l : list json) : res (list json) :=
  match l with
  | [] => Ok []
  | x :: r =>
      let* b := f x in
      let* r' := filter_res f r in
      Ok (if b then x :: r' else r')
  end.

(** The [working_orders] list of a successful [get_open_orders] answer. *)
Definition working_orders (symbol_input : string) (open_orders_response : api) : res (list json) :=
  let* data := iter_items (data_of open_orders_response) in
  filter_res (symbol_startswith (upper symbol_input)) data.

(** The listing loop: [order['symbol']], [order['side']], [order['qty']],
    [order['limit_price']], [order['status']]. *)
Fixpoint print_orders (l : list json) : res unit :=
  match l with
  | [] => Ok tt
  | order :: r =>
      let* _ := dict_index order "symbol" in
      let* _ := dict_index order "side" in
      let* _ := dict_index order "qty" in
      let* _ := dict_index order "limit_price" in
      let* _ := dict_index order "status" in
      print_orders r
  end.

Section Adopt.
Variable E : env.

(** The monitoring and closing leg of an adopted order whose symbol or side
    is not a string ([poll_order_status] and [place_and_monitor_order] with
    the fields as [order_to_monitor] holds them, then [return True]). The
    monitor model keeps the symbol and the side as strings, as the broker
    reports them, so this case is left as a parameter: it receives the id,
    the symbol, the quantity, the side, the action, the price and the
    position intent. *)
Variable adopt_untyped : json -> json -> float -> json -> string -> float -> string -> M bool.

(** The user's choice among the working orders. [None] when nothing is
    adopted: a declined prompt, a choice [<= 0], or an invalid selection
    ([except (ValueError, IndexError)]), each of which ends in [return False]. *)
Definition choose_order (working : list json) : M (option json) :=
  match working with
  | [order] =>
      adopt_choice <- input E ;;
      if String.eqb (lower adopt_choice) "y" then ret (Some order) else ret None
  | _ =>
      line <- input E ;;
      match int_of_string line with
      | Ok choice =>
          if (0 <? choice)%Z then
            match nth_error working (Z.to_nat (choice - 1)%Z) with
            | Some order => ret (Some order)
            | None => ret None
            end
          else ret None
      | Exc ValueError => ret None
      | Exc e => lift (Exc e)
      end
  end.

(** Monitoring of an adopted order, and the closing leg after a filled
    opening order. A symbol or side that is not a string goes to
    [adopt_untyped]. The placeholder limit price [0] is passed as [0.0]. *)
Definition adopt_order (fuel : nat) (orphaned_order : json) : M bool :=
  pi <- lift (dict_get orphaned_order "position_intent" (JStr EmptyString)) ;;
  is_close <- lift (py_in "close" pi) ;;
  let position_intent := if is_close then "close" else "open" in
  order_id <- lift (dict_index orphaned_order "id") ;;
  symbol <- lift (dict_index orphaned_order "symbol") ;;
  qty <- lift (dict_index orphaned_order "qty") ;;
  quantity <- lift (json_to_float qty) ;;
  side <- lift (dict_index orphaned_order "side") ;;
  let action := if is_str side "buy" then "B" else "S" in
  limit_price <- lift (dict_index orphaned_order "limit_price") ;;
  price <- lift (json_to_float limit_price) ;;
  match symbol, side with
  | JStr sym, JStr sd =>
      status <- poll_loop E fuel (mktracked order_id sym (JFloat quantity) sd action price) ;;
      _ <- (if String.eqb status "FILLED" && String.eqb position_intent "open"
            then place_and_monitor_order E fuel sym (JFloat quantity)
                   (if String.eqb action "B" then "S" else "B") 0%float "close"
            else ret tt) ;;
      ret true
  | _, _ => adopt_untyped order_id symbol quantity side action price position_intent
  end.

(** [find_and_adopt_orphaned_order] after its [get_open_orders] request. *)
Definition find_and_adopt (fuel : nat) (symbol_input : string) (open_orders_response : api) : M bool :=
  if negb (success open_orders_response) then ret false
  else
    working <- lift (working_orders symbol_input open_orders_response) ;;
    match working with
    | [] => ret false
    | _ =>
        _ <- lift (print_orders working) ;;
        orphaned_order <- choose_order working ;;
        match orphaned_order with
        | Some order => if truthy order then adopt_order fuel order else ret false
        | None => ret false
        end
    end.

End Adopt.

End Adopt.


(** ** Steps of [atrade1_main] *)
Module MainSteps.
Import Py PyInt DateFmt Codec Monitor.
Local Open Scope string_scope.

(** [s.split()]: the maximal runs of non-white-space characters. *)
Fixpoint split_aux (l : list ascii) (cur : list ascii) : list (list ascii) :=
  match l with
  | [] => match cur with [] => [] | _ => [rev cur] end
  | c :: r =>
      if is_space c then
        match cur with [] => split_aux r [] | _ => rev cur :: split_aux r [] end
      else split_aux r (c :: cur)
  end.

Definition py_split (s : string) : list string :=
  map string_of_list_ascii (split_aux (list_ascii_of_string s) []).

(** A field of a whitespace-separated line: non-empty, no white space. *)
Definition is_word (w : string) : bool :=
  negb (String.eqb w EmptyString) && forallb (fun c => negb (is_space c)) (list_ascii_of_string w).

(** An order typed at the ACTION prompt. *)
Record order_request : Type := mkreq {
  req_action : string;
  req_option_type : string;
  req_price : float;
  req_quantity : Z }.

(** Step 6 of [atrade1_main]. [Ok None] is a [continue] (a wrong number of
    fields, or [float(price_str)] failing); [int(parts[3])] is not guarded
    and raises to the outer [except Exception]. *)
Definition read_action (action_input_raw : string) : res (option order_request) :=
  let action_input := string_of_list_ascii (strip (list_ascii_of_string (upper action_input_raw))) in
  let parts := py_split action_input in
  if (List.length parts <? 3)%nat || (4 <? List.length parts)%nat then Ok None
  else
    let action := nth 0 parts EmptyString in
    let option_type_in := nth 1 parts EmptyString in
    let price_str := nth 2 parts EmptyString in
    let* quantity :=
      if (List.length parts =? 4)%nat then int_of_string (nth 3 parts EmptyString) else Ok 1%Z in
    match float_of_string price_str with
    | Ok price => Ok (Some (mkreq action option_type_in price quantity))
    | Exc ValueError => Ok None
    | Exc e => Exc e
    end.

(** Python's [<] on strings: code-point order. *)
Definition str_ltb (a b : string) : bool :=
  match String.compare a b with Lt => true | _ => false end.

Fixpoint insert_str (x : string) (l : list string) : list string :=
  match l with
  | [] => [x]
  | y :: r => if str_ltb y x then y :: insert_str x r else x :: l
  end.

(** [sorted(list(set(xs)))]. *)
Definition sorted_set (xs : list string) : list string :=
  fold_left (fun acc x => if existsb (String.eqb x) acc then acc else insert_str x acc) xs [].

(** [expirations] of [atrade1_main] for the items of [snapshots]. *)
Definition expirations (snapshots : list (string * json)) : list string :=
  sorted_set
    (flat_map (fun kv => match parse_occ_symbol (fst kv) with
                         | Some parsed => [expiration_date parsed]
                         | None => []
                         end) snapshots).

(** Calendar order of dates. *)
Definition date_leb (d1 d2 : date) : bool :=
  (year d1 <? year d2)%Z
  || ((year d1 =? year d2)%Z
      && ((month d1 <? month d2)%Z || ((month d1 =? month d2)%Z && (day d1 <=? day d2)%Z))).

End MainSteps.

(** ** [format_time] of [poll_order_status] *)
Module TimeFmt.
Import Py PyInt.
Local Open Scope string_scope.

(** [mins, secs = divmod(s, 60)]; [f"{mins}m{secs}s" if mins > 0 else f"{secs}s"]. *)
Definition format_time (s : Z) : string :=
  let mins := (s / 60)%Z in
  let secs := (s mod 60)%Z in
  if (0 <? mins)%Z then str_int mins ++ "m" ++ str_int secs ++ "s" else str_int secs ++ "s".

End TimeFmt.

(** ** More sample sessions *)
Module MoreSamples.
Import Py Monitor.
Local Open Scope string_scope.

(** A broker whose order is [new] (replaceable in place) and whose replace
    answers with the id of the replacement order. *)
Definition replace_gateway (n : nat) (c : call) : api :=
  match c with
  | GetOrder _ => ApiOk (JObj [("status", JStr "new")])
  | ReplaceOrder _ _ => ApiOk (JObj [("id", JStr "o3")])
  | _ => sample_gateway true true 0 n c
  end.

(** A session whose every key press is [k] and whose every line is [line]. *)
Definition typing_env (g : nat -> call -> api) (k : ascii) (line : string) : env :=
  mkenv g (fun _ => Some k) (fun _ => line).

(** A working order as [get_open_orders] lists it: an opening buy of one
    [sample_symbol] contract at 1.25. *)
Definition adopt_sample : json :=
  JObj [("id", JStr "o1"); ("symbol", JStr sample_symbol); ("qty", JStr "1"); ("side", JStr "buy");
        ("limit_price", JStr "1.25"); ("status", JStr "new"); ("position_intent", JStr "buy_to_open")].

(** A [get_open_orders] answer with two working orders on [sample_symbol]. *)
Definition two_orders : api :=
  ApiOk (JList [adopt_sample;
                JObj [("id", JStr "o2"); ("symbol", JStr sample_symbol); ("qty", JStr "2");
                      ("side", JStr "sell"); ("limit_price", JStr "2.5"); ("status", JStr "new")]]).

(** A broker that answers the positions request with [ans] and otherwise
    as [sample_gateway]. *)
Definition positions_gateway (ans : api) (n : nat) (c : call) : api :=
  match c with
  | GetPositions => ans
  | _ => sample_gateway true true 0 n c
  end.

(** A positions answer with one short position, on a symbol other than
    [sample_symbol]. *)
Definition other_positions : api :=
  ApiOk (JList [JObj [("symbol", JStr "Y240119C00001000"); ("qty", JStr "-3")]]).

(** A stand-in for the monitoring of an adopted order whose symbol or side
    is not a string; the sample orders have string fields and never reach
    it. *)
Definition untyped_stub (_ : json) (_ : json) (_ : float) (_ : json) (_ : string) (_ : float) (_ : string) : M bool :=
  ret true.

(** Option-chain snapshots with two expirations, listed out of order. *)
Definition sample_chain : list (string * json) :=
  [("SPY240119P00450000", JNull); ("SPY231215C00400000", JNull); ("SPY240119C00450000", JNull)].

End MoreSamples.

(** * Properties *)

(** ** Default strike selection *)
Module StrikeSelectFacts.
Import Py StrikeSelect.
Local Open Scope float_scope.

(** *** Order of binary64 values

    [SFcompare] orders non-NaN values lexicographically by sign, exponent and
    mantissa; [sf_rank] maps them to integer triples ordered the same way. *)

Definition sf_rank (f : spec_float) : Z * Z * Z :=
  match f with
  | S754_zero _ | S754_nan => (0%Z, 0%Z, 0%Z)
  | S754_infinity s => ((if s then -2 else 2), 0, 0)%Z
  | S754_finite false m e => (1, e, Zpos m)%Z
  | S754_finite true m e => (-1, - e, Zneg m)%Z
  end.

Definition lex3 (a b : Z * Z * Z) : comparison :=
  let '(a1, a2, a3) := a in
  let '(b1, b2, b3) := b in
  match Z.compare a1 b1 with
  | Eq => match Z.compare a2 b2 with Eq => Z.compare a3 b3 | c => c end
  | c => c
  end.

Lemma SFcompare_rank (f g : spec_float) :
  f <> S754_nan -> g <> S754_nan -> SFcompare f g = Some (lex3 (sf_rank f) (sf_rank g)).
Proof.
  intros Hf Hg.
  destruct f as [sf|sf| |sf mf ef]; [| |congruence|];
  destruct g as [sg|sg| |sg mg eg]; try congruence;
  try destruct sf; try destruct sg; try reflexivity.
  all: simpl; try rewrite Z.compare_opp; try rewrite (Z.compare_antisym ef eg);
    destruct (Z.compare ef eg); reflexivity.
Qed.


Lemma lex3_eq (a b : Z * Z * Z) : lex3 a b = Eq <-> a = b.
Proof.
  destruct a as [[a1 a2] a3], b as [[b1 b2] b3]; simpl.
  destruct (Z.compare_spec a1 b1); [destruct (Z.compare_spec a2 b2); [destruct (Z.compare_spec a3 b3)|..]|..];
    split; intro Hc; try discriminate; try (injection Hc; lia); subst; reflexivity.
Qed.

Definition not_nan (x : float) : Prop := Prim2SF x <> S754_nan.

Lemma ltb_not_nan (x y : float) : (x <? y)%float = true -> not_nan x /\ not_nan y.
Proof.
  rewrite FloatAxioms.ltb_spec. unfold SFltb, not_nan.
  destruct (Prim2SF x), (Prim2SF y); simpl; intro H; split; congruence.
Qed.


Lemma float_ltb_rank (x y : float) : not_nan x -> not_nan y ->
  (x <? y)%float = true <-> lex3 (sf_rank (Prim2SF x)) (sf_rank (Prim2SF y)) = Lt.
Proof.
  intros Hx Hy. rewrite FloatAxioms.ltb_spec. unfold SFltb. rewrite SFcompare_rank by assumption.
  destruct (lex3 _ _); split; congruence.
Qed.


Lemma float_leb_rank (x y : float) : not_nan x -> not_nan y ->
  (x <=? y)%float = true <-> lex3 (sf_rank (Prim2SF x)) (sf_rank (Prim2SF y)) <> Gt.
Proof.
  intros Hx Hy. rewrite FloatAxioms.leb_spec. unfold SFleb. rewrite SFcompare_rank by assumption.
  destruct (lex3 _ _); split; congruence.
Qed.





Lemma float_ltb_leb (x y : float) : (x <? y)%float = true -> (x <=? y)%float = true.
Proof.
  intro H. destruct (ltb_not_nan _ _ H) as [Hx Hy].
  apply float_leb_rank; try assumption. apply float_ltb_rank in H; try assumption. congruence.
Qed.

Lemma float_leb_refl (x : float) : not_nan x -> (x <=? x)%float = true.
Proof.
  intro Hx. apply float_leb_rank; try assumption. rewrite (proj2 (lex3_eq _ _) eq_refl). congruence.
Qed.

Section MinBySpec.
Context {A K : Type} (key : A -> K) (ltb : K -> K -> bool) (P : K -> Prop).
Hypothesis ltb_irrefl : forall a, ltb a a = false.
Hypothesis ltb_trans : forall a b c, ltb a b = true -> ltb b c = true -> ltb a c = true.
Hypothesis ltb_negtrans : forall a b c, P c -> ltb a b = true -> ltb a c = true \/ ltb c b = true.



End MinBySpec.





End StrikeSelectFacts.

(** ** The OCC codec *)
Module CodecFacts.
Import Py DateFmt Codec.
Local Open Scope string_scope.

(** *** Characters *)

Lemma upper_char_digit (c : ascii) : is_digit (upper_char c) = is_digit c.
Proof. destruct c as [[] [] [] [] [] [] [] []]; reflexivity. Qed.

Lemma upper_char_CP (c : ascii) :
  upper_char c = "C"%char \/ upper_char c = "P"%char ->
  c = "C"%char \/ c = "c"%char \/ c = "P"%char \/ c = "p"%char.
Proof.
  destruct c as [[] [] [] [] [] [] [] []]; vm_compute;
    intros [H | H]; first [discriminate H | tauto].
Qed.

Lemma digit_not_special (c : ascii) :
  is_digit c = true ->
  is_space c = false /\ is_underscore c = false /\
  Ascii.eqb c "-"%char = false /\ Ascii.eqb c "+"%char = false /\ Ascii.eqb c "."%char = false.
Proof. destruct c as [[] [] [] [] [] [] [] []]; vm_compute; first [discriminate | tauto]. Qed.

Lemma digit_char_ok (d : Z) :
  (0 <= d < 10)%Z -> is_digit (digit_char d) = true /\ digit_value (digit_char d) = d.
Proof.
  intro H.
  assert (d = 0 \/ d = 1 \/ d = 2 \/ d = 3 \/ d = 4 \/ d = 5 \/ d = 6 \/ d = 7 \/ d = 8 \/ d = 9)%Z
    as Hd by lia.
  repeat destruct Hd as [-> | Hd]; try (subst d); split; reflexivity.
Qed.

(** *** [str(n)] and [float()] on digit strings *)

Lemma digits_value_acc_app (acc : Z) (l1 l2 : list ascii) :
  digits_value_acc acc (List.app l1 l2) = digits_value_acc (digits_value_acc acc l1) l2.
Proof. revert acc; induction l1 as [|c l1 IH]; intro acc; simpl; auto. Qed.

Lemma digits_value_zeros (n : nat) : digits_value_acc 0 (List.repeat "0"%char n) = 0%Z.
Proof. induction n as [|n IH]; simpl; auto. Qed.

Lemma dec_digits_fuel_value (f : nat) (n : Z) (acc : list ascii) :
  (0 <= n < 10 ^ Z.of_nat f)%Z ->
  digits_value_acc 0 (dec_digits_fuel f n acc) = digits_value_acc n acc.
Proof.
  revert n acc; induction f as [|f IH]; intros n acc Hn; simpl.
  - replace n with 0%Z by (simpl in Hn; lia); reflexivity.
  - rewrite Nat2Z.inj_succ, Z.pow_succ_r in Hn by lia.
    assert (Hm : (0 <= n mod 10 < 10)%Z) by (apply Z.mod_pos_bound; lia).
    destruct (digit_char_ok _ Hm) as [_ Hv].
    destruct (n <? 10)%Z eqn:Hlt.
    + simpl; rewrite Hv, Z.mod_small by (apply Z.ltb_lt in Hlt; lia); reflexivity.
    + apply Z.ltb_ge in Hlt.
      rewrite IH by (split; [apply Z.div_pos | apply Z.div_lt_upper_bound]; lia).
      simpl; rewrite Hv; f_equal.
      rewrite (Z.div_mod n 10) at 3 by lia; lia.
Qed.

Lemma dec_digits_value (n : Z) : (0 <= n)%Z -> digits_value (dec_digits n) = n.
Proof.
  intro Hn; unfold digits_value, dec_digits.
  rewrite dec_digits_fuel_value; [reflexivity|].
  split; [exact Hn|].
  rewrite Nat2Z.inj_succ, Z2Nat.id by apply Z.log2_nonneg.
  destruct (Z.eq_dec n 0) as [-> | Hnz]; [simpl; lia|].
  destruct (Z.log2_spec n) as [_ H2]; [lia|].
  apply (Z.lt_le_trans _ _ _ H2).
  rewrite <- Z.add_1_r; apply Z.pow_le_mono_l.
  pose proof (Z.log2_nonneg n); lia.
Qed.

Lemma dec_digits_fuel_digits (f : nat) (n : Z) (acc : list ascii) :
  (0 <= n)%Z -> Forall (fun c => is_digit c = true) acc ->
  Forall (fun c => is_digit c = true) (dec_digits_fuel f n acc).
Proof.
  revert n acc; induction f as [|f IH]; intros n acc Hn Hacc; simpl; [exact Hacc|].
  assert (Hm : (0 <= n mod 10 < 10)%Z) by (apply Z.mod_pos_bound; lia).
  destruct (digit_char_ok _ Hm) as [Hd _].
  destruct (n <? 10)%Z; [constructor; auto|].
  apply IH; [apply Z.div_pos; lia | constructor; auto].
Qed.

Lemma dec_digits_fuel_nonempty (f : nat) (n : Z) (acc : list ascii) :
  acc <> [] -> dec_digits_fuel f n acc <> [].
Proof.
  revert n acc; induction f as [|f IH]; intros n acc H; simpl; [exact H|].
  destruct (n <? 10)%Z; [intro Hc; discriminate Hc | apply IH; intro Hc; discriminate Hc].
Qed.

Lemma underscores_ok_digits (prev : ascii) (l : list ascii) :
  is_underscore prev = false -> Forall (fun c => is_digit c = true) l -> underscores_ok prev l = true.
Proof.
  revert prev; induction l as [|c l IH]; intros prev Hp Hl; simpl; [rewrite Hp; reflexivity|].
  inversion Hl as [|? ? Hc Hr]; subst.
  destruct (digit_not_special c Hc) as (_ & Hu & _).
  rewrite Hu, Hp, IH by assumption; reflexivity.
Qed.

Lemma strip_left_digits (l : list ascii) :
  Forall (fun c => is_digit c = true) l -> strip_left l = l.
Proof.
  destruct l as [|c l]; intro H; [reflexivity|]; simpl.
  inversion H; subst; destruct (digit_not_special c) as (-> & _); auto.
Qed.

Lemma span_digits (l : list ascii) :
  Forall (fun c => is_digit c = true) l -> span is_digit l = (l, []).
Proof.
  induction l as [|c l IH]; intro H; [reflexivity|]; simpl.
  inversion H as [|? ? Hc Hr]; subst; rewrite Hc, IH by exact Hr; reflexivity.
Qed.

(** [float(s)] of a non-empty digit string is the correctly rounded value
    of the digits. *)
Lemma float_of_string_digits (l : list ascii) :
  l <> [] -> Forall (fun c => is_digit c = true) l ->
  float_of_string (string_of_list_ascii l) = Ok (float_of_ratio false (digits_value l) 1).
Proof.
  intros Hne Hd; unfold float_of_string.
  rewrite list_ascii_of_string_of_list_ascii.
  rewrite underscores_ok_digits by (reflexivity || exact Hd); simpl negb; cbv iota.
  assert (Hrm : remove_underscores l = l).
  { clear Hne; unfold remove_underscores; induction Hd as [|c l Hc Hr IH]; [reflexivity|]; simpl.
    destruct (digit_not_special c Hc) as (_ & -> & _); simpl; rewrite IH; reflexivity. }
  assert (Hst : strip l = l).
  { unfold strip; rewrite (strip_left_digits l Hd), strip_left_digits, rev_involutive;
      [reflexivity | apply Forall_rev; exact Hd]. }
  rewrite Hrm, Hst.
  destruct l as [|c r]; [congruence|].
  inversion Hd as [|? ? Hc Hr]; subst.
  destruct (digit_not_special c Hc) as (_ & _ & Hm & Hp & _).
  unfold parse_decimal; simpl parse_sign; rewrite Hm, Hp.
  rewrite span_digits by exact Hd; simpl.
  rewrite app_nil_r, Z.mul_1_r; reflexivity.
Qed.

Lemma format_0nd_nonneg (w : nat) (k : Z) :
  (0 <= k)%Z ->
  format_0nd w k = string_of_list_ascii (List.app (List.repeat "0"%char (w - List.length (dec_digits k))) (dec_digits k)).
Proof.
  intro Hk; unfold format_0nd.
  replace (k <? 0)%Z with false by (symmetry; apply Z.ltb_ge; exact Hk).
  rewrite Z.abs_eq by exact Hk; reflexivity.
Qed.

(** Reading back an eight-digit strike field. *)
Lemma float_of_string_format (k : Z) :
  (0 <= k)%Z -> float_of_string (format_0nd 8 k) = Ok (float_of_ratio false k 1).
Proof.
  intro Hk; rewrite format_0nd_nonneg by exact Hk.
  assert (Hds : Forall (fun c => is_digit c = true) (dec_digits k))
    by (apply dec_digits_fuel_digits; auto).
  rewrite float_of_string_digits.
  - unfold digits_value; rewrite digits_value_acc_app, digits_value_zeros.
    fold (digits_value (dec_digits k)); rewrite dec_digits_value by exact Hk; reflexivity.
  - intro H; apply app_eq_nil in H; destruct H as [_ H].
    revert H; unfold dec_digits; cbn [dec_digits_fuel].
    destruct (k <? 10)%Z; [intro Hc; discriminate Hc | apply dec_digits_fuel_nonempty; intro Hc; discriminate Hc].
  - apply Forall_app; split; [apply Forall_forall; intros c Hc; apply repeat_spec in Hc; subst; reflexivity | exact Hds].
Qed.

(** *** Strings *)

Lemma has_no_digit_upper (u : string) : has_no_digit u = true -> has_no_digit (upper u) = true.
Proof.
  unfold has_no_digit, upper; induction u as [|c u IH]; simpl; [auto|].
  rewrite upper_char_digit, !andb_true_iff; intros [H1 H2]; auto.
Qed.

Lemma split_no_digit (s : string) : has_no_digit s = true -> split_first_digit s = None.
Proof.
  unfold has_no_digit; induction s as [|c s IH]; simpl; [auto|].
  rewrite andb_true_iff; intros [H1 H2].
  destruct (is_digit c); [discriminate|]; rewrite IH by exact H2; reflexivity.
Qed.

Lemma split_first_digit_app (a b : string) :
  has_no_digit a = true ->
  match b with String c _ => is_digit c | EmptyString => false end = true ->
  split_first_digit (a ++ b) = Some (a, b).
Proof.
  unfold has_no_digit; induction a as [|c a IH]; simpl; intros Ha Hb.
  - destruct b as [|c b]; [discriminate|]; simpl; rewrite Hb; reflexivity.
  - apply andb_true_iff in Ha; destruct Ha as [H1 H2].
    destruct (is_digit c); [discriminate|]; rewrite IH by assumption; reflexivity.
Qed.

Lemma take_app (a b : string) : take (String.length a) (a ++ b) = a.
Proof. induction a as [|c a IH]; simpl; [reflexivity | rewrite IH; reflexivity]. Qed.

Lemma drop_app (a b : string) (n : nat) : drop (String.length a + n) (a ++ b) = drop n b.
Proof. induction a as [|c a IH]; simpl; [reflexivity | exact IH]. Qed.

Lemma get_app (a b : string) (c : ascii) : get (String.length a) (a ++ String c b) = Some c.
Proof. induction a as [|c' a IH]; simpl; [reflexivity | exact IH]. Qed.

Lemma take6 (a b : string) : String.length a = 6%nat -> take 6 (a ++ b) = a.
Proof. intro H; rewrite <- H; apply take_app. Qed.

Lemma index6 (a b : string) (c : ascii) : String.length a = 6%nat -> index (a ++ String c b) 6 = Ok c.
Proof. intro H; unfold index; rewrite <- H, get_app; reflexivity. Qed.

Lemma drop7 (a b : string) (c : ascii) : String.length a = 6%nat -> drop 7 (a ++ String c b) = b.
Proof. intro H; change 7%nat with (6 + 1)%nat; rewrite <- H, drop_app; reflexivity. Qed.

Lemma get_short (n : nat) (s : string) : (String.length s <= n)%nat -> get n s = None.
Proof.
  revert n; induction s as [|c s IH]; intros n H; [reflexivity|].
  destruct n as [|n]; simpl in *; [lia | apply IH; lia].
Qed.

Lemma drop_short (n : nat) (s : string) : (String.length s <= n)%nat -> drop n s = EmptyString.
Proof.
  revert n; induction s as [|c s IH]; intros n H; [destruct n; reflexivity|].
  destruct n as [|n]; simpl in *; [lia | apply IH; lia].
Qed.

(** *** Dates *)

Lemma all_dates_ok_1969 : all_dates_ok 1969 100 = true.
Proof. vm_compute; reflexivity. Qed.

Lemma in_zrange (lo : Z) (n : nat) (x : Z) : In x (zrange lo n) <-> (lo <= x < lo + Z.of_nat n)%Z.
Proof.
  unfold zrange; rewrite in_map_iff; split.
  - intros (i & <- & Hi); apply in_seq in Hi; lia.
  - intro H; exists (Z.to_nat (x - lo)); split; [lia | apply in_seq; lia].
Qed.

Lemma days_in_month_le (y m : Z) : (days_in_month y m <= 31)%Z.
Proof.
  unfold days_in_month; destruct (m =? 2)%Z;
    [destruct (is_leap y) | destruct ((m =? 4)%Z || (m =? 6)%Z || (m =? 9)%Z || (m =? 11)%Z)]; lia.
Qed.

Lemma opt_date_eqb_true (o : option date) (d : date) : opt_date_eqb o d = true -> o = Some d.
Proof.
  destruct o as [[y m dd]|]; [|discriminate]; destruct d as [y' m' dd']; unfold opt_date_eqb, date_eqb; simpl.
  rewrite !andb_true_iff, !Z.eqb_eq; intros [[-> ->] ->]; reflexivity.
Qed.

Lemma implb_true_l (b : bool) : implb true b = b.
Proof. reflexivity. Qed.

Lemma all_dates_ok_spec (y0 : Z) (n : nat) (d : date) :
  all_dates_ok y0 n = true -> valid_date d = true -> (y0 <= year d < y0 + Z.of_nat n)%Z ->
  date_codec_ok d = true.
Proof.
  intros H Hv Hy; destruct d as [y m dd]; cbn [year] in Hy.
  unfold all_dates_ok in H.
  rewrite forallb_forall in H; specialize (H y (proj2 (in_zrange y0 n y) Hy)).
  pose proof Hv as Hv'; unfold valid_date in Hv'; cbn [year month day] in Hv'.
  rewrite !andb_true_iff, !Z.leb_le in Hv'.
  pose proof (days_in_month_le y m).
  rewrite forallb_forall in H; specialize (H m (proj2 (in_zrange 1 12 m) ltac:(simpl; lia))).
  rewrite forallb_forall in H; specialize (H dd (proj2 (in_zrange 1 31 dd) ltac:(simpl; lia))).
  rewrite Hv, implb_true_l in H; exact H.
Qed.

(** The date facts the codec relies on, for every valid date with a year
    in 1969-2068 (checked by enumeration). *)
Lemma date_facts (d : date) :
  valid_date d = true -> (1969 <= year d <= 2068)%Z ->
  strptime_ymd (strftime_ymd d) = Some d /\ strptime_Ymd (strftime_Ymd d) = Some d /\
  String.length (strftime_ymd d) = 6%nat /\
  match strftime_ymd d with String c _ => is_digit c | EmptyString => false end = true.
Proof.
  intros Hv Hy.
  assert (Hok : date_codec_ok d = true)
    by (apply (all_dates_ok_spec 1969 100); [exact all_dates_ok_1969 | exact Hv | simpl; lia]).
  unfold date_codec_ok in Hok; rewrite !andb_true_iff in Hok.
  destruct Hok as [[[H1 H2] H3] H4].
  apply opt_date_eqb_true in H1, H2; apply Nat.eqb_eq in H3; auto.
Qed.

Lemma strptime_Ymd_valid (s : string) (d : date) : strptime_Ymd s = Some d -> valid_date d = true.
Proof.
  unfold strptime_Ymd; intro H.
  destruct (match_pat pat_Ymd (list_ascii_of_string s)) as [[fs rest]|]; [|discriminate H].
  destruct fs as [|fy [|fm [|fd [|? ?]]]]; try discriminate H.
  destruct rest; [|discriminate H].
  cbv zeta in H; destruct (valid_date _) eqn:Hv; [|discriminate H].
  injection H as <-; exact Hv.
Qed.

(** *** Encoding and decoding *)

(** The shape of a produced symbol. *)
Lemma create_occ_symbol_ok (u d t : string) (v : pyval) (dt : date) (k : Z) :
  strptime_Ymd d = Some dt -> upper t = "C" \/ upper t = "P" -> strike_thousandths v = Ok k ->
  create_occ_symbol u d t v = Ok (Some (upper u ++ strftime_ymd dt ++ upper t ++ format_0nd 8 k)).
Proof.
  intros Hd Ht Hk; unfold create_occ_symbol; rewrite Hd, Hk; cbn [bind].
  destruct Ht as [-> | ->]; reflexivity.
Qed.

(** Decoding a symbol laid out as the encoder lays it out. *)
Lemma parse_built (u : string) (dt : date) (tc : ascii) (k : Z) :
  has_no_digit u = true -> valid_date dt = true -> (1969 <= year dt <= 2068)%Z ->
  tc = "C"%char \/ tc = "P"%char -> (0 <= k)%Z ->
  parse_occ_symbol (u ++ strftime_ymd dt ++ String tc (format_0nd 8 k)) =
  Some (mkocc u (strftime_Ymd dt) (if Ascii.eqb tc "C" then "call" else "put")
          (float_of_ratio false k 1 / 1000)%float).
Proof.
  intros Hu Hv Hy Htc Hk.
  destruct (date_facts dt Hv Hy) as (Hp & _ & Hlen & Hc).
  unfold parse_occ_symbol.
  rewrite split_first_digit_app
    by (exact Hu || (destruct (strftime_ymd dt); [discriminate Hc | exact Hc])).
  unfold parse_occ_body; cbv beta zeta.
  rewrite take6, index6, drop7 by exact Hlen; cbn [bind].
  rewrite Hp, float_of_string_format by exact Hk; cbn [bind].
  destruct Htc as [-> | ->]; reflexivity.
Qed.

Lemma upper_CP_string (t : string) :
  upper t = "C" \/ upper t = "P" -> In t ["C"; "P"; "c"; "p"].
Proof.
  destruct t as [|c [|c' t']]; unfold upper; simpl; intro H.
  - destruct H as [H | H]; discriminate H.
  - assert (Hc : upper_char c = "C"%char \/ upper_char c = "P"%char)
      by (destruct H as [H | H]; injection H as H; auto).
    destruct (upper_char_CP c Hc) as [-> | [-> | [-> | ->]]]; simpl; tauto.
  - destruct H as [H | H]; injection H as _ H; discriminate H.
Qed.

(** X19: when the underlying has no digit, the expiry is accepted by
    [strptime("%Y-%m-%d")] with a year in 1969-2068, the type upper-cases to
    C or P and [k = int(float(strike) * 1000)] is non-negative, encoding
    produces a symbol and decoding it gives the upper-cased underlying, the
    expiry in canonical YYYY-MM-DD form, "call" or "put", and [float(k)/1000]
    as strike. *)
Theorem decode_encode (u d t : string) (v : pyval) (dt : date) (k : Z)
  (Hu : has_no_digit u = true) (Hd : strptime_Ymd d = Some dt)
  (Hy : (1969 <= year dt <= 2068)%Z) (Ht : upper t = "C" \/ upper t = "P")
  (Hk : strike_thousandths v = Ok k) (Hk0 : (0 <= k)%Z) :
  exists sym, create_occ_symbol u d t v = Ok (Some sym) /\
    parse_occ_symbol sym =
    Some (mkocc (upper u) (strftime_Ymd dt) (if String.eqb (upper t) "C" then "call" else "put")
            (float_of_ratio false k 1 / 1000)%float).
Proof.
  eexists; split; [apply create_occ_symbol_ok; eassumption|].
  pose proof (strptime_Ymd_valid _ _ Hd) as Hv.
  pose proof (has_no_digit_upper u Hu) as Hu'.
  destruct Ht as [Ht | Ht]; rewrite Ht;
    [apply (parse_built (upper u) dt "C" k) | apply (parse_built (upper u) dt "P" k)]; auto.
Qed.

(** Decoding fails (returns [None]) when the symbol has no digit, when at
    most seven characters start at the first digit, when the six characters
    after the first digit are rejected by [strptime("%y%m%d")], or when
    [float()] rejects the text after the type character. *)
Lemma parse_occ_symbol_errors (s : string)
  (Hbad : has_no_digit s = true \/
          exists u r, split_first_digit s = Some (u, r) /\
            ((String.length r <= 7)%nat \/ strptime_ymd (take 6 r) = None \/
             exists e, float_of_string (drop 7 r) = Exc e)) :
  parse_occ_symbol s = None.
Proof.
  destruct Hbad as [Hn | (u & r & Hs & Hr)]; unfold parse_occ_symbol.
  - rewrite split_no_digit by exact Hn; reflexivity.
  - rewrite Hs; unfold parse_occ_body; cbv beta zeta.
    destruct (index r 6) as [c|e] eqn:Hi; cbn [bind]; [|reflexivity].
    destruct (strptime_ymd (take 6 r)) as [dt|] eqn:Hp; cbn [bind]; [|reflexivity].
    destruct (float_of_string (drop 7 r)) as [f|e] eqn:Hf; cbn [bind]; [|reflexivity].
    exfalso; destruct Hr as [Hl | [Hl | [e Hl]]]; [| congruence | congruence].
    rewrite drop_short in Hf by exact Hl; vm_compute in Hf; discriminate Hf.
Qed.

(** C3 (amended): decoding returns [None] when the symbol has no digit, when
    at most seven characters start at the first digit, when
    [strptime("%y%m%d")] rejects the six characters after the first digit, or
    when [float()] rejects the text after the type character. Otherwise it
    returns the whole record: the text before the first digit as underlying,
    possibly empty; "call" for the type character C and "put" for any other
    character; and [float(rest) / 1000] as strike, whatever text [float()]
    accepts in [rest]. *)
Theorem parse_occ_symbol_cases (s : string) :
  ((has_no_digit s = true \/
    exists u r, split_first_digit s = Some (u, r) /\
      ((String.length r <= 7)%nat \/ strptime_ymd (take 6 r) = None \/
       exists e, float_of_string (drop 7 r) = Exc e)) ->
   parse_occ_symbol s = None) /\
  (forall u r tc dt f,
     split_first_digit s = Some (u, r) -> index r 6 = Ok tc ->
     strptime_ymd (take 6 r) = Some dt -> float_of_string (drop 7 r) = Ok f ->
     parse_occ_symbol s =
       Some (mkocc u (strftime_Ymd dt) (if Ascii.eqb tc "C" then "call" else "put") (f / 1000)%float)).
Proof.
  split; [apply parse_occ_symbol_errors|].
  intros u r tc dt f Hs Hi Hd Hf.
  unfold parse_occ_symbol. rewrite Hs. unfold parse_occ_body; cbv beta zeta.
  rewrite Hi; cbn [bind]. rewrite Hd; cbn [bind]. rewrite Hf; cbn [bind]. reflexivity.
Qed.

(** X20: a fixed-width symbol (digit-free upper-case underlying, YYMMDD of a
    valid date in 1969-2068, C or P, eight-digit strike field [k] with
    [int(float(k)/1000*1000) == k]) decodes, and encoding the decoded fields,
    with the type mapped back to its letter, gives the symbol back. *)
Theorem encode_decode (u : string) (dt : date) (tc : ascii) (k : Z)
  (Hu : has_no_digit u = true) (Hup : upper u = u) (Hv : valid_date dt = true)
  (Hy : (1969 <= year dt <= 2068)%Z) (Htc : tc = "C"%char \/ tc = "P"%char)
  (Hk : (0 <= k < 10 ^ 8)%Z)
  (Hf : strike_thousandths (PFloat (float_of_ratio false k 1 / 1000)) = Ok k) :
  exists o, parse_occ_symbol (u ++ strftime_ymd dt ++ String tc (format_0nd 8 k)) = Some o /\
    create_occ_symbol (underlying o) (expiration_date o) (type_code (otype o)) (PFloat (strike_price o)) =
    Ok (Some (u ++ strftime_ymd dt ++ String tc (format_0nd 8 k))).
Proof.
  eexists; split; [apply parse_built; auto; lia|].
  cbn [underlying expiration_date otype strike_price].
  destruct (date_facts dt Hv Hy) as (_ & HY & _).
  destruct Htc as [-> | ->];
    (rewrite (create_occ_symbol_ok _ _ _ _ dt k HY);
     [rewrite Hup; reflexivity | first [left; reflexivity | right; reflexivity] | exact Hf]).
Qed.


(** C6 (amended): no symbol is produced for a type outside {C, P, c, p} or
    for an expiry that [strptime("%Y-%m-%d")] rejects. *)
Theorem encode_rejects (u d t : string) (v : pyval) (sym : string)
  (Hbad : ~ In t ["C"; "P"; "c"; "p"] \/ strptime_Ymd d = None) :
  create_occ_symbol u d t v <> Ok (Some sym).
Proof.
  unfold create_occ_symbol; cbv zeta.
  destruct (strptime_Ymd d) as [dt|] eqn:Hd; [|intro H; discriminate H].
  destruct Hbad as [Ht | Hn]; [|discriminate Hn].
  destruct (let* k := strike_thousandths v in Ok (format_0nd 8 k)) as [f|[]];
    try (intro H; discriminate H).
  destruct (String.eqb (upper t) "C") eqn:E1.
  { apply String.eqb_eq in E1; exfalso; apply Ht, upper_CP_string; left; exact E1. }
  destruct (String.eqb (upper t) "P") eqn:E2.
  { apply String.eqb_eq in E2; exfalso; apply Ht, upper_CP_string; right; exact E2. }
  intro H; discriminate H.
Qed.

(** *** Instances and counterexamples *)

Lemma decode_encode_witness :
  exists sym, create_occ_symbol "aapl" "2024-01-19" "C" (PStr "190") = Ok (Some sym) /\
    parse_occ_symbol sym =
    Some (mkocc (upper "aapl") (strftime_Ymd (mkdate 2024 1 19))
            (if String.eqb (upper "C") "C" then "call" else "put")
            (float_of_ratio false 190000 1 / 1000)%float).
Proof.
  apply (decode_encode "aapl" "2024-01-19" "C" (PStr "190") (mkdate 2024 1 19) 190000);
    [reflexivity | vm_compute; reflexivity | simpl; lia | left; reflexivity
    | vm_compute; reflexivity | lia].
Defined.

(** C1: the strike "1.005" is exactly 1005 thousandths, but
    [float("1.005") * 1000] is 1004.9999999999999 and [int()] truncates it:
    encoding writes the strike field 00001004, and decoding the symbol gives
    the strike 1.004 instead of 1.005. *)
Theorem encode_strike_truncated :
  strike_thousandths (PStr "1.005") = Ok 1004%Z /\
  create_occ_symbol "X" "2024-01-19" "C" (PStr "1.005") = Ok (Some "X240119C00001004") /\
  exists f f', float_of_string "1.005" = Ok f /\ float_of_string "1.004" = Ok f' /\ f <> f' /\
    parse_occ_symbol "X240119C00001004" = Some (mkocc "X" "2024-01-19" "call" f').
Proof.
  split; [vm_compute; reflexivity|]. split; [vm_compute; reflexivity|].
  eexists; eexists; split; [vm_compute; reflexivity|]. split; [vm_compute; reflexivity|].
  split; [|vm_compute; reflexivity].
  intro H. apply (f_equal (fun x => PrimFloat.eqb x 1.004%float)) in H.
  vm_compute in H. discriminate H.
Qed.

(** A symbol cut after its type letter is rejected; a symbol with an empty
    underlying, the type letter Z and the strike text "1.5" is accepted. *)
Lemma parse_occ_symbol_cases_witness :
  parse_occ_symbol "X240119C" = None /\
  parse_occ_symbol "240119Z1.5" =
    Some (mkocc EmptyString (strftime_Ymd (mkdate 2024 1 19))
            (if Ascii.eqb "Z"%char "C"%char then "call" else "put") (1.5 / 1000)%float).
Proof.
  split.
  - apply (proj1 (parse_occ_symbol_cases "X240119C")).
    right; exists "X", "240119C"; split; [reflexivity | left; simpl; lia].
  - apply (proj2 (parse_occ_symbol_cases "240119Z1.5") EmptyString "240119Z1.5" "Z"%char (mkdate 2024 1 19) 1.5%float);
      vm_compute; reflexivity.
Defined.

(** A type letter other than C decodes as "put", an empty underlying and a
    strike field "1.5" are accepted. *)
Lemma parse_occ_symbol_accepts :
  option_map otype (parse_occ_symbol "X240119Z00190000") = Some "put" /\
  option_map underlying (parse_occ_symbol "240119C00190000") = Some EmptyString /\
  option_map strike_price (parse_occ_symbol "X240119C1.5") = Some (float_of_ratio false 15 10000).
Proof. split; [|split]; vm_compute; reflexivity. Qed.

Lemma encode_decode_witness :
  exists o, parse_occ_symbol ("AAPL" ++ strftime_ymd (mkdate 2024 1 19) ++ String "C" (format_0nd 8 190000)) = Some o /\
    create_occ_symbol (underlying o) (expiration_date o) (type_code (otype o)) (PFloat (strike_price o)) =
    Ok (Some ("AAPL" ++ strftime_ymd (mkdate 2024 1 19) ++ String "C" (format_0nd 8 190000))).
Proof.
  apply encode_decode;
    [reflexivity | reflexivity | reflexivity | simpl; lia | left; reflexivity | lia
    | vm_compute; reflexivity].
Defined.

(** C4: the symbol with strike field 00001005 decodes to the strike
    [float("00001005") / 1000.0], and encoding the decoded fields computes
    [int(strike * 1000)] = 1004, so the symbol comes back with the field
    00001004. *)
Theorem symbol_strike_reencoded :
  option_map strike_price (parse_occ_symbol "X240119C00001005") = Some (1005 / 1000)%float /\
  strike_thousandths (PFloat (1005 / 1000)%float) = Ok 1004%Z /\
  option_map (fun o => create_occ_symbol (underlying o) (expiration_date o) (type_code (otype o)) (PFloat (strike_price o)))
    (parse_occ_symbol "X240119C00001005") = Some (Ok (Some "X240119C00001004")).
Proof. repeat split; vm_compute; reflexivity. Qed.



Lemma encode_rejects_witness :
  create_occ_symbol "X" "2024-01-19" "call" (PStr "1") <> Ok (Some "XCALL").
Proof.
  apply encode_rejects; left; simpl; intros [H | [H | [H | [H | []]]]]; discriminate H.
Defined.

(** [strptime("%Y-%m-%d")] accepts one-digit months and days. *)
Lemma encode_accepts_short_date :
  create_occ_symbol "X" "2024-1-5" "C" (PStr "1") = Ok (Some "X240105C00001000").
Proof. vm_compute; reflexivity. Qed.

End CodecFacts.

Module MonitorFacts.
Import Py Codec Monitor.
Local Open Scope string_scope.
Local Open Scope list_scope.

(** *** JSON lookups *)

Lemma obj_lookup_pred (P : json -> Prop) (kvs : list (string * json)) (k : string) (d : json) :
  P d -> (forall kv, In kv kvs -> P (snd kv)) -> P (obj_lookup kvs k d).
Proof.
  unfold obj_lookup; revert d; induction kvs as [|kv kvs IH]; intros d Hd Hall; simpl; [exact Hd|].
  apply IH; [destruct (String.eqb (fst kv) k); [apply Hall; left; reflexivity | exact Hd]|].
  intros kv' Hin; apply Hall; right; exact Hin.
Qed.

Lemma obj_lookup_absent (kvs : list (string * json)) (k : string) (d : json) :
  (forall kv, In kv kvs -> fst kv <> k) -> obj_lookup kvs k d = d.
Proof.
  unfold obj_lookup; revert d; induction kvs as [|kv kvs IH]; intros d Hall; simpl; [reflexivity|].
  destruct (String.eqb_spec (fst kv) k) as [E | _]; [exfalso; apply (Hall kv); [left; reflexivity | exact E]|].
  apply IH; intros kv' Hin; apply Hall; right; exact Hin.
Qed.

Lemma is_num_format (j : json) : is_num j = true -> format_2f j = Ok tt.
Proof. destruct j; simpl; intro H; first [reflexivity | discriminate H]. Qed.

Lemma format_quote_ok (q : json) : quote_ok q = true -> format_quote q = Ok tt.
Proof.
  destruct q as [| | | | | | kvs]; simpl; intro H; try discriminate H.
  apply andb_true_iff in H; destruct H as [H1 H2].
  unfold format_quote; simpl dict_get; cbn [bind].
  rewrite (is_num_format _ H1); cbn [bind]; exact (is_num_format _ H2).
Qed.

Lemma read_quote_ok (snaps : list (string * json)) (key : option string) :
  forallb (fun kv => snapshot_ok (snd kv)) snaps = true ->
  exists q, read_quote (JObj snaps) key = Ok q /\ format_quote q = Ok tt.
Proof.
  intro H; destruct key as [k|]; unfold read_quote; simpl.
  - assert (Hv : obj_lookup snaps k (JObj []) = JObj [] \/ snapshot_ok (obj_lookup snaps k (JObj [])) = true).
    { apply obj_lookup_pred; [left; reflexivity|].
      intros kv Hin; right; rewrite forallb_forall in H; apply H; exact Hin. }
    destruct Hv as [Hv | Hv]; rewrite ?Hv; [eexists; split; reflexivity|].
    destruct (obj_lookup snaps k (JObj [])) as [| | | | | | kvs]; try discriminate Hv.
    eexists; split; [reflexivity | apply format_quote_ok; exact Hv].
  - eexists; split; reflexivity.
Qed.

Lemma chain_snapshots_ok (u : string) (r : api) :
  wf_response (GetOptionChain u) r = true ->
  exists snaps, dict_get (data_of r) "snapshots" (JObj []) = Ok snaps /\
    forall key, exists q, read_quote snaps key = Ok q /\ format_quote q = Ok tt.
Proof.
  destruct r as [d | msg]; simpl; intro H.
  - destruct d as [| | | | | | kvs]; try discriminate H; simpl in H |- *.
    destruct (obj_lookup kvs "snapshots" (JObj [])) as [| | | | | | snaps]; try discriminate H.
    eexists; split; [reflexivity | intro key; apply read_quote_ok; exact H].
  - eexists; split; [reflexivity|].
    intro key; apply read_quote_ok; reflexivity.
Qed.

Lemma status_field_ok (o : json) (r : api) :
  wf_response (GetOrder o) r = true ->
  exists j, status_field r = Ok j /\ is_str j "canceled" = reports_canceled r.
Proof.
  unfold reports_canceled; destruct r as [d | msg]; simpl; intro H.
  - destruct d; try discriminate H; unfold status_field; simpl; eexists; split; reflexivity.
  - unfold status_field; simpl; eexists; split; reflexivity.
Qed.

Lemma reports_canceled_inv (r : api) :
  reports_canceled r = true -> exists d, r = ApiOk d /\ dict_get d "status" JNull = Ok (JStr "canceled").
Proof.
  unfold reports_canceled, status_field; destruct r as [d | msg]; simpl.
  - destruct (dict_get d "status" JNull) as [j|e] eqn:Hd; [|discriminate].
    destruct j; simpl; try discriminate.
    intro H; apply String.eqb_eq in H; subst; exists d; split; [reflexivity | exact Hd].
  - discriminate.
Qed.

(** *** Runs of the monad *)

Section Runs.
Variable E : env.

Lemma bind_gw {B} (c : call) (k : api -> M B) (s : st) :
  mbind (gw E c) k s =
  k (gateway E (n_calls s) c)
    (mkst (S (n_calls s)) (n_keys s) (n_lines s) (log s ++ [(c, gateway E (n_calls s) c)])).
Proof. reflexivity. Qed.

Lemma bind_input {B} (k : string -> M B) (s : st) :
  mbind (input E) k s = k (lines E (n_lines s)) (mkst (n_calls s) (n_keys s) (S (n_lines s)) (log s)).
Proof. reflexivity. Qed.

Lemma bind_read_key {B} (k : option ascii -> M B) (s : st) :
  mbind (read_key E) k s = k (keys E (n_keys s)) (mkst (n_calls s) (S (n_keys s)) (n_lines s) (log s)).
Proof. reflexivity. Qed.

Lemma bind_lift_ok {A B} (a : A) (k : A -> M B) (s : st) : mbind (lift (Ok a)) k s = k a s.
Proof. reflexivity. Qed.

Lemma bind_ret {A B} (a : A) (k : A -> M B) (s : st) : mbind (ret a) k s = k a s.
Proof. reflexivity. Qed.

Lemma bind_done {A B} (m : M A) (k : A -> M B) (s s1 : st) (a : A) :
  m s = (Done a, s1) -> mbind m k s = k a s1.
Proof. intro H; unfold mbind; rewrite H; reflexivity. Qed.

Lemma bind_diverged {A B} (m : M A) (k : A -> M B) (s s1 : st) :
  m s = (Diverged, s1) -> mbind m k s = (Diverged, s1).
Proof. intro H; unfold mbind; rewrite H; reflexivity. Qed.

Lemma poll_log_succ (o : json) (n m : nat) :
  poll_log E o n (S m) = (GetOrder o, gateway E n (GetOrder o)) :: poll_log E o (S n) m.
Proof.
  unfold poll_log; simpl; rewrite Nat.add_0_r; f_equal.
  rewrite <- seq_shift, map_map; apply map_ext; intro i; do 3 f_equal; lia.
Qed.

Lemma poll_log_last (o : json) (n m : nat) :
  poll_log E o n (S m) = poll_log E o n m ++ [(GetOrder o, gateway E (n + m) (GetOrder o))].
Proof. unfold poll_log; rewrite seq_S, map_app; reflexivity. Qed.

Lemma poll_log_forall (P : call * api -> Prop) (o : json) (n m : nat) :
  (forall i, (i < m)%nat -> P (GetOrder o, gateway E (n + i) (GetOrder o))) -> Forall P (poll_log E o n m).
Proof.
  intro H; apply Forall_forall; intros e He; unfold poll_log in He.
  apply in_map_iff in He; destruct He as (i & <- & Hi); apply in_seq in Hi; apply H; lia.
Qed.

Hypothesis Hwf : wf_env E.

(** The wait for the cancellation: [m] polls, the last one (if the loop
    exits) the first to report [canceled]. *)
Lemma wait_for_cancel_run (o : json) (fuel : nat) (s : st) :
  exists r m,
    wait_for_cancel E fuel o s =
      (r, mkst (n_calls s + m) (n_keys s) (n_lines s) (log s ++ poll_log E o (n_calls s) m)) /\
    ((r = Done tt /\ (0 < m <= fuel)%nat /\
      (forall i, (i < m - 1)%nat -> reports_canceled (gateway E (n_calls s + i) (GetOrder o)) = false) /\
      reports_canceled (gateway E (n_calls s + (m - 1)) (GetOrder o)) = true) \/
     (r = Diverged /\ m = fuel /\
      forall i, (i < m)%nat -> reports_canceled (gateway E (n_calls s + i) (GetOrder o)) = false)).
Proof.
  revert s; induction fuel as [|f IH]; intro s.
  - exists Diverged, 0%nat; split.
    + destruct s; simpl; rewrite Nat.add_0_r, app_nil_r; reflexivity.
    + right; repeat split; intros i Hi; lia.
  - cbn [wait_for_cancel]; rewrite bind_gw.
    destruct (status_field_ok o _ (Hwf (n_calls s) (GetOrder o))) as (j & Hj & Hc).
    rewrite Hj, bind_lift_ok, Hc.
    destruct (reports_canceled (gateway E (n_calls s) (GetOrder o))) eqn:Hr.
    + exists (Done tt), 1%nat; split.
      * unfold poll_log; simpl; rewrite Nat.add_0_r, Nat.add_1_r; reflexivity.
      * left; repeat split; try lia; rewrite Nat.add_0_r; exact Hr.
    + destruct (IH (mkst (S (n_calls s)) (n_keys s) (n_lines s) (log s ++ [(GetOrder o, gateway E (n_calls s) (GetOrder o))])))
        as (r & m & Hw & Hcases).
      exists r, (S m); split.
      * rewrite Hw; cbn [n_calls n_keys n_lines log].
        rewrite poll_log_succ, <- app_assoc, Nat.add_succ_r; reflexivity.
      * cbn [n_calls] in Hcases.
        destruct Hcases as [(-> & Hm & Hpre & Hlast) | (-> & -> & Hall)]; [left | right].
        -- repeat split; try lia.
           ++ intros [|i] Hi; [rewrite Nat.add_0_r; exact Hr|].
              rewrite <- Nat.add_succ_comm; apply Hpre; lia.
           ++ replace (n_calls s + (S m - 1))%nat with (S (n_calls s) + (m - 1))%nat by lia; exact Hlast.
        -- repeat split; intros [|i] Hi; [rewrite Nat.add_0_r; exact Hr|].
           rewrite <- Nat.add_succ_comm; apply Hall; lia.
Qed.

Lemma place_id_ok (c : call) (r : api) :
  success r = true -> wf_response c r = true -> (exists a b c' d e f, c = PlaceOrder a b c' d e f) ->
  dict_get (data_of r) "id" JNull = Ok (returned_id r).
Proof.
  intros Hs Hw (a & b & c' & d & e & f & ->).
  destruct r as [dd | msg]; [|discriminate Hs].
  destruct dd; try discriminate Hw; reflexivity.
Qed.

Lemma show_live_quote_run (t : tracked) (s : st) (p : occ) :
  parse_occ_symbol (t_symbol t) = Some p ->
  show_live_quote E t s =
  (Done tt, mkst (S (n_calls s)) (n_keys s) (n_lines s)
     (log s ++ [(GetOptionChain (underlying p), gateway E (n_calls s) (GetOptionChain (underlying p)))])).
Proof.
  intro Hp; unfold show_live_quote; rewrite Hp, bind_gw; cbv beta.
  destruct (chain_snapshots_ok _ _ (Hwf (n_calls s) (GetOptionChain (underlying p)))) as (snaps & Hs & Hq).
  rewrite Hs, bind_lift_ok; cbv beta.
  destruct (Hq (Some (t_symbol t))) as (q & Hq1 & Hq2).
  rewrite Hq1, bind_lift_ok; cbv beta; rewrite Hq2; reflexivity.
Qed.

Lemma status_display_run (t : tracked) (status : json) (s : st) (p : occ) (oc op : option string) :
  parse_occ_symbol (t_symbol t) = Some p ->
  create_occ_symbol (underlying p) (expiration_date p) "C" (PFloat (strike_price p)) = Ok oc ->
  create_occ_symbol (underlying p) (expiration_date p) "P" (PFloat (strike_price p)) = Ok op ->
  str_method status = Ok tt ->
  status_display E t status s =
  (Done tt, mkst (S (n_calls s)) (n_keys s) (n_lines s)
     (log s ++ [(GetOptionChain (underlying p), gateway E (n_calls s) (GetOptionChain (underlying p)))])).
Proof.
  intros Hp Hc Hpu Hst; unfold status_display; rewrite Hp, bind_gw; cbv beta.
  destruct (chain_snapshots_ok _ _ (Hwf (n_calls s) (GetOptionChain (underlying p)))) as (snaps & Hs & Hq).
  destruct (Hq oc) as (q1 & Hq1 & Hf1); destruct (Hq op) as (q2 & Hq2 & Hf2).
  rewrite Hs, bind_lift_ok; cbv beta.
  rewrite Hc, bind_lift_ok; cbv beta.
  rewrite Hpu, bind_lift_ok; cbv beta.
  rewrite Hq1, bind_lift_ok; cbv beta.
  rewrite Hq2, bind_lift_ok; cbv beta.
  rewrite Hst, bind_lift_ok; cbv beta.
  rewrite Hf1, bind_lift_ok; cbv beta.
  rewrite Hf2; reflexivity.
Qed.

(** The ['A'] command on a non-replaceable order, up to the cancel call. *)
Lemma handle_adjust_to_cancel (fuel : nat) (t : tracked) (s : st) (p : occ) (np : float) :
  non_replaceable (gateway E (n_calls s) (GetOrder (t_id t))) = true ->
  parse_occ_symbol (t_symbol t) = Some p ->
  String.eqb (lower (lines E (n_lines s))) "q" = false ->
  float_of_string (lower (lines E (n_lines s))) = Ok np ->
  handle_adjust E fuel t s =
  cancel_and_replace E fuel t np
    (mkst (S (S (n_calls s))) (n_keys s) (S (n_lines s))
       (log s ++ [(GetOrder (t_id t), gateway E (n_calls s) (GetOrder (t_id t)));
                  (GetOptionChain (underlying p), gateway E (S (n_calls s)) (GetOptionChain (underlying p)))])).
Proof.
  intros Hnr Hp Hq Hf; unfold handle_adjust; rewrite bind_gw; cbv beta.
  unfold non_replaceable in Hnr.
  destruct (status_field (gateway E (n_calls s) (GetOrder (t_id t)))) as [j|e] eqn:Hsf; [|discriminate Hnr].
  rewrite bind_lift_ok; cbv beta; rewrite Hnr; unfold adjust_cancel_replace.
  erewrite bind_done by (apply show_live_quote_run; exact Hp); cbv beta.
  unfold read_new_price; rewrite bind_input; cbv beta zeta; cbn [n_calls n_keys n_lines log].
  rewrite Hq, Hf, <- app_assoc; reflexivity.
Qed.

(** The cancel-and-replace workflow from the cancel call on. *)
Lemma cancel_and_replace_run (fuel : nat) (t : tracked) (np : float) (s : st) :
  (success (gateway E (n_calls s) (CancelOrder (t_id t))) = false ->
   cancel_and_replace E fuel t np s =
   (Done (Continue t), mkst (S (n_calls s)) (n_keys s) (n_lines s)
                         (log s ++ [(CancelOrder (t_id t), gateway E (n_calls s) (CancelOrder (t_id t)))]))) /\
  (success (gateway E (n_calls s) (CancelOrder (t_id t))) = true ->
   exists r m,
     ((r = Done tt /\ (0 < m <= fuel)%nat /\
       (forall i, (i < m - 1)%nat -> reports_canceled (gateway E (S (n_calls s) + i) (GetOrder (t_id t))) = false) /\
       reports_canceled (gateway E (S (n_calls s) + (m - 1)) (GetOrder (t_id t))) = true) \/
      (r = Diverged /\ m = fuel /\
       forall i, (i < m)%nat -> reports_canceled (gateway E (S (n_calls s) + i) (GetOrder (t_id t))) = false)) /\
     (r = Done tt ->
      cancel_and_replace E fuel t np s =
      (Done (Fall (if success (gateway E (S (n_calls s) + m) (PlaceOrder (t_symbol t) (t_quantity t) (t_side t) "limit" "day" np))
                   then set_id_price t (returned_id (gateway E (S (n_calls s) + m) (PlaceOrder (t_symbol t) (t_quantity t) (t_side t) "limit" "day" np))) np
                   else t)),
       mkst (S (S (n_calls s) + m)) (n_keys s) (n_lines s)
         (log s ++ [(CancelOrder (t_id t), gateway E (n_calls s) (CancelOrder (t_id t)))]
                ++ poll_log E (t_id t) (S (n_calls s)) m
                ++ [(PlaceOrder (t_symbol t) (t_quantity t) (t_side t) "limit" "day" np,
                     gateway E (S (n_calls s) + m) (PlaceOrder (t_symbol t) (t_quantity t) (t_side t) "limit" "day" np))]))) /\
     (r = Diverged ->
      cancel_and_replace E fuel t np s =
      (Diverged, mkst (S (n_calls s) + m) (n_keys s) (n_lines s)
                   (log s ++ [(CancelOrder (t_id t), gateway E (n_calls s) (CancelOrder (t_id t)))]
                          ++ poll_log E (t_id t) (S (n_calls s)) m)))).
Proof.
  unfold cancel_and_replace; rewrite bind_gw; cbv beta; split; intro Hx; rewrite Hx; [reflexivity|].
  cbn [negb].
  destruct (wait_for_cancel_run (t_id t) fuel
              (mkst (S (n_calls s)) (n_keys s) (n_lines s)
                 (log s ++ [(CancelOrder (t_id t), gateway E (n_calls s) (CancelOrder (t_id t)))])))
    as (r & m & Hw & Hc).
  cbn [n_calls n_keys n_lines log] in Hw, Hc.
  exists r, m; split; [exact Hc|]; split; intro Hr; subst r.
  - erewrite bind_done by exact Hw; cbv beta; rewrite bind_gw; cbv beta; cbn [n_calls n_keys n_lines log].
    destruct (success (gateway E (S (n_calls s) + m) (PlaceOrder (t_symbol t) (t_quantity t) (t_side t) "limit" "day" np))) eqn:Hp.
    + rewrite (place_id_ok _ _ Hp (Hwf _ _) ltac:(do 6 eexists; reflexivity)).
      rewrite bind_lift_ok, <- !app_assoc; reflexivity.
    + rewrite <- !app_assoc; reflexivity.
  - erewrite bind_diverged by exact Hw; rewrite <- !app_assoc; reflexivity.
Qed.

(** A status query that reports [canceled] ends the monitoring. *)
Lemma status_tick_canceled (t : tracked) (s : st) (p : occ) (oc op : option string) (d : json) :
  parse_occ_symbol (t_symbol t) = Some p ->
  create_occ_symbol (underlying p) (expiration_date p) "C" (PFloat (strike_price p)) = Ok oc ->
  create_occ_symbol (underlying p) (expiration_date p) "P" (PFloat (strike_price p)) = Ok op ->
  gateway E (n_calls s) (GetOrder (t_id t)) = ApiOk d ->
  dict_get d "status" JNull = Ok (JStr "canceled") ->
  status_tick E t s =
  (Done (Return "CANCELED"),
   mkst (S (S (n_calls s))) (n_keys s) (n_lines s)
     (log s ++ [(GetOrder (t_id t), ApiOk d);
                (GetOptionChain (underlying p), gateway E (S (n_calls s)) (GetOptionChain (underlying p)))])).
Proof.
  intros Hp Hc Hpu Hg Hd; unfold status_tick; rewrite bind_gw; cbv beta.
  rewrite Hg; cbn [success negb data_of]; rewrite Hd, bind_lift_ok; cbv beta.
  erewrite bind_done by (apply (status_display_run t (JStr "canceled") _ p oc op Hp Hc Hpu); reflexivity).
  cbv beta; cbn [n_calls n_keys n_lines log]; rewrite <- app_assoc; reflexivity.
Qed.

End Runs.


(** C2: the ['A'] command on an order in a non-replaceable status, with a
    price typed at the prompt: the order is first cancelled; when the cancel
    fails nothing else is sent and monitoring continues with the same order;
    otherwise the order is polled until it reports [canceled] and a new day
    limit order with the same symbol, quantity and side is placed at the new
    price, whose id replaces the tracked one only when the placement
    succeeds. No replace call is ever issued on this path. *)
Theorem cancel_replace_sequence (E : env) (fuel : nat) (t : tracked) (s : st) (p : occ) (np : float)
  (Hwf : wf_env E)
  (Hnr : non_replaceable (gateway E (n_calls s) (GetOrder (t_id t))) = true)
  (Hsym : parse_occ_symbol (t_symbol t) = Some p)
  (Hq : String.eqb (lower (lines E (n_lines s))) "q" = false)
  (Hprice : float_of_string (lower (lines E (n_lines s))) = Ok np) :
  exists o s' rest,
    handle_adjust E fuel t s = (o, s') /\
    log s' = log s ++ [(GetOrder (t_id t), gateway E (n_calls s) (GetOrder (t_id t)));
                       (GetOptionChain (underlying p), gateway E (S (n_calls s)) (GetOptionChain (underlying p)));
                       (CancelOrder (t_id t), gateway E (S (S (n_calls s))) (CancelOrder (t_id t)))] ++ rest /\
    (success (gateway E (S (S (n_calls s))) (CancelOrder (t_id t))) = false ->
       rest = [] /\ o = Done (Continue t)) /\
    (success (gateway E (S (S (n_calls s))) (CancelOrder (t_id t))) = true ->
       (exists polls rcan rp,
          rest = polls ++ [(GetOrder (t_id t), rcan);
                           (PlaceOrder (t_symbol t) (t_quantity t) (t_side t) "limit" "day" np, rp)] /\
          Forall (fun e => fst e = GetOrder (t_id t) /\ reports_canceled (snd e) = false) polls /\
          reports_canceled rcan = true /\
          o = Done (Fall (if success rp then set_id_price t (returned_id rp) np else t))) \/
       (o = Diverged /\
        Forall (fun e => fst e = GetOrder (t_id t) /\ reports_canceled (snd e) = false) rest)).
Proof.
  rewrite (handle_adjust_to_cancel E Hwf fuel t s p np Hnr Hsym Hq Hprice).
  destruct (cancel_and_replace_run E Hwf fuel t np
              (mkst (S (S (n_calls s))) (n_keys s) (S (n_lines s))
                 (log s ++ [(GetOrder (t_id t), gateway E (n_calls s) (GetOrder (t_id t)));
                            (GetOptionChain (underlying p), gateway E (S (n_calls s)) (GetOptionChain (underlying p)))])))
    as [Hfail Hok].
  cbn [n_calls n_keys n_lines log] in Hfail, Hok.
  destruct (success (gateway E (S (S (n_calls s))) (CancelOrder (t_id t)))) eqn:Hx.
  - destruct (Hok eq_refl) as (r & m & Hc & Hdone & Hdiv).
    destruct Hc as [(-> & Hm & Hpre & Hlast) | (-> & -> & Hall)].
    + eexists _, _, _; split; [exact (Hdone eq_refl)|].
      split; [cbn [log]; rewrite <- !app_assoc; reflexivity|].
      split; [intro Hc; discriminate Hc|]; intros _; left.
      exists (poll_log E (t_id t) (S (S (S (n_calls s)))) (m - 1)),
             (gateway E (S (S (S (n_calls s))) + (m - 1)) (GetOrder (t_id t))),
             (gateway E (S (S (S (n_calls s))) + m) (PlaceOrder (t_symbol t) (t_quantity t) (t_side t) "limit" "day" np)).
      split; [|split; [|split; [exact Hlast | reflexivity]]].
      * replace m with (S (m - 1)) at 1 by lia; rewrite poll_log_last, <- app_assoc; reflexivity.
      * apply poll_log_forall; intros i Hi; split; [reflexivity | apply Hpre; exact Hi].
    + eexists _, _, _; split; [exact (Hdiv eq_refl)|].
      split; [cbn [log]; rewrite <- !app_assoc; reflexivity|].
      split; [intro Hc; discriminate Hc|]; intros _; right; split; [reflexivity|].
      apply poll_log_forall; intros i Hi; split; [reflexivity | apply Hall; exact Hi].
  - eexists _, _, []; split; [exact (Hfail eq_refl)|].
    split; [cbn [log]; rewrite app_nil_r, <- !app_assoc; reflexivity|].
    split; [intros _; split; reflexivity | intro Hc; discriminate Hc].
Qed.

Lemma handle_key_adjust (E : env) (f : nat) (t : tracked) (c : ascii) :
  c = "A"%char \/ c = "a"%char -> handle_key E f (Some c) t = handle_adjust E f t.
Proof. intros [-> | ->]; reflexivity. Qed.

(** C10: after a confirmed cancel, a failed placement leaves the tracked id
    on the cancelled order; the status query that ends the same iteration
    sees [canceled] and the loop returns [CANCELED]. *)
Theorem place_failure_ends_canceled (E : env) (fuel kq : nat) (t : tracked) (s : st) (p : occ)
  (np : float) (c : ascii) (oc op : option string)
  (Hwf : wf_env E)
  (Hkey : keys E (n_keys s) = Some c) (Hc : c = "A"%char \/ c = "a"%char)
  (Hnr : non_replaceable (gateway E (n_calls s) (GetOrder (t_id t))) = true)
  (Hsym : parse_occ_symbol (t_symbol t) = Some p)
  (Hoc : create_occ_symbol (underlying p) (expiration_date p) "C" (PFloat (strike_price p)) = Ok oc)
  (Hop : create_occ_symbol (underlying p) (expiration_date p) "P" (PFloat (strike_price p)) = Ok op)
  (Hq : String.eqb (lower (lines E (n_lines s))) "q" = false)
  (Hprice : float_of_string (lower (lines E (n_lines s))) = Ok np)
  (Hcancel : success (gateway E (S (S (n_calls s))) (CancelOrder (t_id t))) = true)
  (Hconf : reports_canceled (gateway E (S (S (S (n_calls s))) + kq) (GetOrder (t_id t))) = true)
  (Hsticky : forall i j, (i <= j)%nat -> reports_canceled (gateway E i (GetOrder (t_id t))) = true ->
                         reports_canceled (gateway E j (GetOrder (t_id t))) = true)
  (Hplace : forall i, success (gateway E i (PlaceOrder (t_symbol t) (t_quantity t) (t_side t) "limit" "day" np)) = false)
  (Hfuel : (kq < fuel)%nat) :
  exists s' pre r rc,
    poll_loop E (S fuel) t s = (Done "CANCELED", s') /\
    log s' = pre ++ [(GetOrder (t_id t), r); (GetOptionChain (underlying p), rc)] /\
    reports_canceled r = true.
Proof.
  destruct (cancel_and_replace_run E Hwf fuel t np
              (mkst (S (S (n_calls s))) (S (n_keys s)) (S (n_lines s))
                 (log s ++ [(GetOrder (t_id t), gateway E (n_calls s) (GetOrder (t_id t)));
                            (GetOptionChain (underlying p), gateway E (S (n_calls s)) (GetOptionChain (underlying p)))])))
    as [_ Hok].
  cbn [n_calls n_keys n_lines log] in Hok.
  destruct (Hok Hcancel) as (r & m & Hw & Hdone & _).
  destruct Hw as [(-> & Hm & _ & Hlast) | (-> & -> & Hall)];
    [| rewrite (Hall kq Hfuel) in Hconf; discriminate Hconf].
  specialize (Hdone eq_refl); rewrite Hplace in Hdone.
  assert (Hr : reports_canceled (gateway E (S (S (S (S (n_calls s))) + m)%nat) (GetOrder (t_id t))) = true)
    by (apply (Hsticky (S (S (S (n_calls s))) + (m - 1))%nat); [lia | exact Hlast]).
  destruct (reports_canceled_inv _ Hr) as (d & Hgd & Hds).
  cbn [poll_loop]; rewrite bind_read_key; cbv beta; rewrite Hkey, (handle_key_adjust E fuel t c Hc).
  erewrite bind_done
    by (rewrite (handle_adjust_to_cancel E Hwf fuel t (mkst (n_calls s) (S (n_keys s)) (n_lines s) (log s))
                   p np Hnr Hsym Hq Hprice); exact Hdone).
  cbv beta iota.
  match goal with
  | |- context [mbind (status_tick E t) ?k ?st] =>
      rewrite (bind_done (status_tick E t) k st _ _ (status_tick_canceled E Hwf t st p oc op d Hsym Hoc Hop Hgd Hds))
  end.
  cbv beta iota; cbn [n_calls n_keys n_lines log].
  do 4 eexists; split; [reflexivity|]; split; [reflexivity | rewrite <- Hgd; exact Hr].
Qed.

(** C9: the closing workflow reads the symbol's snapshot at the top level of
    the option-chain data; when that data only has the keys [snapshots] and
    [next_page_token] and the symbol contains a digit, it returns after the
    single chain request, without prompting for a price or placing an order. *)
Theorem closing_workflow_aborts (E : env) (fuel : nat) (occ_symbol : string) (quantity : json)
  (action : string) (s : st) (kvs : list (string * json))
  (Hresp : gateway E (n_calls s) (GetOptionChain (prefix_before_digit occ_symbol)) = ApiOk (JObj kvs))
  (Hkeys : forall kv, In kv kvs -> fst kv = "snapshots" \/ fst kv = "next_page_token")
  (Hdigit : has_no_digit occ_symbol = false) :
  closing_workflow E fuel occ_symbol quantity action s =
  (Done tt, mkst (S (n_calls s)) (n_keys s) (n_lines s)
              (log s ++ [(GetOptionChain (prefix_before_digit occ_symbol), ApiOk (JObj kvs))])).
Proof.
  unfold closing_workflow; rewrite bind_gw; cbv beta zeta; rewrite Hresp; cbn [success negb data_of].
  unfold dict_get; rewrite obj_lookup_absent.
  - reflexivity.
  - intros kv Hin He; rewrite <- He in Hdigit.
    destruct (Hkeys kv Hin) as [Hk | Hk]; rewrite Hk in Hdigit; vm_compute in Hdigit; discriminate Hdigit.
Qed.

(** *** Sample sessions *)

Lemma sample_env_wf (cancel_ok place_ok : bool) (k : nat) : wf_env (sample_env cancel_ok place_ok k).
Proof.
  intros n c; destruct c; cbn [gateway sample_env sample_gateway wf_response];
    try destruct cancel_ok; try destruct place_ok; reflexivity.
Qed.

Lemma sample_sticky (cancel_ok place_ok : bool) (k : nat) (o : json) (i j : nat) :
  (i <= j)%nat ->
  reports_canceled (gateway (sample_env cancel_ok place_ok k) i (GetOrder o)) = true ->
  reports_canceled (gateway (sample_env cancel_ok place_ok k) j (GetOrder o)) = true.
Proof.
  intros Hij; cbn [gateway sample_env sample_gateway].
  destruct (Nat.ltb_spec i k), (Nat.ltb_spec j k); try lia; intro Hc; first [exact Hc | discriminate Hc].
Qed.

(** C8 (divergence): the action token is not checked to be [B] or [S].
    The token [SELL] places a sell order, yet against a long position the
    intent is [open], not [close] as for [S], and the fill then starts the
    round trip, which buys the contracts back. *)
Theorem position_intent_unvalidated_action :
  side_of_action "SELL" = "sell" /\
  fst (determine_position_intent long_env "SELL" sample_symbol start) = Done "open" /\
  fst (determine_position_intent long_env "S" sample_symbol start) = Done "close" /\
  map fst (log (snd (intent_and_place long_env 3 "SELL" sample_symbol (JInt 1) sample_price start))) =
    [GetPositions; PlaceOrder sample_symbol (JInt 1) "sell" "limit" "day" sample_price;
     GetOrder (JStr "o1"); GetOptionChain "X"; GetOptionChain "X";
     PlaceOrder sample_symbol (JInt 1) "buy" "limit" "day" sample_price;
     GetOrder (JStr "o1"); GetOptionChain "X"] /\
  map fst (log (snd (intent_and_place long_env 3 "S" sample_symbol (JInt 1) sample_price start))) =
    [GetPositions; PlaceOrder sample_symbol (JInt 1) "sell" "limit" "day" sample_price;
     GetOrder (JStr "o1"); GetOptionChain "X"].
Proof. repeat split; vm_compute; reflexivity. Qed.

(** C2 (counterexample): when the broker refuses the cancel, no status is
    polled and no order placed; monitoring goes on with the old order. *)
Lemma cancel_failure_skips_place :
  fst (handle_adjust (sample_env false true 3) 5 sample_order start) = Done (Continue sample_order) /\
  map fst (log (snd (handle_adjust (sample_env false true 3) 5 sample_order start))) =
    [GetOrder (JStr "o1"); GetOptionChain "X"; CancelOrder (JStr "o1")].
Proof. split; vm_compute; reflexivity. Qed.

Lemma cancel_replace_sequence_witness :
  exists o s',
    handle_adjust (sample_env true true 3) 5 sample_order start = (o, s') /\
    (exists rest, log s' = [(GetOrder (JStr "o1"), gateway (sample_env true true 3) 0 (GetOrder (JStr "o1")));
                            (GetOptionChain "X", gateway (sample_env true true 3) 1 (GetOptionChain "X"));
                            (CancelOrder (JStr "o1"), gateway (sample_env true true 3) 2 (CancelOrder (JStr "o1")))]
                           ++ rest).
Proof.
  destruct (cancel_replace_sequence (sample_env true true 3) 5 sample_order start sample_occ sample_price
              (sample_env_wf true true 3) ltac:(vm_compute; reflexivity) ltac:(vm_compute; reflexivity)
              ltac:(vm_compute; reflexivity) ltac:(vm_compute; reflexivity))
    as (o & s' & rest & H1 & H2 & _).
  exists o, s'; split; [exact H1 | exists rest; exact H2].
Defined.

Lemma place_failure_ends_canceled_witness :
  exists s', poll_loop (sample_env true false 3) 6 sample_order start = (Done "CANCELED", s').
Proof.
  destruct (place_failure_ends_canceled (sample_env true false 3) 5 0 sample_order start sample_occ sample_price
              "A"%char (Some "X240119C00001000") (Some "X240119P00001000")
              (sample_env_wf true false 3) ltac:(reflexivity) ltac:(left; reflexivity)
              ltac:(vm_compute; reflexivity) ltac:(vm_compute; reflexivity)
              ltac:(vm_compute; reflexivity) ltac:(vm_compute; reflexivity)
              ltac:(vm_compute; reflexivity) ltac:(vm_compute; reflexivity)
              ltac:(vm_compute; reflexivity) ltac:(vm_compute; reflexivity)
              (sample_sticky true false 3 (JStr "o1")) ltac:(intro i; reflexivity) ltac:(lia))
    as (s' & pre & r & rc & H & _).
  exists s'; exact H.
Defined.

Lemma closing_workflow_aborts_witness :
  exists s', closing_workflow (sample_env true true 3) 5 sample_symbol (JInt 1) "B" start = (Done tt, s').
Proof.
  eexists; apply (closing_workflow_aborts (sample_env true true 3) 5 sample_symbol (JInt 1) "B" start
                    [("snapshots", JObj [(sample_symbol, JObj [("latestQuote",
                        JObj [("bp", JFloat 1%float); ("ap", JFloat 1.5%float)])])])]).
  - reflexivity.
  - intros kv [<- | []]; left; reflexivity.
  - vm_compute; reflexivity.
Defined.

End MonitorFacts.

(** ** Monitoring: what the loop returns and which orders it places *)
Module MonitorRuns.
Import Py DateFmt Codec Monitor MonitorSpec.
Local Open Scope nat_scope.
Local Open Scope string_scope.
Local Open Scope list_scope.

Section RunsLogic.
Variable E : env.

Lemma runs_ret {A} P (Q : A -> Prop) a : Q a -> runs P Q (ret a).
Proof. intros HQ s. exists []. rewrite app_nil_r. simpl. repeat split; auto. congruence. Qed.

Lemma runs_bind {A B} P (Q : A -> Prop) (R : B -> Prop) m k :
  runs P Q m -> (forall a, Q a -> runs P R (k a)) -> runs P R (mbind m k).
Proof.
  intros Hm Hk s. unfold mbind. destruct (Hm s) as [l1 [Hl1 [HP1 HQ1]]].
  destruct (m s) as [o s1]. simpl in *.
  destruct o as [a|e|].
  - destruct (Hk a (HQ1 a eq_refl) s1) as [l2 [Hl2 [HP2 HQ2]]].
    exists (l1 ++ l2). rewrite Hl2, Hl1, app_assoc. split; [reflexivity|].
    split; [apply Forall_app; auto | exact HQ2].
  - exists l1. simpl. repeat split; auto. discriminate.
  - exists l1. simpl. repeat split; auto. discriminate.
Qed.

Lemma runs_gw P c : (forall r, P (c, r)) -> runs P (fun _ => True) (gw E c).
Proof. intros HP s. exists [(c, gateway E (n_calls s) c)]. simpl. repeat split; auto. Qed.

Lemma runs_lift {A} P (r : res A) : runs P (fun _ => True) (lift r).
Proof. intros s. exists []. rewrite app_nil_r. unfold lift. destruct r; simpl; repeat split; auto. Qed.

Lemma runs_input P : runs P (fun _ => True) (input E).
Proof. intros s. exists []. rewrite app_nil_r. simpl. repeat split; auto. Qed.

Lemma runs_read_key P : runs P (fun _ => True) (read_key E).
Proof. intros s. exists []. rewrite app_nil_r. simpl. repeat split; auto. Qed.

Lemma runs_diverge {A} P (Q : A -> Prop) : runs P Q diverge.
Proof. intros s. exists []. rewrite app_nil_r. simpl. repeat split; auto. discriminate. Qed.

Lemma runs_weaken {A} P (Q Q' : A -> Prop) m : runs P Q m -> (forall a, Q a -> Q' a) -> runs P Q' m.
Proof. intros Hm HQ s. destruct (Hm s) as [l [H1 [H2 H3]]]. exists l. auto. Qed.

End RunsLogic.

Ltac runs_leaf :=
  first [ apply runs_gw; intros; cbn; repeat split; auto
        | apply runs_lift | apply runs_input | apply runs_read_key | apply runs_diverge ].

Section Wait.
Variable E : env.

Lemma wait_for_cancel_places sym q sd f i : runs (places_only sym q sd) (fun _ => True) (wait_for_cancel E f i).
Proof.
  revert i; induction f as [|f IH]; intros i; simpl.
  - apply runs_diverge.
  - eapply runs_bind; [runs_leaf | intros r _].
    eapply runs_bind; [runs_leaf | intros st _].
    destruct (is_str st "canceled"); [apply runs_ret; exact I | apply IH].
Qed.

End Wait.

Ltac runs_tac :=
  repeat match goal with
  | |- runs _ _ (mbind (wait_for_cancel _ _ _) _) =>
      eapply runs_bind; [apply wait_for_cancel_places | intros ? _]
  | |- runs _ _ (mbind _ _) => eapply runs_bind; [runs_leaf | intros ? _]
  | |- runs _ _ (mbind _ _) => apply (runs_bind _ (fun _ => True)); [ | intros ? _]
  | |- runs _ _ (ret _) => apply runs_ret
  | |- runs _ _ (if ?b then _ else _) => destruct b eqn:?
  | |- runs _ _ (match ?x with _ => _ end) => destruct x
  | |- runs _ (fun _ => True) _ => runs_leaf
  end.

Ltac ok_tac :=
  unfold step_ok, same_order, monitor_outcomes in *; cbn in *; intuition congruence.

Section Places.
Variable E : env.
Variable t0 : tracked.

Lemma handle_key_places f k t :
  same_order t0 t ->
  runs (places_only (t_symbol t0) (t_quantity t0) (t_side t0)) (step_ok t0) (handle_key E f k t).
Proof.
  intros Ht. unfold same_order in Ht.
  unfold handle_key, handle_quit, handle_adjust, adjust_cancel_replace, adjust_standard,
    read_new_price, cancel_and_replace, replace_in_place, show_live_quote.
  runs_tac; try ok_tac.
Qed.

Lemma status_tick_places t :
  same_order t0 t ->
  runs (places_only (t_symbol t0) (t_quantity t0) (t_side t0)) (step_ok t0) (status_tick E t).
Proof.
  intros Ht.
  unfold status_tick, status_display.
  runs_tac; try ok_tac.
  simpl in *. unfold monitor_outcomes.
  repeat match goal with
  | H : (_ || _)%bool = true |- _ => apply orb_true_iff in H; destruct H as [H|H]
  | H : String.eqb _ _ = true |- _ => apply String.eqb_eq in H; subst
  end; try discriminate; vm_compute; auto 10.
Qed.

Lemma poll_loop_places f t :
  same_order t0 t ->
  runs (places_only (t_symbol t0) (t_quantity t0) (t_side t0)) (fun r => In r monitor_outcomes)
    (poll_loop E f t).
Proof.
  revert t; induction f as [|f IH]; intros t Ht; simpl.
  - apply runs_diverge.
  - eapply runs_bind; [runs_leaf | intros k _].
    eapply runs_bind; [apply (handle_key_places f k t Ht) | intros r Hr].
    destruct r as [t'|t'|s]; simpl in Hr.
    + apply IH; exact Hr.
    + eapply runs_bind; [apply (status_tick_places t' Hr) | intros r' Hr'].
      destruct r' as [t''|t''|s]; simpl in Hr'; [apply IH; exact Hr' | apply IH; exact Hr' | apply runs_ret; exact Hr'].
    + apply runs_ret; exact Hr.
Qed.

End Places.

Section Legs.
Variable E : env.
Lemma place_and_poll_places fuel sym q action price :
  runs (places_only sym q (side_of_action action)) (fun _ => True) (place_and_poll E fuel sym q action price).
Proof.
  unfold place_and_poll.
  eapply runs_bind; [runs_leaf | intros r _].
  destruct (negb (success r)); [apply runs_ret; exact I|].
  eapply runs_bind; [runs_leaf | intros order_id _].
  eapply runs_bind; [|intros ? _; apply runs_ret; exact I].
  eapply runs_weaken; [|intros; exact I].
  assert (Hs : same_order (mktracked order_id sym q (side_of_action action) action price)
                          (mktracked order_id sym q (side_of_action action) action price))
    by (unfold same_order; auto).
  exact (poll_loop_places _ _ fuel _ Hs).
Qed.

Lemma closing_workflow_places fuel sym q action :
  runs (places_only sym q (if String.eqb action "B" then "sell" else "buy")) (fun _ => True)
    (closing_workflow E fuel sym q action).
Proof.
  assert (Hside : (if String.eqb (if String.eqb action "B" then "S" else "B") "S" then "sell" else "buy")
                  = (if String.eqb action "B" then "sell" else "buy"))
    by (destruct (String.eqb action "B"); reflexivity).
  unfold closing_workflow.
  runs_tac; try exact I; try exact Hside.
  match goal with
  | |- runs _ _ (poll_loop E fuel ?t) =>
      assert (Hs : same_order t t) by (unfold same_order; auto);
      pose proof (poll_loop_places E t fuel t Hs) as Hp;
      cbn [t_symbol t_quantity t_side] in Hp; rewrite <- Hside;
      eapply runs_weaken; [exact Hp | intros; exact I]
  end.
Qed.

(** X3: every order [place_and_monitor_order] places is for the given
    symbol and quantity. The log grows by the orders [l1] of the opening leg
    ([place_and_poll]: the placement and the monitoring of the order), all on
    the side of the action, then by the orders [l2] of the closing leg, all on
    the other side. [l2] is empty unless the opening leg returned "FILLED"
    and the intent is "open"; then [l2] is what [closing_workflow] appends
    after the opening leg. *)
Theorem place_and_monitor_sides fuel sym q action price intent s :
  exists l1 l2,
    log (snd (place_and_poll E fuel sym q action price s)) = log s ++ l1 /\
    log (snd (place_and_monitor_order E fuel sym q action price intent s)) = log s ++ l1 ++ l2 /\
    Forall (places_only sym q (side_of_action action)) l1 /\
    Forall (places_only sym q (if String.eqb action "B" then "sell" else "buy")) l2 /\
    (l2 = [] \/
     (fst (place_and_poll E fuel sym q action price s) = Done (Some "FILLED") /\ intent = "open" /\
      log (snd (closing_workflow E fuel sym q action (snd (place_and_poll E fuel sym q action price s))))
        = log (snd (place_and_poll E fuel sym q action price s)) ++ l2)).
Proof.
  unfold place_and_monitor_order, mbind.
  destruct (place_and_poll_places fuel sym q action price s) as [l1 [H1 [H2 _]]].
  destruct (place_and_poll E fuel sym q action price s) as [o s1] eqn:Hpp; simpl in H1 |- *.
  destruct o as [[st|]|e|];
    try (exists l1, []; rewrite app_nil_r; simpl; repeat split; auto; fail).
  destruct (String.eqb st "FILLED" && String.eqb intent "open") eqn:Hb;
    [|exists l1, []; rewrite app_nil_r; simpl; repeat split; auto].
  apply andb_true_iff in Hb as [Hf Hi]; apply String.eqb_eq in Hf, Hi; subst.
  destruct (closing_workflow_places fuel sym q action s1) as [l2 [H3 [H4 _]]].
  exists l1, l2. rewrite H3, H1, app_assoc. repeat split; auto.
Qed.

End Legs.

Section Theorems.

(** X1: when the monitor loop returns, its status is one of ["FILLED"], ["CANCELED"], ["EXPIRED"] or ["REJECTED"]. *)
Theorem poll_loop_outcomes E fuel t s r s' :
  poll_loop E fuel t s = (Done r, s') -> In r monitor_outcomes.
Proof.
  intros Hrun.
  assert (Ht : same_order t t) by (unfold same_order; auto).
  destruct (poll_loop_places E t fuel t Ht s) as [l [_ [_ HQ]]].
  rewrite Hrun in HQ. apply HQ. reflexivity.
Qed.

(** X2: the monitor loop only appends to the broker log, and every order it places (a re-placement after a cancel) has the symbol, quantity and side of the tracked order. *)
Theorem poll_loop_places_tracked E fuel t s :
  exists l, log (snd (poll_loop E fuel t s)) = log s ++ l /\
    Forall (places_only (t_symbol t) (t_quantity t) (t_side t)) l.
Proof.
  assert (Ht : same_order t t) by (unfold same_order; auto).
  destruct (poll_loop_places E t fuel t Ht s) as [l [H1 [H2 _]]]. eauto.
Qed.

End Theorems.

(** The status a filled order's monitoring returns. *)
Lemma poll_loop_outcomes_witness : In "FILLED" monitor_outcomes.
Proof.
  apply (poll_loop_outcomes long_env 1 sample_order start "FILLED"
           (snd (poll_loop long_env 1 sample_order start))).
  vm_compute. reflexivity.
Defined.

End MonitorRuns.

(** ** Monitoring: the adjust, quit and closing workflows *)
Module MonitorMore.
Import Py DateFmt Codec Monitor MonitorSpec MonitorFacts.
Local Open Scope nat_scope.
Local Open Scope string_scope.
Local Open Scope list_scope.

Section Adjust.
Variable E : env.
Hypothesis Hwf : wf_env E.

(** X4: in the adjust workflow, a new price of [q] or one that [float()] rejects leaves the order as it is: after the status and option-chain requests, [handle_adjust] falls through with the same tracked order, having read one line. *)
Theorem handle_adjust_declined fuel t s p :
  parse_occ_symbol (t_symbol t) = Some p ->
  (String.eqb (lower (lines E (n_lines s))) "q" = true \/
   exists e, float_of_string (lower (lines E (n_lines s))) = Exc e) ->
  handle_adjust E fuel t s =
  (Done (Fall t),
   mkst (S (S (n_calls s))) (n_keys s) (S (n_lines s))
     (log s ++ [(GetOrder (t_id t), gateway E (n_calls s) (GetOrder (t_id t)));
                (GetOptionChain (underlying p), gateway E (S (n_calls s)) (GetOptionChain (underlying p)))])).
Proof.
  intros Hp Hline; unfold handle_adjust; rewrite bind_gw; cbv beta.
  destruct (status_field_ok _ _ (Hwf (n_calls s) (GetOrder (t_id t)))) as (j & Hj & _).
  rewrite Hj, bind_lift_ok; cbv beta.
  assert (Hshow : forall (k : unit -> M step), mbind (show_live_quote E t) k
            (mkst (S (n_calls s)) (n_keys s) (n_lines s) (log s ++ [(GetOrder (t_id t), gateway E (n_calls s) (GetOrder (t_id t)))]))
          = k tt (mkst (S (S (n_calls s))) (n_keys s) (n_lines s)
                   (log s ++ [(GetOrder (t_id t), gateway E (n_calls s) (GetOrder (t_id t)));
                              (GetOptionChain (underlying p), gateway E (S (n_calls s)) (GetOptionChain (underlying p)))]))).
  { intro k. erewrite bind_done by (apply (show_live_quote_run E Hwf); exact Hp).
    cbn [n_calls n_keys n_lines log]. rewrite <- app_assoc. reflexivity. }
  destruct (in_strs j non_replaceable_statuses);
    unfold adjust_cancel_replace, adjust_standard; rewrite Hshow; unfold read_new_price;
    rewrite bind_input; cbv beta zeta; cbn [n_calls n_keys n_lines log];
    (destruct Hline as [Hq | (e & He)]; [rewrite Hq; reflexivity |];
     destruct (String.eqb (lower (lines E (n_lines s))) "q"); [reflexivity | rewrite He; reflexivity]).
Qed.

(** X5: for a replaceable order, a new price that [float()] accepts is sent as one [replace_order] request; on success the tracked order takes the new id and price, otherwise it is kept. *)
Theorem handle_adjust_replace fuel t s p np :
  non_replaceable (gateway E (n_calls s) (GetOrder (t_id t))) = false ->
  parse_occ_symbol (t_symbol t) = Some p ->
  String.eqb (lower (lines E (n_lines s))) "q" = false ->
  float_of_string (lower (lines E (n_lines s))) = Ok np ->
  handle_adjust E fuel t s =
  (Done (Fall (if success (gateway E (S (S (n_calls s))) (ReplaceOrder (t_id t) np))
               then set_id_price t (replaced_id (gateway E (S (S (n_calls s))) (ReplaceOrder (t_id t) np)) (t_id t)) np
               else t)),
   mkst (S (S (S (n_calls s)))) (n_keys s) (S (n_lines s))
     (log s ++ [(GetOrder (t_id t), gateway E (n_calls s) (GetOrder (t_id t)));
                (GetOptionChain (underlying p), gateway E (S (n_calls s)) (GetOptionChain (underlying p)));
                (ReplaceOrder (t_id t) np, gateway E (S (S (n_calls s))) (ReplaceOrder (t_id t) np))])).
Proof.
  intros Hnr Hp Hq Hf; unfold handle_adjust; rewrite bind_gw; cbv beta.
  destruct (status_field_ok _ _ (Hwf (n_calls s) (GetOrder (t_id t)))) as (j & Hj & _).
  unfold non_replaceable in Hnr; rewrite Hj in Hnr |- *.
  rewrite bind_lift_ok; cbv beta; rewrite Hnr; unfold adjust_standard.
  erewrite bind_done by (apply (show_live_quote_run E Hwf); exact Hp); cbv beta.
  unfold read_new_price; rewrite bind_input; cbv beta zeta; cbn [n_calls n_keys n_lines log].
  rewrite Hq, Hf. unfold replace_in_place. rewrite bind_gw; cbv beta; cbn [n_calls n_keys n_lines log].
  pose proof (Hwf (S (S (n_calls s))) (ReplaceOrder (t_id t) np)) as Hr.
  destruct (gateway E (S (S (n_calls s))) (ReplaceOrder (t_id t) np)) as [d|msg] eqn:Hg; simpl in Hr |- *.
  - destruct d; try discriminate Hr. cbn [dict_get data_of replaced_id]. rewrite bind_lift_ok. cbv beta.
    rewrite <- !app_assoc. reflexivity.
  - rewrite <- !app_assoc. reflexivity.
Qed.

End Adjust.

Import MoreSamples.

Lemma replace_gateway_wf k line : wf_env (typing_env replace_gateway k line).
Proof. intros n c; destruct c; reflexivity. Qed.

Lemma sample_gateway_wf b1 b2 m k line : wf_env (typing_env (sample_gateway b1 b2 m) k line).
Proof. intros n c; destruct c; cbn; try destruct b1; try destruct b2; reflexivity. Qed.

Lemma handle_adjust_declined_witness :
  handle_adjust (typing_env replace_gateway "A" "Q") 1 sample_order start =
  (Done (Fall sample_order), snd (handle_adjust (typing_env replace_gateway "A" "Q") 1 sample_order start)).
Proof.
  rewrite (handle_adjust_declined _ (replace_gateway_wf "A" "Q") 1 sample_order start sample_occ)
    by (vm_compute; reflexivity || (left; reflexivity)).
  reflexivity.
Defined.

Lemma handle_adjust_replace_witness :
  handle_adjust (typing_env replace_gateway "A" "1.5") 1 sample_order start =
  (Done (Fall (set_id_price sample_order (JStr "o3") 1.5%float)),
   snd (handle_adjust (typing_env replace_gateway "A" "1.5") 1 sample_order start)).
Proof.
  rewrite (handle_adjust_replace _ (replace_gateway_wf "A" "1.5") 1 sample_order start sample_occ 1.5%float)
    by (vm_compute; reflexivity).
  vm_compute. reflexivity.
Defined.

Section Quit.
Variable E : env.

(** X6: [Q] confirmed with [y] and a successful cancel request ends the monitoring with ["CANCELED"] after exactly that cancel request. *)
Theorem quit_confirmed_ends_canceled f c t s :
  Ascii.eqb (upper_char c) "Q" = true ->
  keys E (n_keys s) = Some c ->
  String.eqb (lower (lines E (n_lines s))) "y" = true ->
  success (gateway E (n_calls s) (CancelOrder (t_id t))) = true ->
  poll_loop E (S f) t s =
  (Done "CANCELED",
   mkst (S (n_calls s)) (S (n_keys s)) (S (n_lines s))
     (log s ++ [(CancelOrder (t_id t), gateway E (n_calls s) (CancelOrder (t_id t)))])).
Proof.
  intros Hc Hk Hy Hs. simpl. rewrite bind_read_key; cbv beta. rewrite Hk.
  unfold handle_key. rewrite Hc. unfold handle_quit.
  rewrite bind_done with (a := Return "CANCELED")
    (s1 := mkst (S (n_calls s)) (S (n_keys s)) (S (n_lines s))
             (log s ++ [(CancelOrder (t_id t), gateway E (n_calls s) (CancelOrder (t_id t)))])).
  - reflexivity.
  - rewrite bind_input; cbv beta; cbn [n_calls n_keys n_lines log]. rewrite Hy.
    rewrite bind_gw; cbv beta; cbn [n_calls n_keys n_lines log]. rewrite Hs. reflexivity.
Qed.

(** X7: when the broker rejects the order placement, [place_and_monitor_order] stops after that one request, without monitoring and without a closing leg. *)
Theorem place_rejected_no_monitoring fuel sym q action price intent s :
  success (gateway E (n_calls s) (PlaceOrder sym q (side_of_action action) "limit" "day" price)) = false ->
  place_and_monitor_order E fuel sym q action price intent s =
  (Done tt,
   mkst (S (n_calls s)) (n_keys s) (n_lines s)
     (log s ++ [(PlaceOrder sym q (side_of_action action) "limit" "day" price,
                 gateway E (n_calls s) (PlaceOrder sym q (side_of_action action) "limit" "day" price))])).
Proof.
  intros Hs. unfold place_and_monitor_order, place_and_poll.
  rewrite bind_done with (a := None)
    (s1 := mkst (S (n_calls s)) (n_keys s) (n_lines s)
             (log s ++ [(PlaceOrder sym q (side_of_action action) "limit" "day" price,
                         gateway E (n_calls s) (PlaceOrder sym q (side_of_action action) "limit" "day" price))])).
  - reflexivity.
  - cbv zeta. rewrite bind_gw; cbv beta. rewrite Hs. reflexivity.
Qed.
End Quit.

Lemma quit_confirmed_ends_canceled_witness :
  poll_loop (typing_env (sample_gateway true true 0) "q" "Y") 1 sample_order start =
  (Done "CANCELED", snd (poll_loop (typing_env (sample_gateway true true 0) "q" "Y") 1 sample_order start)).
Proof.
  rewrite (quit_confirmed_ends_canceled (typing_env (sample_gateway true true 0) "q" "Y") 0 "q" sample_order start)
    by reflexivity.
  reflexivity.
Defined.

Lemma place_rejected_no_monitoring_witness :
  place_and_monitor_order (typing_env (sample_gateway true false 0) "A" "1.25") 3 sample_symbol (JInt 1) "B"
    sample_price "open" start =
  (Done tt, snd (place_and_monitor_order (typing_env (sample_gateway true false 0) "A" "1.25") 3 sample_symbol
                   (JInt 1) "B" sample_price "open" start)).
Proof.
  rewrite (place_rejected_no_monitoring (typing_env (sample_gateway true false 0) "A" "1.25") 3 sample_symbol
             (JInt 1) "B" sample_price "open" start) by reflexivity.
  reflexivity.
Defined.

Lemma bind_lift_exc {A B} (e : exn) (k : A -> M B) (s : st) : mbind (lift (Exc e)) k s = (Raised e, s).
Proof. reflexivity. Qed.

Lemma bind_assoc {A B C} (m : M A) (f : A -> M B) (g : B -> M C) (s : st) :
  mbind (mbind m f) g s = mbind m (fun x => mbind (f x) g) s.
Proof. unfold mbind; destruct (m s) as [[a|e|] s1]; reflexivity. Qed.

Lemma bind_if {A B} (b : bool) (m1 m2 : M A) (k : A -> M B) (s : st) :
  mbind (if b then m1 else m2) k s = if b then mbind m1 k s else mbind m2 k s.
Proof. destruct b; reflexivity. Qed.

Ltac mstep :=
  match goal with
  | |- context [mbind (gw ?E ?c) ?k ?st] => rewrite bind_gw; cbv beta zeta; cbn [n_calls n_keys n_lines log]
  | |- context [mbind (input ?E) ?k ?st] => rewrite bind_input; cbv beta zeta; cbn [n_calls n_keys n_lines log]
  | |- context [mbind (lift ?r) ?k ?st] =>
      let H := fresh "Hl" in
      destruct r eqn:H; [rewrite bind_lift_ok | rewrite bind_lift_exc]; cbv beta zeta
  | |- context [mbind (ret ?a) ?k ?st] => rewrite bind_ret; cbv beta zeta
  | |- context [mbind (mbind ?m ?f) ?g ?st] => rewrite bind_assoc
  | |- context [mbind (if ?b then _ else _) ?k ?st] => rewrite bind_if
  | |- context [if ?b then _ else _] => let H := fresh "Hb" in destruct b eqn:H
  end.

(** X8: in the closing workflow, a closing price of [s] or one that [float()] rejects places no closing order: the option-chain request is the only broker call. *)
Theorem closing_workflow_declined E fuel sym q action s :
  (String.eqb (lower (lines E (n_lines s))) "s" = true \/
   exists e, float_of_string (lines E (n_lines s)) = Exc e) ->
  log (snd (closing_workflow E fuel sym q action s)) =
  log s ++ [(GetOptionChain (prefix_before_digit sym),
             gateway E (n_calls s) (GetOptionChain (prefix_before_digit sym)))].
Proof.
  intros [Hs | [e He]]; unfold closing_workflow.
  - repeat mstep; try reflexivity; congruence.
  - repeat (mstep || rewrite He); reflexivity.
Qed.

Lemma closing_workflow_declined_witness :
  log (snd (closing_workflow (typing_env long_gateway "A" "s") 1 sample_symbol (JInt 1) "B" start)) =
  [(GetOptionChain "X", long_gateway 0 (GetOptionChain "X"))].
Proof.
  exact (closing_workflow_declined (typing_env long_gateway "A" "s") 1 sample_symbol (JInt 1) "B" start
           (or_introl eq_refl)).
Defined.

Lemma first_position_qty_absent target ps :
  Forall (fun p => exists kvs, p = JObj kvs /\ is_str (obj_lookup kvs "symbol" JNull) target = false) ps ->
  first_position_qty target ps = Ok 0%float.
Proof.
  induction 1 as [|p ps (kvs & -> & Hsym) _ IH]; [reflexivity|].
  simpl. rewrite Hsym. exact IH.
Qed.

(** X9: the position intent is ["open"] when the positions query fails or lists no position on the symbol, whatever the action; only the positions request is made. *)
Theorem position_intent_default_open E action target s :
  (success (gateway E (n_calls s) GetPositions) = false \/
   exists ps, data_of (gateway E (n_calls s) GetPositions) = JList ps /\
     Forall (fun p => exists kvs, p = JObj kvs /\ is_str (obj_lookup kvs "symbol" JNull) target = false) ps) ->
  determine_position_intent E action target s =
  (Done "open", mkst (S (n_calls s)) (n_keys s) (n_lines s)
                  (log s ++ [(GetPositions, gateway E (n_calls s) GetPositions)])).
Proof.
  intros H. unfold determine_position_intent, current_position_qty.
  rewrite bind_assoc, bind_gw; cbv beta.
  destruct H as [Hf | (ps & Hd & Hps)].
  - rewrite Hf. rewrite bind_ret. cbv beta.
    unfold position_intent_of. destruct (String.eqb action "B"), (String.eqb action "S"); reflexivity.
  - destruct (success (gateway E (n_calls s) GetPositions)).
    + rewrite bind_assoc, Hd. simpl iter_items. rewrite bind_lift_ok; cbv beta.
      rewrite first_position_qty_absent by exact Hps.
      unfold position_intent_of. destruct (String.eqb action "B"), (String.eqb action "S"); reflexivity.
    + rewrite bind_ret. cbv beta.
      unfold position_intent_of. destruct (String.eqb action "B"), (String.eqb action "S"); reflexivity.
Qed.

(** A failed positions request with the action S, and a short position on
    another symbol with the action B. *)
Lemma position_intent_default_open_witness :
  determine_position_intent (typing_env (positions_gateway (ApiErr "positions unavailable")) "A" "1.25")
    "S" sample_symbol start =
  (Done "open", mkst 1 0 0 [(GetPositions, ApiErr "positions unavailable")]) /\
  determine_position_intent (typing_env (positions_gateway other_positions) "A" "1.25")
    "B" sample_symbol start =
  (Done "open", mkst 1 0 0 [(GetPositions, other_positions)]).
Proof.
  split.
  - exact (position_intent_default_open (typing_env (positions_gateway (ApiErr "positions unavailable")) "A" "1.25")
             "S" sample_symbol start (or_introl eq_refl)).
  - apply (position_intent_default_open (typing_env (positions_gateway other_positions) "A" "1.25")
             "B" sample_symbol start).
    right. eexists; split; [reflexivity|].
    apply Forall_cons; [|apply Forall_nil].
    eexists; split; [reflexivity | vm_compute; reflexivity].
Defined.

End MonitorMore.

(** ** The OCC symbol codec: encoder errors and decoder output *)
Module CodecMore.
Import Py DateFmt Codec CodecFacts.
Local Open Scope nat_scope.
Local Open Scope string_scope.

Lemma prim2sf_nan (f : float) : is_nan f = true -> Prim2SF f = S754_nan.
Proof.
  unfold is_nan. rewrite FloatAxioms.eqb_spec.
  destruct (Prim2SF f) as [s|s| |s m e]; simpl; try discriminate; auto.
  - destruct s; discriminate.
  - unfold SFeqb, SFcompare. destruct s; rewrite ?Z.compare_refl, ?Pos.compare_cont_refl; discriminate.
Qed.

Lemma prim2sf_infinity (f : float) : is_infinity f = true -> exists s, Prim2SF f = S754_infinity s.
Proof.
  unfold is_infinity. rewrite FloatAxioms.eqb_spec, FloatAxioms.abs_spec.
  replace (Prim2SF infinity) with (S754_infinity false) by reflexivity.
  destruct (Prim2SF f) as [s|s| |s m e]; simpl; try discriminate; eauto.
Qed.

Lemma int_of_float_nan_mul (f : float) : is_nan f = true -> int_of_float (f * 1000) = Exc ValueError.
Proof.
  intro H. unfold int_of_float. rewrite FloatAxioms.mul_spec, (prim2sf_nan f H). reflexivity.
Qed.

Lemma int_of_float_inf (g : float) : is_infinity g = true -> int_of_float g = Exc OverflowError.
Proof.
  intro H. unfold int_of_float. destruct (prim2sf_infinity g H) as [s ->]. reflexivity.
Qed.

(** X10: for an expiry date it accepts, [create_occ_symbol] returns [None] for a strike [float()] rejects with [ValueError] or a NaN strike, and raises [OverflowError] for an integer strike too large for a float or a strike whose thousandths are infinite. *)
Theorem create_occ_symbol_strike_errors u d t v dt :
  strptime_Ymd d = Some dt ->
  (to_float v = Exc ValueError -> create_occ_symbol u d t v = Ok None) /\
  (to_float v = Exc OverflowError -> create_occ_symbol u d t v = Exc OverflowError) /\
  (forall f, to_float v = Ok f -> is_nan f = true -> create_occ_symbol u d t v = Ok None) /\
  (forall f, to_float v = Ok f -> is_infinity (f * 1000) = true ->
     create_occ_symbol u d t v = Exc OverflowError).
Proof.
  intros Hd. unfold create_occ_symbol, strike_thousandths. rewrite Hd. cbv zeta.
  repeat split.
  - intros Hv. rewrite Hv. reflexivity.
  - intros Hv. rewrite Hv. reflexivity.
  - intros f Hv Hn. rewrite Hv. cbn [bind]. rewrite (int_of_float_nan_mul f Hn). reflexivity.
  - intros f Hv Hi. rewrite Hv. cbn [bind]. rewrite (int_of_float_inf _ Hi). reflexivity.
Qed.

Lemma create_occ_symbol_strike_errors_witness :
  create_occ_symbol "X" "2024-01-19" "C" (PStr "abc") = Ok None /\
  create_occ_symbol "X" "2024-01-19" "C" (PInt (10 ^ 400)%Z) = Exc OverflowError /\
  create_occ_symbol "X" "2024-01-19" "C" (PStr "nan") = Ok None /\
  create_occ_symbol "X" "2024-01-19" "Z" (PStr "1e306") = Exc OverflowError.
Proof.
  assert (Hd : strptime_Ymd "2024-01-19" = Some (mkdate 2024 1 19)) by (vm_compute; reflexivity).
  split; [|split; [|split]].
  - apply (create_occ_symbol_strike_errors "X" "2024-01-19" "C" (PStr "abc") _ Hd).
    vm_compute; reflexivity.
  - apply (create_occ_symbol_strike_errors "X" "2024-01-19" "C" (PInt (10 ^ 400)%Z) _ Hd).
    vm_compute; reflexivity.
  - apply (proj1 (proj2 (proj2 (create_occ_symbol_strike_errors "X" "2024-01-19" "C" (PStr "nan") _ Hd)))
             nan); vm_compute; reflexivity.
  - apply (proj2 (proj2 (proj2 (create_occ_symbol_strike_errors "X" "2024-01-19" "Z" (PStr "1e306") _ Hd)))
             0x1.6c8e5ca239029p+1016%float);
      vm_compute; reflexivity.
Defined.

Lemma digit_value_bound (c : ascii) : is_digit c = true -> (0 <= digit_value c <= 9)%Z.
Proof. destruct c as [[] [] [] [] [] [] [] []]; vm_compute; intro H; try discriminate H; split; discriminate. Qed.

Lemma field_int_two (c1 c2 : ascii) : (0 <= field_int [c1; c2] <= 99)%Z.
Proof.
  unfold field_int, digits_value. simpl.
  destruct (is_digit c1) eqn:H1, (is_digit c2) eqn:H2; simpl;
    repeat match goal with H : is_digit _ = true |- _ => apply digit_value_bound in H end; lia.
Qed.

Lemma match_alt_len (a : list cclass) (l m r : list ascii) :
  match_alt a l = Some (m, r) -> List.length m = List.length a.
Proof.
  revert l m r; induction a as [|k a IH]; intros l m r H; simpl in H.
  - injection H as <- <-; reflexivity.
  - destruct l as [|c l]; [discriminate H|].
    destruct (cclass_ok k c); [|discriminate H].
    destruct (match_alt a l) as [[m' r']|] eqn:Ha; [|discriminate H].
    injection H as <- <-; simpl; f_equal; eapply IH; exact Ha.
Qed.

Lemma match_pat_field1 (a : list cclass) (p : list directive) (l : list ascii) fs r' :
  match_pat (DField [a] :: p) l = Some (fs, r') ->
  exists m r fs', match_alt a l = Some (m, r) /\ fs = m :: fs'.
Proof.
  simpl. destruct (match_alt a l) as [[m r]|]; [|discriminate].
  destruct (match_pat p r) as [[fs0 r0]|]; [|discriminate].
  intro H; injection H as <- <-; eauto 6.
Qed.

Lemma strptime_ymd_year (s : string) (dt : date) :
  strptime_ymd s = Some dt -> valid_date dt = true /\ (1969 <= year dt <= 2068)%Z.
Proof.
  unfold strptime_ymd. intro H.
  destruct (match_pat pat_ymd (list_ascii_of_string s)) as [[fs r]|] eqn:Hm; [|discriminate H].
  destruct fs as [|fy [|fm [|fd [|? ?]]]]; try discriminate H.
  destruct r; [|discriminate H].
  destruct (valid_date _) eqn:Hv; [|discriminate H].
  injection H as <-. split; [exact Hv|]. cbn [year].
  destruct (match_pat_field1 _ _ _ _ _ Hm) as (m & r & fs' & Ha & Hfs).
  injection Hfs as -> _.
  apply match_alt_len in Ha.
  destruct m as [|c1 [|c2 [|? ?]]]; try discriminate Ha.
  pose proof (field_int_two c1 c2). unfold pivot_year.
  destruct (field_int [c1; c2] <=? 68)%Z eqn:Hp; [apply Z.leb_le in Hp | apply Z.leb_gt in Hp]; lia.
Qed.

Lemma split_first_digit_spec (s u r : string) :
  split_first_digit s = Some (u, r) -> has_no_digit u = true /\ s = (u ++ r)%string.
Proof.
  revert u r; induction s as [|c s IH]; intros u r H; simpl in H; [discriminate H|].
  destruct (is_digit c) eqn:Hc.
  - injection H as <- <-. split; reflexivity.
  - destruct (split_first_digit s) as [[u' r']|]; [|discriminate H].
    injection H as <- <-. destruct (IH u' r' eq_refl) as [Hu ->].
    split; [|reflexivity]. unfold has_no_digit in *. simpl. rewrite Hc. exact Hu.
Qed.
(** What a successful decode returns. *)
Lemma parse_occ_symbol_output_spec (s : string) (o : occ) :
  parse_occ_symbol s = Some o ->
  (exists dt, valid_date dt = true /\ (1969 <= year dt <= 2068)%Z /\
     expiration_date o = strftime_Ymd dt /\ strptime_Ymd (expiration_date o) = Some dt) /\
  (otype o = "call" \/ otype o = "put") /\
  has_no_digit (underlying o) = true /\
  (exists rest, s = (underlying o ++ rest)%string).
Proof.
  unfold parse_occ_symbol. intro H.
  destruct (split_first_digit s) as [[u r]|] eqn:Hs; [|discriminate H].
  destruct (split_first_digit_spec s u r Hs) as [Hu Hsur].
  destruct (parse_occ_body u r) as [o'|e] eqn:Hb; [|discriminate H].
  injection H as <-.
  unfold parse_occ_body in Hb.
  destruct (index r 6) as [tc|e]; cbn [bind] in Hb; [|discriminate Hb].
  destruct (strptime_ymd (take 6 r)) as [dt|] eqn:Hd; cbn [bind] in Hb; [|discriminate Hb].
  destruct (float_of_string (drop 7 r)) as [f|e]; cbn [bind] in Hb; [|discriminate Hb].
  injection Hb as <-. cbn [expiration_date otype underlying].
  destruct (strptime_ymd_year _ _ Hd) as [Hv Hy].
  destruct (date_facts dt Hv Hy) as (_ & HY & _).
  split; [exists dt; auto|].
  split; [destruct (Ascii.eqb tc "C"); auto|].
  split; [exact Hu | exists r; exact Hsur].
Qed.

(** X11: a symbol that [parse_occ_symbol] accepts yields a valid expiration date with a year in 1969-2068, formatted [%Y-%m-%d] and read back by [strptime]; an option type ["call"] or ["put"]; and a digit-free underlying that is a prefix of the symbol. *)
Theorem parse_occ_symbol_output (s : string) (o : occ) :
  parse_occ_symbol s = Some o ->
  (exists dt, valid_date dt = true /\ (1969 <= year dt <= 2068)%Z /\
     expiration_date o = strftime_Ymd dt /\ strptime_Ymd (expiration_date o) = Some dt) /\
  (otype o = "call" \/ otype o = "put") /\
  has_no_digit (underlying o) = true /\
  (exists rest, s = (underlying o ++ rest)%string).
Proof. exact (parse_occ_symbol_output_spec s o). Qed.

Lemma parse_occ_symbol_output_witness :
  exists o, parse_occ_symbol "SPY240119P00450000" = Some o /\
  (exists dt, valid_date dt = true /\ (1969 <= year dt <= 2068)%Z /\
     expiration_date o = strftime_Ymd dt /\ strptime_Ymd (expiration_date o) = Some dt) /\
  (otype o = "call" \/ otype o = "put") /\
  has_no_digit (underlying o) = true /\
  (exists rest, "SPY240119P00450000" = (underlying o ++ rest)%string).
Proof.
  eexists. split; [vm_compute; reflexivity|].
  apply parse_occ_symbol_output. vm_compute. reflexivity.
Defined.

End CodecMore.

(** ** Elapsed-time display of the monitor *)
Module TimeFacts.
Import Py CodecFacts PyInt TimeFmt.

Lemma list_ascii_app (a b : string) :
  list_ascii_of_string (a ++ b) = (list_ascii_of_string a ++ list_ascii_of_string b)%list.
Proof. induction a as [|c a IH]; simpl; [reflexivity | rewrite IH; reflexivity]. Qed.

Lemma str_int_nonneg (n : Z) : 0 <= n -> list_ascii_of_string (str_int n) = dec_digits n.
Proof.
  intro H. unfold str_int. destruct (n <? 0) eqn:Hn; [apply Z.ltb_lt in Hn; lia|].
  apply list_ascii_of_string_of_list_ascii.
Qed.

Lemma dec_digits_digits (n : Z) : 0 <= n -> Forall (fun c => is_digit c = true) (dec_digits n).
Proof. intro H. apply dec_digits_fuel_digits; auto. Qed.

Lemma split_at_nondigit (d1 d2 t1 t2 : list ascii) (c1 c2 : ascii) :
  Forall (fun c => is_digit c = true) d1 -> Forall (fun c => is_digit c = true) d2 ->
  is_digit c1 = false -> is_digit c2 = false ->
  (d1 ++ c1 :: t1 = d2 ++ c2 :: t2)%list -> d1 = d2 /\ c1 = c2 /\ t1 = t2.
Proof.
  revert d2; induction d1 as [|x d1 IH]; intros d2 H1 H2 Hc1 Hc2 H; destruct d2 as [|y d2]; simpl in H.
  - injection H as -> ->; auto.
  - injection H as -> _. inversion H2; congruence.
  - injection H as <- _. inversion H1; congruence.
  - injection H as -> H. inversion H1; inversion H2; subst.
    destruct (IH d2) as (-> & -> & ->); auto.
Qed.

Lemma format_time_chars (s : Z) : 0 <= s ->
  list_ascii_of_string (format_time s) =
  if 0 <? s / 60
  then (dec_digits (s / 60) ++ "m"%char :: dec_digits (s mod 60) ++ ["s"%char])%list
  else (dec_digits (s mod 60) ++ ["s"%char])%list.
Proof.
  intro H. assert (0 <= s / 60) by (apply Z.div_pos; lia).
  assert (0 <= s mod 60 < 60) by (apply Z.mod_pos_bound; lia).
  unfold format_time. destruct (0 <? s / 60);
    rewrite !list_ascii_app, !str_int_nonneg by lia; reflexivity.
Qed.

(** X12: [format_time] shows elapsed times of zero seconds or more by distinct texts. *)
Theorem format_time_injective (s1 s2 : Z) :
  0 <= s1 -> 0 <= s2 -> format_time s1 = format_time s2 -> s1 = s2.
Proof.
  intros H1 H2 Heq. apply (f_equal list_ascii_of_string) in Heq.
  rewrite !format_time_chars in Heq by assumption.
  assert (Hd1 := dec_digits_digits (s1 / 60) ltac:(apply Z.div_pos; lia)).
  assert (Hd2 := dec_digits_digits (s2 / 60) ltac:(apply Z.div_pos; lia)).
  assert (He1 := dec_digits_digits (s1 mod 60) ltac:(apply Z.mod_pos_bound; lia)).
  assert (He2 := dec_digits_digits (s2 mod 60) ltac:(apply Z.mod_pos_bound; lia)).
  assert (Hv : forall n, 0 <= n -> forall m, 0 <= m -> dec_digits n = dec_digits m -> n = m).
  { intros n Hn m Hm E. rewrite <- (dec_digits_value n Hn), <- (dec_digits_value m Hm), E. reflexivity. }
  assert (Hs : is_digit "s"%char = false) by reflexivity.
  assert (Hm : is_digit "m"%char = false) by reflexivity.
  assert (B1 : 0 <= s1 / 60) by (apply Z.div_pos; lia).
  assert (B2 : 0 <= s2 / 60) by (apply Z.div_pos; lia).
  assert (C1 : 0 <= s1 mod 60) by (apply Z.mod_pos_bound; lia).
  assert (C2 : 0 <= s2 mod 60) by (apply Z.mod_pos_bound; lia).
  rewrite (Z.div_mod s1 60), (Z.div_mod s2 60) by lia.
  destruct (0 <? s1 / 60) eqn:Q1, (0 <? s2 / 60) eqn:Q2.
  - destruct (split_at_nondigit _ _ _ _ _ _ Hd1 Hd2 Hm Hm Heq) as (Em & _ & Et).
    destruct (split_at_nondigit _ _ _ _ _ _ He1 He2 Hs Hs Et) as (Es & _ & _).
    rewrite (Hv _ B1 _ B2 Em), (Hv _ C1 _ C2 Es).
    reflexivity.
  - destruct (split_at_nondigit _ _ _ _ _ _ Hd1 He2 Hm Hs Heq) as (_ & E & _). discriminate E.
  - destruct (split_at_nondigit _ _ _ _ _ _ He1 Hd2 Hs Hm Heq) as (_ & E & _). discriminate E.
  - destruct (split_at_nondigit _ _ _ _ _ _ He1 He2 Hs Hs Heq) as (Es & _ & _).
    apply Z.ltb_ge in Q1, Q2.
    rewrite (Hv _ C1 _ C2 Es).
    assert (s1 / 60 = 0) as -> by lia.
    assert (s2 / 60 = 0) as -> by lia.
    reflexivity.
Qed.

Lemma format_time_injective_witness : 3599 = 3599.
Proof. exact (format_time_injective 3599 3599 ltac:(lia) ltac:(lia) eq_refl). Defined.

(** X13: [format_time] shows a negative elapsed time [s] as the time [s mod 60], a time under one minute. *)
Theorem format_time_negative (s : Z) :
  s < 0 -> format_time s = format_time (s mod 60) /\ 0 <= s mod 60 < 60.
Proof.
  intro H.
  assert (Hb : 0 <= s mod 60 < 60) by (apply Z.mod_pos_bound; lia).
  split; [|exact Hb].
  unfold format_time.
  assert (s / 60 < 0) by (apply Z.div_lt_upper_bound; lia).
  rewrite (Z.div_small (s mod 60) 60 Hb), (Z.mod_small (s mod 60) 60 Hb).
  destruct (0 <? s / 60) eqn:E; [apply Z.ltb_lt in E; lia|]. reflexivity.
Qed.

Lemma format_time_negative_witness : format_time (-1) = format_time 59 /\ 0 <= 59 < 60.
Proof. exact (format_time_negative (-1) ltac:(lia)). Defined.

End TimeFacts.

(** ** Steps of [atrade1_main]: the action line and the default expiry *)
Module MainFacts.
Import Py PyInt DateFmt Codec Monitor CodecFacts CodecMore TimeFacts MainSteps MoreSamples.

Lemma list_ascii_upper (s : string) :
  list_ascii_of_string (upper s) = map upper_char (list_ascii_of_string s).
Proof. induction s as [|c s IH]; simpl; [reflexivity | rewrite <- IH; reflexivity]. Qed.

Lemma upper_char_space (c : ascii) : is_space (upper_char c) = is_space c.
Proof. destruct c as [[] [] [] [] [] [] [] []]; reflexivity. Qed.

Lemma upper_char_digit_id (c : ascii) : is_digit c = true -> upper_char c = c.
Proof. destruct c as [[] [] [] [] [] [] [] []]; vm_compute; congruence. Qed.

Lemma digit_not_space (c : ascii) : is_digit c = true -> is_space c = false.
Proof. destruct c as [[] [] [] [] [] [] [] []]; vm_compute; congruence. Qed.

Lemma dec_digits_fuel_length (f : nat) (n : Z) (acc : list ascii) (k : nat) :
  (1 <= k)%nat -> 0 <= n < 10 ^ Z.of_nat k ->
  (List.length (dec_digits_fuel f n acc) <= List.length acc + k)%nat.
Proof.
  revert n acc k; induction f as [|f IH]; intros n acc k Hk Hn; simpl; [lia|].
  destruct (n <? 10) eqn:H10; simpl; [lia|].
  apply Z.ltb_ge in H10.
  destruct k as [|[|k]]; [lia| simpl in Hn; lia|].
  assert (Hp : 10 ^ Z.of_nat (S (S k)) = 10 * 10 ^ Z.of_nat (S k))
    by (rewrite (Nat2Z.inj_succ (S k)), Z.pow_succ_r by lia; reflexivity).
  assert (Hb : 0 <= n / 10 < 10 ^ Z.of_nat (S k)).
  { split; [apply Z.div_pos; lia|]. apply Z.div_lt_upper_bound; [lia|]. rewrite <- Hp. exact (proj2 Hn). }
  specialize (IH (n / 10) (digit_char (n mod 10) :: acc) (S k) ltac:(lia) Hb).
  simpl in IH. lia.
Qed.

Lemma dec_digits_length (n : Z) : 0 <= n < 10 ^ 4300 -> (List.length (dec_digits n) <= 4300)%nat.
Proof.
  intro H. unfold dec_digits.
  apply (dec_digits_fuel_length _ n [] 4300); [lia | exact H].
Qed.

Lemma dec_digits_cons (n : Z) : exists c r, dec_digits n = c :: r.
Proof.
  unfold dec_digits. simpl.
  destruct (n <? 10); [eauto|].
  destruct (dec_digits_fuel (Z.to_nat (Z.log2 n)) (n / 10) [digit_char (n mod 10)]) as [|c r] eqn:E; eauto.
  exfalso. refine (dec_digits_fuel_nonempty _ _ [digit_char (n mod 10)] _ E). intro Hc; discriminate Hc.
Qed.

Lemma strip_no_space (l : list ascii) : Forall (fun c => is_space c = false) l -> strip l = l.
Proof.
  intro H. unfold strip.
  assert (Hl : forall l', Forall (fun c => is_space c = false) l' -> strip_left l' = l').
  { intros [|c l'] Hf; [reflexivity|]. inversion Hf; subst. simpl. rewrite H2. reflexivity. }
  rewrite (Hl l H), (Hl (rev l)) by (apply Forall_rev; exact H). apply rev_involutive.
Qed.

Lemma filter_all {A} (f : A -> bool) (l : list A) : Forall (fun x => f x = true) l -> filter f l = l.
Proof. induction 1 as [|x l Hx _ IH]; simpl; [reflexivity | rewrite Hx, IH; reflexivity]. Qed.

Lemma digit_not_underscore (c : ascii) : is_digit c = true -> is_underscore c = false.
Proof. destruct c as [[] [] [] [] [] [] [] []]; vm_compute; congruence. Qed.

Lemma int_of_digits (neg : bool) (n : Z) (pre : list ascii) :
  0 <= n < 10 ^ 4300 ->
  parse_sign (strip (pre ++ dec_digits n)) = (neg, dec_digits n) ->
  int_of_string (string_of_list_ascii (pre ++ dec_digits n)) = Ok (if neg then - n else n).
Proof.
  intros Hn Hs. unfold int_of_string. rewrite list_ascii_of_string_of_list_ascii, Hs.
  pose proof (dec_digits_digits' := dec_digits_fuel_digits (S (Z.to_nat (Z.log2 n))) n [] ltac:(lia) (Forall_nil _)).
  change (dec_digits_fuel (S (Z.to_nat (Z.log2 n))) n []) with (dec_digits n) in dec_digits_digits'.
  assert (Hu : remove_underscores (dec_digits n) = dec_digits n).
  { apply filter_all. eapply Forall_impl; [|exact dec_digits_digits'].
    intros c Hc; cbv beta. rewrite digit_not_underscore by exact Hc. reflexivity. }
  rewrite Hu.
  assert (Hall : forallb (fun c => is_digit c || is_underscore c) (dec_digits n) = true).
  { apply forallb_forall. intros c Hc. rewrite Forall_forall in dec_digits_digits'.
    rewrite (dec_digits_digits' c Hc). reflexivity. }
  assert (Hus : underscores_ok "+"%char (dec_digits n) = true)
    by (apply underscores_ok_digits; [reflexivity | exact dec_digits_digits']).
  assert (Hlen := dec_digits_length n Hn).
  apply Nat.leb_le in Hlen.
  destruct (dec_digits_cons n) as (c & r & Hcr).
  rewrite Hcr in Hall, Hus, Hlen |- *.
  rewrite Hall, Hus, Hlen. simpl.
  rewrite <- Hcr, (dec_digits_value n ltac:(lia)). reflexivity.
Qed.

Lemma abs_lt_neg (n B : Z) : n < 0 -> Z.abs n < B -> 0 <= - n < B.
Proof. lia. Qed.

Lemma abs_lt_nonneg (n B : Z) : 0 <= n -> Z.abs n < B -> 0 <= n < B.
Proof. lia. Qed.

Lemma abs_lt_pow4300 (n : Z) : Z.abs n < 10 -> Z.abs n < 10 ^ 4300.
Proof.
  intro H. apply (Z.lt_le_trans _ (10 ^ 1)); [exact H|].
  apply Z.pow_le_mono_r; [reflexivity | discriminate].
Qed.

Lemma str_int_neg_eq (n : Z) : n < 0 ->
  str_int n = string_of_list_ascii (["-"%char] ++ dec_digits (- n)).
Proof. intro Hn. unfold str_int. apply Z.ltb_lt in Hn. rewrite Hn. reflexivity. Qed.

Lemma str_int_nonneg_eq (n : Z) : 0 <= n ->
  str_int n = string_of_list_ascii ([] ++ dec_digits n).
Proof. intro Hn. unfold str_int. apply Z.ltb_ge in Hn. rewrite Hn. reflexivity. Qed.

Lemma dec_digits_all_digits (m : Z) : 0 <= m -> Forall (fun c => is_digit c = true) (dec_digits m).
Proof. intro Hm. exact (dec_digits_fuel_digits (S (Z.to_nat (Z.log2 m))) m [] Hm (Forall_nil _)). Qed.

Lemma dec_digits_no_space (m : Z) : 0 <= m -> Forall (fun c => is_space c = false) (dec_digits m).
Proof.
  intro Hm. refine (Forall_impl _ _ (dec_digits_all_digits m Hm)).
  intros c Hc. apply digit_not_space. exact Hc.
Qed.

(** [int(str(n))] gives back [n] within the 4300-digit limit. *)
Lemma int_of_string_str_int (n : Z) : Z.abs n < 10 ^ 4300 -> int_of_string (str_int n) = Ok n.
Proof.
  intro H. destruct (Z.ltb_spec n 0) as [Hneg|Hneg].
  - rewrite (str_int_neg_eq n Hneg).
    pose proof (Hb := abs_lt_neg n _ Hneg H).
    assert (Hp : 0 <= - n) by apply (proj1 Hb).
    rewrite (int_of_digits true (- n) ["-"%char] Hb).
    + rewrite Z.opp_involutive. reflexivity.
    + rewrite strip_no_space; [reflexivity|].
      constructor; [reflexivity|]. exact (dec_digits_no_space (- n) Hp).
  - rewrite (str_int_nonneg_eq n Hneg).
    pose proof (Hb := abs_lt_nonneg n _ Hneg H).
    rewrite (int_of_digits false n [] Hb); [reflexivity|].
    rewrite strip_no_space by exact (dec_digits_no_space n Hneg).
    rewrite app_nil_l. destruct (dec_digits_cons n) as (c & r & Hcr). rewrite Hcr.
    assert (Hc : is_digit c = true).
    { pose proof (Hd := dec_digits_all_digits n Hneg). rewrite Hcr in Hd. inversion Hd; assumption. }
    unfold parse_sign.
    destruct (digit_not_special c Hc) as (_ & _ & -> & -> & _). reflexivity.
Qed.

Definition nsp (l : list ascii) : Prop := Forall (fun c => is_space c = false) l.

Lemma split_word (w l cur : list ascii) :
  nsp w -> split_aux (w ++ l) cur = split_aux l (rev w ++ cur).
Proof.
  intro Hw. revert cur. induction Hw as [|c w Hc _ IH]; intro cur; [reflexivity|].
  simpl. rewrite Hc, IH. rewrite <- app_assoc. reflexivity.
Qed.

Lemma split_sep (w l : list ascii) :
  w <> [] -> nsp w -> split_aux (w ++ " "%char :: l) [] = w :: split_aux l [].
Proof.
  intros Hne Hw. rewrite split_word by exact Hw. rewrite app_nil_r. simpl.
  destruct (rev w) eqn:E.
  - apply (f_equal (@rev ascii)) in E. rewrite rev_involutive in E. simpl in E. congruence.
  - rewrite <- E, rev_involutive. reflexivity.
Qed.

Lemma split_last (w : list ascii) :
  w <> [] -> nsp w -> split_aux w [] = [w].
Proof.
  intros Hne Hw. rewrite <- (app_nil_r w) at 1. rewrite split_word by exact Hw.
  rewrite app_nil_r. simpl.
  destruct (rev w) eqn:E.
  - apply (f_equal (@rev ascii)) in E. rewrite rev_involutive in E. simpl in E. congruence.
  - rewrite <- E, rev_involutive. reflexivity.
Qed.
Lemma strip_id (l : list ascii) (c : ascii) (r : list ascii) (l' : list ascii) (d : ascii) :
  l = c :: r -> is_space c = false -> l = l' ++ [d] -> is_space d = false -> strip l = l.
Proof.
  intros E1 Hc E2 Hd. unfold strip.
  assert (H1 : strip_left l = l) by (rewrite E1; simpl; rewrite Hc; reflexivity).
  rewrite H1, E2, rev_app_distr. simpl. rewrite Hd. simpl. rewrite rev_involutive. reflexivity.
Qed.

Lemma word_upper (w : string) :
  is_word w = true ->
  list_ascii_of_string (upper w) <> [] /\ nsp (list_ascii_of_string (upper w)).
Proof.
  unfold is_word. intros H. apply andb_true_iff in H as [H1 H2].
  rewrite list_ascii_upper. split.
  - destruct w; [discriminate | simpl; discriminate].
  - pose proof (proj1 (List.forallb_forall _ _) H2) as H3. apply Forall_forall. intros c Hc.
    apply in_map_iff in Hc as (c0 & <- & Hc0). rewrite upper_char_space.
    apply negb_true_iff, H3, Hc0.
Qed.

Lemma str_int_chars (n : Z) :
  exists pre ds, list_ascii_of_string (str_int n) = pre ++ ds /\ ds <> [] /\
    Forall (fun c => is_digit c = true) ds /\ Forall (fun c => c = "-"%char) pre.
Proof.
  pose proof (Hd := fun m (Hm : 0 <= m) => dec_digits_fuel_digits (S (Z.to_nat (Z.log2 m))) m [] Hm (Forall_nil _)).
  unfold str_int. destruct (n <? 0) eqn:Hneg.
  - apply Z.ltb_lt in Hneg. exists ["-"%char], (dec_digits (- n)).
    destruct (dec_digits_cons (- n)) as (c & r & Hcr).
    split; [simpl; rewrite list_ascii_of_string_of_list_ascii; reflexivity|].
    split; [rewrite Hcr; discriminate|]. split; [apply Hd; lia | repeat constructor].
  - apply Z.ltb_ge in Hneg. exists [], (dec_digits n).
    destruct (dec_digits_cons n) as (c & r & Hcr).
    split; [simpl; rewrite list_ascii_of_string_of_list_ascii; reflexivity|].
    split; [rewrite Hcr; discriminate|]. split; [apply Hd; lia | constructor].
Qed.

Lemma upper_app (x y : string) : upper (x ++ y) = (upper x ++ upper y)%string.
Proof. induction x as [|c x IH]; simpl; [reflexivity | unfold upper in *; simpl; rewrite IH; reflexivity]. Qed.

Lemma map_fixed (f : ascii -> ascii) (l : list ascii) :
  Forall (fun c => f c = c) l -> map f l = l.
Proof. induction 1 as [|c l Hc _ IH]; simpl; [reflexivity | rewrite Hc, IH; reflexivity]. Qed.

Lemma upper_str_int (n : Z) : upper (str_int n) = str_int n.
Proof.
  destruct (str_int_chars n) as (pre & ds & E & _ & Hds & Hpre).
  rewrite <- (string_of_list_ascii_of_string (upper (str_int n))), list_ascii_upper, E, map_app.
  rewrite (map_fixed upper_char pre), (map_fixed upper_char ds).
  - rewrite <- E, string_of_list_ascii_of_string. reflexivity.
  - eapply Forall_impl; [intros c Hc; apply upper_char_digit_id; exact Hc | exact Hds].
  - refine (Forall_impl _ _ Hpre); intros c Hc; subst c; reflexivity.
Qed.

Definition priced (a t p : string) (q : Z) : res (option order_request) :=
  match float_of_string (upper p) with
  | Ok price => Ok (Some (mkreq (upper a) (upper t) price q))
  | Exc ValueError => Ok None
  | Exc e => Exc e
  end.

Lemma str_int_word (n : Z) :
  list_ascii_of_string (str_int n) <> [] /\ nsp (list_ascii_of_string (str_int n)) /\
  exists l' d, list_ascii_of_string (str_int n) = l' ++ [d] /\ is_space d = false.
Proof.
  destruct (str_int_chars n) as (pre & ds & E & Hne & Hds & Hpre). rewrite E.
  split; [destruct pre, ds; simpl; congruence|]. split.
  - apply Forall_app; split.
    + refine (Forall_impl _ _ Hpre); intros c Hc; subst c; reflexivity.
    + eapply Forall_impl; [intros c Hc; apply digit_not_space; exact Hc | exact Hds].
  - destruct (exists_last Hne) as (ds' & d & Ed). exists (pre ++ ds'), d.
    rewrite Ed, app_assoc. split; [reflexivity|].
    apply digit_not_space. rewrite Ed in Hds. apply Forall_app in Hds as [_ Hd].
    inversion Hd; assumption.
Qed.

Lemma strip_word_first (w rest : list ascii) :
  w <> [] -> nsp w -> (exists l' d, w ++ rest = l' ++ [d] /\ is_space d = false) ->
  strip (w ++ rest) = w ++ rest.
Proof.
  intros Hne Hw (l' & d & E & Hd). destruct w as [|c r]; [congruence|].
  inversion Hw as [|? ? Hc _]; subst.
  apply (strip_id _ c (r ++ rest) l' d); auto.
Qed.

Lemma app_last4 (A T P l' : list ascii) (d : ascii) :
  A ++ " "%char :: T ++ " "%char :: P ++ " "%char :: (l' ++ [d]) =
  (A ++ " "%char :: T ++ " "%char :: P ++ " "%char :: l') ++ [d].
Proof. rewrite <- !app_assoc. simpl. rewrite <- !app_assoc. simpl. rewrite <- !app_assoc. reflexivity. Qed.

Lemma app_last3 (A T l' : list ascii) (d : ascii) :
  A ++ " "%char :: T ++ " "%char :: (l' ++ [d]) =
  (A ++ " "%char :: T ++ " "%char :: l') ++ [d].
Proof. rewrite <- !app_assoc. simpl. rewrite <- !app_assoc. reflexivity. Qed.

(** X14: a line of three fields separated by single spaces is read as an
    order of one contract, and a line with a fourth field [str(n)] as an
    order of [n] contracts (zero and negative [n] included); the action and
    option type are the upper-cased fields, and the price is [float()] of the
    upper-cased third field, a price [float()] rejects making the line
    ignored. *)
Theorem read_action_fields (a t p : string) (n : Z) :
  is_word a = true -> is_word t = true -> is_word p = true -> Z.abs n < 10 ^ 4300 ->
  read_action (a ++ " " ++ t ++ " " ++ p) = priced a t p 1 /\
  read_action (a ++ " " ++ t ++ " " ++ p ++ " " ++ str_int n) = priced a t p n.
Proof.
  intros Ha Ht Hp Hn.
  destruct (word_upper a Ha) as [Ha1 Ha2].
  destruct (word_upper t Ht) as [Ht1 Ht2].
  destruct (word_upper p Hp) as [Hp1 Hp2].
  destruct (str_int_word n) as (Hn1 & Hn2 & l' & d & El & Hd).
  split.
  - assert (EU : list_ascii_of_string (upper (a ++ " " ++ t ++ " " ++ p)) =
      list_ascii_of_string (upper a) ++ " "%char :: list_ascii_of_string (upper t) ++ " "%char ::
      list_ascii_of_string (upper p)).
    { rewrite !upper_app, !list_ascii_app. reflexivity. }
    unfold read_action, py_split. rewrite EU.
    destruct (exists_last Hp1) as (pl & pd & Epd).
    rewrite strip_word_first; auto.
    2:{ exists (list_ascii_of_string (upper a) ++ " "%char :: list_ascii_of_string (upper t) ++ " "%char :: pl), pd.
        rewrite Epd. split; [apply app_last3|].
        rewrite Epd in Hp2. apply Forall_app in Hp2 as [_ H']. inversion H'; assumption. }
    rewrite list_ascii_of_string_of_list_ascii.
    rewrite split_sep, split_sep, split_last; auto.
    simpl. rewrite !string_of_list_ascii_of_string. reflexivity.
  - assert (EU : list_ascii_of_string (upper (a ++ " " ++ t ++ " " ++ p ++ " " ++ str_int n)) =
      list_ascii_of_string (upper a) ++ " "%char :: list_ascii_of_string (upper t) ++ " "%char ::
      list_ascii_of_string (upper p) ++ " "%char :: list_ascii_of_string (str_int n)).
    { rewrite !upper_app, upper_str_int, !list_ascii_app. reflexivity. }
    unfold read_action, py_split. rewrite EU.
    rewrite strip_word_first; auto.
    2:{ exists (list_ascii_of_string (upper a) ++ " "%char :: list_ascii_of_string (upper t) ++ " "%char ::
               list_ascii_of_string (upper p) ++ " "%char :: l'), d.
        rewrite El. split; [apply app_last4 | exact Hd]. }
    rewrite list_ascii_of_string_of_list_ascii.
    rewrite split_sep, split_sep, split_sep, split_last; auto.
    simpl. rewrite !string_of_list_ascii_of_string.
    rewrite int_of_string_str_int by exact Hn. reflexivity.
Qed.
(** An order of [-3] contracts is accepted as typed. *)
Lemma read_action_fields_witness :
  (Z.abs (-3) < 10 ^ 4300)%Z /\
  read_action ("b" ++ " " ++ "c" ++ " " ++ "1.25")%string = priced "b" "c" "1.25" 1 /\
  read_action ("b" ++ " " ++ "c" ++ " " ++ "1.25" ++ " " ++ str_int (-3))%string = priced "b" "c" "1.25" (-3).
Proof.
  split; [apply abs_lt_pow4300; reflexivity|].
  apply (read_action_fields "b" "c" "1.25" (-3));
    [reflexivity | reflexivity | reflexivity | apply abs_lt_pow4300; reflexivity].
Defined.

Lemma str_compare_lt_trans (a b c : string) :
  String.compare a b = Lt -> String.compare b c = Lt -> String.compare a c = Lt.
Proof.
  revert b c. induction a as [|x a IH]; intros [|y b] [|z c]; simpl; try congruence.
  unfold Ascii.compare.
  destruct (N.compare_spec (N_of_ascii x) (N_of_ascii y)) as [Hxy|Hxy|Hxy];
  destruct (N.compare_spec (N_of_ascii y) (N_of_ascii z)) as [Hyz|Hyz|Hyz];
  try discriminate; intros H1 H2;
  destruct (N.compare_spec (N_of_ascii x) (N_of_ascii z)); try lia; try reflexivity.
  apply (IH b); assumption.
Qed.

Lemma in_insert_str (x y : string) (l : list string) : In y (insert_str x l) <-> y = x \/ In y l.
Proof.
  induction l as [|z l IH]; simpl; [intuition congruence|].
  destruct (str_ltb z x); simpl; [rewrite IH|]; intuition congruence.
Qed.

Definition head_min (acc : list string) : Prop :=
  match acc with
  | [] => True
  | h :: _ => forall z, In z acc -> h = z \/ str_ltb h z = true
  end.

Lemma str_ltb_total (x y : string) : x <> y -> str_ltb y x = false -> str_ltb x y = true.
Proof.
  unfold str_ltb. intros Hne Hyx. rewrite String.compare_antisym.
  destruct (String.compare y x) eqn:E; try discriminate; [|reflexivity].
  apply String.compare_eq_iff in E. congruence.
Qed.

Lemma str_ltb_trans (a b c : string) : str_ltb a b = true -> str_ltb b c = true -> str_ltb a c = true.
Proof.
  unfold str_ltb. destruct (String.compare a b) eqn:E1; try discriminate.
  destruct (String.compare b c) eqn:E2; try discriminate.
  rewrite (str_compare_lt_trans a b c E1 E2). reflexivity.
Qed.

Lemma head_min_insert (x : string) (acc : list string) :
  head_min acc -> ~ In x acc -> head_min (insert_str x acc).
Proof.
  destruct acc as [|y r]; simpl; [intros _ _ z [<-|[]]; left; reflexivity|].
  intros Hm Hx. destruct (str_ltb y x) eqn:Hyx.
  - intros z Hz. destruct Hz as [<-|Hz]; [left; reflexivity|].
    apply in_insert_str in Hz as [->|Hz]; [right; exact Hyx|].
    apply Hm. right. exact Hz.
  - assert (Hxy : str_ltb x y = true) by (apply str_ltb_total; [intro; subst; tauto | exact Hyx]).
    intros z [<-|[<-|Hz]]; [left; reflexivity | right; exact Hxy|].
    right. destruct (Hm z (or_intror Hz)) as [<-|Hyz]; [exact Hxy|].
    exact (str_ltb_trans _ _ _ Hxy Hyz).
Qed.

Lemma sorted_set_fold (xs acc : list string) :
  head_min acc ->
  head_min (fold_left (fun acc x => if existsb (String.eqb x) acc then acc else insert_str x acc) xs acc) /\
  (forall z, In z (fold_left (fun acc x => if existsb (String.eqb x) acc then acc else insert_str x acc) xs acc)
             <-> In z xs \/ In z acc).
Proof.
  revert acc. induction xs as [|x xs IH]; intros acc Hm; simpl; [split; [exact Hm | tauto]|].
  destruct (existsb (String.eqb x) acc) eqn:Hx.
  - destruct (IH acc Hm) as [H1 H2]. split; [exact H1|]. intro z. rewrite H2.
    apply existsb_exists in Hx as (y & Hy & Hxy). apply String.eqb_eq in Hxy. subst y.
    intuition congruence.
  - assert (Hn : ~ In x acc).
    { intro Hi. assert (existsb (String.eqb x) acc = true) by (apply existsb_exists; exists x; split; [exact Hi | apply String.eqb_refl]). congruence. }
    destruct (IH (insert_str x acc) (head_min_insert x acc Hm Hn)) as [H1 H2].
    split; [exact H1|]. intro z. rewrite H2, in_insert_str. intuition.
Qed.

Lemma sorted_set_head (xs : list string) (h : string) (t : list string) :
  sorted_set xs = h :: t -> forall z, In z xs -> h = z \/ str_ltb h z = true.
Proof.
  unfold sorted_set. intros E z Hz.
  destruct (sorted_set_fold xs [] I) as [H1 H2]. rewrite E in H1, H2.
  apply H1. apply H2. left. exact Hz.
Qed.

Lemma sorted_set_in (xs : list string) (z : string) : In z (sorted_set xs) <-> In z xs.
Proof.
  unfold sorted_set. destruct (sorted_set_fold xs [] I) as [_ H2]. rewrite H2. simpl. tauto.
Qed.

Lemma compare_app (u u' v v' : string) :
  String.length u = String.length u' ->
  String.compare (u ++ v) (u' ++ v') = match String.compare u u' with Eq => String.compare v v' | c => c end.
Proof.
  revert u'. induction u as [|x u IH]; intros [|y u'] Hl; simpl in Hl; try discriminate; [reflexivity|].
  simpl. destruct (Ascii.compare x y); [apply IH; congruence | reflexivity | reflexivity].
Qed.

Definition cmp_eqb (c1 c2 : comparison) : bool :=
  match c1, c2 with Eq, Eq | Lt, Lt | Gt, Gt => true | _, _ => false end.

Lemma cmp_eqb_eq (c1 c2 : comparison) : cmp_eqb c1 c2 = true -> c1 = c2.
Proof. destruct c1, c2; simpl; congruence. Qed.

Definition fmt_order_ok (f : Z -> string) (w : nat) (r : list Z) : bool :=
  forallb (fun y => (String.length (f y) =? w)%nat &&
                    forallb (fun y' => cmp_eqb (String.compare (f y) (f y')) (Z.compare y y')) r) r.

Lemma year_order_check : fmt_order_ok (format_0nd 4) 4 (zrange 1969 100) = true.
Proof. vm_compute. reflexivity. Qed.

Lemma pad2_order_check : fmt_order_ok pad2 2 (zrange 1 31) = true.
Proof. vm_compute. reflexivity. Qed.

Lemma fmt_order (f : Z -> string) (w : nat) (r : list Z) (y y' : Z) :
  fmt_order_ok f w r = true -> In y r -> In y' r ->
  String.length (f y) = w /\ String.compare (f y) (f y') = Z.compare y y'.
Proof.
  unfold fmt_order_ok. intros H Hy Hy'.
  pose proof (proj1 (forallb_forall _ _) H y Hy) as Hy1.
  apply andb_true_iff in Hy1 as [Hl Hc]. split; [apply Nat.eqb_eq, Hl|].
  apply cmp_eqb_eq. exact (proj1 (forallb_forall _ _) Hc y' Hy').
Qed.
Lemma strftime_compare (a b : date) :
  valid_date a = true -> valid_date b = true ->
  1969 <= year a <= 2068 -> 1969 <= year b <= 2068 ->
  String.compare (strftime_Ymd a) (strftime_Ymd b) =
  match Z.compare (year a) (year b) with
  | Eq => match Z.compare (month a) (month b) with Eq => Z.compare (day a) (day b) | c => c end
  | c => c
  end.
Proof.
  intros Ha Hb Hya Hyb.
  pose proof (days_in_month_le (year a) (month a)). pose proof (days_in_month_le (year b) (month b)).
  unfold valid_date in Ha, Hb. rewrite !andb_true_iff, !Z.leb_le in Ha, Hb.
  destruct (fmt_order _ _ _ (year a) (year b) year_order_check) as [Hl1 Hc1]; [apply in_zrange; lia | apply in_zrange; lia |].
  destruct (fmt_order _ _ _ (year b) (year a) year_order_check) as [Hl2 _]; [apply in_zrange; lia | apply in_zrange; lia |].
  destruct (fmt_order _ _ _ (month a) (month b) pad2_order_check) as [Hl3 Hc3]; [apply in_zrange; lia | apply in_zrange; lia |].
  destruct (fmt_order _ _ _ (month b) (month a) pad2_order_check) as [Hl4 _]; [apply in_zrange; lia | apply in_zrange; lia |].
  destruct (fmt_order _ _ _ (day a) (day b) pad2_order_check) as [_ Hc5]; [apply in_zrange; lia | apply in_zrange; lia |].
  unfold strftime_Ymd. rewrite compare_app by congruence. rewrite Hc1.
  destruct (Z.compare (year a) (year b)); try reflexivity.
  simpl. rewrite compare_app by congruence. rewrite Hc3.
  destruct (Z.compare (month a) (month b)); try reflexivity.
  simpl. exact Hc5.
Qed.

Lemma date_leb_refl (d : date) : date_leb d d = true.
Proof. unfold date_leb. rewrite Z.ltb_irrefl, !Z.eqb_refl, Z.leb_refl, orb_true_r. reflexivity. Qed.

Lemma in_expirations_source (snaps : list (string * json)) (x : string) :
  In x (flat_map (fun kv => match parse_occ_symbol (fst kv) with
                            | Some parsed => [expiration_date parsed]
                            | None => []
                            end) snaps) ->
  exists o, (exists kv, In kv snaps /\ parse_occ_symbol (fst kv) = Some o) /\ x = expiration_date o.
Proof.
  intro H. apply in_flat_map in H as (kv & Hkv & Hx).
  destruct (parse_occ_symbol (fst kv)) as [o|] eqn:Hp; [|destruct Hx].
  destruct Hx as [<-|[]]. exists o. split; [exists kv; auto | reflexivity].
Qed.

(** X15: [default_expiry = expirations[0]] is the soonest expiration: its date is
    on or before the expiration date of every contract of the chain that
    [parse_occ_symbol] accepts. *)
Theorem expirations_head_soonest (snaps : list (string * json)) (d0 : string) (rest : list string)
    (k : string) (j : json) (o : occ) :
  expirations snaps = d0 :: rest -> In (k, j) snaps -> parse_occ_symbol k = Some o ->
  exists dt0 dt, strptime_Ymd d0 = Some dt0 /\ strptime_Ymd (expiration_date o) = Some dt /\
                 date_leb dt0 dt = true.
Proof.
  unfold expirations. intros E Hk Hp.
  assert (Hx : In (expiration_date o)
                 (flat_map (fun kv => match parse_occ_symbol (fst kv) with
                                      | Some parsed => [expiration_date parsed]
                                      | None => []
                                      end) snaps)).
  { apply in_flat_map. exists (k, j). split; [exact Hk|]. simpl. rewrite Hp. left. reflexivity. }
  destruct (sorted_set_head _ _ _ E _ Hx) as [Heq | Hlt].
  - destruct (parse_occ_symbol_output_spec k o Hp) as [(dt & _ & _ & _ & Hs) _].
    exists dt, dt. rewrite Heq. split; [exact Hs|]. split; [exact Hs | apply date_leb_refl].
  - assert (Hd0 : In d0 (sorted_set (flat_map (fun kv => match parse_occ_symbol (fst kv) with
                                      | Some parsed => [expiration_date parsed]
                                      | None => []
                                      end) snaps))) by (rewrite E; left; reflexivity).
    apply sorted_set_in, in_expirations_source in Hd0 as (o0 & ((k0, j0) & _ & Hp0) & ->).
    destruct (parse_occ_symbol_output_spec k0 o0 Hp0) as [(dt0 & Hv0 & Hy0 & Hf0 & Hs0) _].
    destruct (parse_occ_symbol_output_spec k o Hp) as [(dt & Hv & Hy & Hf & Hs) _].
    exists dt0, dt. split; [exact Hs0|]. split; [exact Hs|].
    unfold str_ltb in Hlt. rewrite Hf0, Hf, strftime_compare in Hlt by assumption.
    unfold date_leb.
    destruct (Z.compare_spec (year dt0) (year dt)) as [H1|H1|H1]; try discriminate.
    + rewrite H1, Z.ltb_irrefl, Z.eqb_refl. simpl.
      destruct (Z.compare_spec (month dt0) (month dt)) as [H2|H2|H2]; try discriminate.
      * rewrite H2, Z.ltb_irrefl, Z.eqb_refl. simpl.
        destruct (Z.compare_spec (day dt0) (day dt)); try discriminate. apply Z.leb_le. lia.
      * apply Z.ltb_lt in H2. rewrite H2. reflexivity.
    + apply Z.ltb_lt in H1. rewrite H1. reflexivity.
Qed.

(** The December expiry comes first although it is listed second. *)
Lemma expirations_head_soonest_witness :
  exists dt0 dt, strptime_Ymd "2023-12-15"%string = Some dt0 /\
    strptime_Ymd (expiration_date (mkocc "SPY"%string "2024-01-19"%string "put"%string 450%float)) = Some dt /\
    date_leb dt0 dt = true.
Proof.
  apply (expirations_head_soonest sample_chain "2023-12-15"%string ["2024-01-19"%string] "SPY240119P00450000"%string JNull
           (mkocc "SPY"%string "2024-01-19"%string "put"%string 450%float));
    [vm_compute; reflexivity | simpl; auto | vm_compute; reflexivity].
Defined.

End MainFacts.

(** ** Adopting a working order *)
Module AdoptFacts.
Import Py PyInt Codec Monitor MonitorFacts MonitorMore Adopt MoreSamples.
Local Open Scope string_scope.
Local Open Scope list_scope.

Section AdoptFacts.
Variable E : env.
Variable adopt_untyped : json -> json -> float -> json -> string -> float -> string -> M bool.

Lemma place_and_monitor_not_open fuel sym q action price intent s :
  String.eqb intent "open" = false ->
  place_and_monitor_order E fuel sym q action price intent s =
    match place_and_poll E fuel sym q action price s with
    | (Done _, s2) => (Done tt, s2)
    | (Raised e, s2) => (Raised e, s2)
    | (Diverged, s2) => (Diverged, s2)
    end.
Proof.
  intro Hi. unfold place_and_monitor_order, mbind at 1.
  destruct (place_and_poll E fuel sym q action price s) as [[a|e|] s2]; [|reflexivity|reflexivity].
  destruct a as [s0|]; [|reflexivity]. rewrite Hi, andb_false_r. reflexivity.
Qed.

(** X16: after monitoring an adopted order to [status], [adopt_order] places a
    closing order on the other side only for a filled order whose intent is
    not ["close"], and that order is placed with intent ["close"], so no
    further closing leg follows. *)
Theorem adopt_order_after_poll fuel o s pi is_close oid sym qj q sd lp price status s1 :
  dict_get o "position_intent" (JStr EmptyString) = Ok pi ->
  py_in "close" pi = Ok is_close ->
  dict_index o "id" = Ok oid ->
  dict_index o "symbol" = Ok (JStr sym) ->
  dict_index o "qty" = Ok qj -> json_to_float qj = Ok q ->
  dict_index o "side" = Ok (JStr sd) ->
  dict_index o "limit_price" = Ok lp -> json_to_float lp = Ok price ->
  poll_loop E fuel (mktracked oid sym (JFloat q) sd (if String.eqb sd "buy" then "B" else "S") price) s
    = (Done status, s1) ->
  adopt_order E adopt_untyped fuel o s =
    if String.eqb status "FILLED" && negb is_close then
      match place_and_poll E fuel sym (JFloat q) (if String.eqb sd "buy" then "S" else "B") 0%float s1 with
      | (Done _, s2) => (Done true, s2)
      | (Raised e, s2) => (Raised e, s2)
      | (Diverged, s2) => (Diverged, s2)
      end
    else (Done true, s1).
Proof.
  intros Hpi Hc Hid Hsym Hq Hqf Hsd Hlp Hpf Hpoll.
  unfold adopt_order.
  rewrite Hpi, bind_lift_ok, Hc, bind_lift_ok, Hid, bind_lift_ok, Hsym, bind_lift_ok,
    Hq, bind_lift_ok, Hqf, bind_lift_ok, Hsd, bind_lift_ok, Hlp, bind_lift_ok, Hpf, bind_lift_ok.
  cbv beta iota. cbn [is_str].
  rewrite (bind_done _ _ _ _ _ Hpoll).
  destruct (String.eqb status "FILLED") eqn:Hf; destruct is_close; cbn [andb negb String.eqb Ascii.eqb Bool.eqb]; try reflexivity.
  unfold mbind at 1. rewrite place_and_monitor_not_open by reflexivity.
  destruct (String.eqb sd "buy"); cbn [String.eqb Ascii.eqb Bool.eqb];
    destruct (place_and_poll E fuel sym (JFloat q) _ 0%float s1) as [[a|e|] s2]; reflexivity.
Qed.

Lemma int_of_string_exc (line : string) (e : exn) : int_of_string line = Exc e -> e = ValueError.
Proof.
  unfold int_of_string. destruct (parse_sign _) as [neg r].
  destruct (remove_underscores r); [congruence|].
  destruct (_ && _ && _); congruence.
Qed.

(** X17: with no open orders to show, [find_and_adopt] returns [false] without
    a prompt and without any further broker call. *)
Theorem find_and_adopt_nothing fuel symbol_input r s :
  success r = false \/ working_orders symbol_input r = Ok [] ->
  find_and_adopt E adopt_untyped fuel symbol_input r s = (Done false, s).
Proof.
  unfold find_and_adopt. intros [H | H].
  - rewrite H. reflexivity.
  - destruct (success r); [|reflexivity]. cbn [negb]. rewrite H. reflexivity.
Qed.

(** X18: a declined single order, or a selection among several orders that is not
    an integer, is [<= 0] or is past the end of the list, adopts nothing:
    [find_and_adopt] reads one line and returns [false] with no broker call. *)
Theorem find_and_adopt_not_chosen fuel symbol_input r w s :
  success r = true -> working_orders symbol_input r = Ok w -> w <> [] ->
  print_orders w = Ok tt ->
  match w with
  | [_] => String.eqb (lower (lines E (n_lines s))) "y" = false
  | _ => match int_of_string (lines E (n_lines s)) with
         | Ok c => (c <= 0 \/ Z.of_nat (List.length w) < c)%Z
         | Exc _ => True
         end
  end ->
  find_and_adopt E adopt_untyped fuel symbol_input r s = (Done false, mkst (n_calls s) (n_keys s) (S (n_lines s)) (log s)).
Proof.
  intros Hs Hw Hne Hp Hc. unfold find_and_adopt. rewrite Hs. cbn [negb].
  rewrite Hw, bind_lift_ok. destruct w as [|o w']; [congruence|].
  cbv beta iota. rewrite Hp, bind_lift_ok. unfold choose_order.
  destruct w' as [|o2 w''].
  - rewrite bind_assoc, bind_input, Hc. reflexivity.
  - rewrite bind_assoc, bind_input. cbv beta iota.
    destruct (int_of_string (lines E (n_lines s))) as [c|e] eqn:Hi.
    + destruct Hc as [Hc | Hc].
      * replace (0 <? c)%Z with false by (symmetry; apply Z.ltb_ge; lia). reflexivity.
      * replace (0 <? c)%Z with true by (symmetry; apply Z.ltb_lt; lia).
        rewrite (proj2 (nth_error_None _ _)); [reflexivity|].
        cbn [List.length] in Hc |- *. lia.
    + rewrite (int_of_string_exc _ _ Hi). reflexivity.
Qed.

End AdoptFacts.

(** A filled opening buy is closed by a sell at the placeholder price 0. *)
Lemma adopt_order_after_poll_witness :
  adopt_order long_env untyped_stub 1 adopt_sample start =
  match place_and_poll long_env 1 sample_symbol (JFloat 1) "S" 0%float
          (snd (poll_loop long_env 1 (mktracked (JStr "o1") sample_symbol (JFloat 1) "buy" "B" 1.25%float) start)) with
  | (Done _, s2) => (Done true, s2)
  | (Raised e, s2) => (Raised e, s2)
  | (Diverged, s2) => (Diverged, s2)
  end.
Proof.
  refine (adopt_order_after_poll long_env untyped_stub 1 adopt_sample start (JStr "buy_to_open") false (JStr "o1")
            sample_symbol (JStr "1") 1%float "buy" (JStr "1.25") 1.25%float "FILLED" _ _ _ _ _ _ _ _ _ _ _);
    vm_compute; reflexivity.
Defined.

(** A failed [get_open_orders] request. *)
Lemma find_and_adopt_nothing_witness :
  find_and_adopt long_env untyped_stub 1 "x" (ApiErr "unavailable") start = (Done false, start).
Proof. apply (find_and_adopt_nothing long_env untyped_stub 1 "x" (ApiErr "unavailable") start). left. reflexivity. Defined.

(** Choice [3] among two orders. *)
Lemma find_and_adopt_not_chosen_witness :
  find_and_adopt (typing_env long_gateway "a" "3") untyped_stub 1 "x" two_orders start =
  (Done false, mkst (n_calls start) (n_keys start) (S (n_lines start)) (log start)).
Proof.
  apply (find_and_adopt_not_chosen (typing_env long_gateway "a" "3") untyped_stub 1 "x" two_orders
           (match working_orders "x" two_orders with Ok w => w | Exc _ => [] end) start);
    [reflexivity | reflexivity | discriminate | reflexivity |].
  vm_compute. right. reflexivity.
Defined.

End AdoptFacts.
